(** * Hybrid recommendation engine: a shallow embedding and its properties

    The development follows the Python package [recommendation_system]:
    [data_loading.py], [feature_engineering.py], [user_profiles.py],
    [matrix_factorization.py], [recommendation_algorithms.py] and [main.py].
    The functions that hand work to a process pool are not modelled.

    Modelling conventions.
    - Python [int] identifiers are [Z]; counts and list positions are [nat].
    - A Python [float] is a rational [Q].  Ratings, weights and scores are
      binary64 numbers: every operation of the code on them is the exact
      operation followed by [rnd64], the rounding to the nearest number of
      53 significant bits, ties to the even one.  The exponent range is not
      modelled: nothing overflows to infinity, underflows or is NaN.  The
      entries of feature vectors, profiles and latent factors are kept as
      exact rationals.
    - A Python [dict] is an association list in insertion order, because the
      code iterates over dictionaries and the order of iteration decides
      rankings and tie-breaks.  A Python [set] is a [gset].
    - The Redis store is a [gmap] from keys to values with a time-to-live.
    - A raised exception is the [Raise] case of [result].
    - numpy's [argsort], scikit-learn's nearest-neighbour search, the clock
      and the process environment are parameters, gathered in [runtime]; so
      are scipy's [svds], the order in which Python lists a set and the
      order in which the server lists its keys, where a function uses them. *)

From Stdlib Require Import QArith Qround Qpower Lqa Ascii String.
From stdpp Require Import gmap strings list pretty sorting.

Local Open Scope string_scope.
Local Open Scope list_scope.

(** ** Exceptions and fallible computations *)

Inductive exn : Set :=
  | KeyError
  | ValueError
  | IndexError
  | ZeroDivisionError
  | RedisError.

Inductive result (A : Type) : Type :=
  | Ok (a : A)
  | Raise (e : exn).
Arguments Ok {A} a.
Arguments Raise {A} e.

#[global] Instance result_ret : MRet result := fun _ a => Ok a.
#[global] Instance result_bind : MBind result := fun _ _ f m =>
  match m with
  | Ok a => f a
  | Raise e => Raise e
  end.

#[global] Instance result_fmap : FMap result := fun _ _ f m =>
  match m with
  | Ok a => Ok (f a)
  | Raise e => Raise e
  end.

Definition is_raise {A} (r : result A) : Prop :=
  match r with
  | Ok _ => False
  | Raise _ => True
  end.

(** ** Python lists and dictionaries *)

(** [l[i]] for a non-negative position. *)
Definition list_item {A} (l : list A) (i : nat) : result A :=
  match l !! i with
  | Some x => Ok x
  | None => Raise IndexError
  end.

(** [l.index(x)]: the first position of [x], [ValueError] when absent. *)
Definition list_index `{EqDecision A} (l : list A) (x : A) : result nat :=
  match list_find (fun y => y = x) l with
  | Some (i, _) => Ok i
  | None => Raise ValueError
  end.

Definition dict (K V : Type) : Type := list (K * V).

Section Dict.
Context `{EqDecision K} {V : Type}.

Fixpoint dict_get (d : dict K V) (k : K) : option V :=
  match d with
  | [] => None
  | (k', v) :: d' => if decide (k' = k) then Some v else dict_get d' k
  end.

(** [k in d] *)
Definition dict_mem (d : dict K V) (k : K) : bool :=
  bool_decide (is_Some (dict_get d k)).

(** [d[k]] *)
Definition dict_item (d : dict K V) (k : K) : result V :=
  match dict_get d k with
  | Some v => Ok v
  | None => Raise KeyError
  end.

Definition dict_keys (d : dict K V) : list K := d.*1.
Definition dict_values (d : dict K V) : list V := d.*2.

(** [d[k] = f(d[k])] on a [defaultdict] whose factory yields [dflt]: an
    existing key keeps its place, a new key is appended. *)
Fixpoint dd_update (dflt : V) (f : V -> V) (k : K) (d : dict K V) : dict K V :=
  match d with
  | [] => [(k, f dflt)]
  | (k', v) :: d' =>
      if decide (k' = k) then (k', f v) :: d'
      else (k', v) :: dd_update dflt f k d'
  end.
End Dict.

(** ** Binary floating point

    A finite binary64 number is a rational, and an operation on such
    numbers returns the exact result rounded to the nearest number with a
    significand of 53 bits; of two nearest ones, the one with the even
    significand. *)

(** The integer nearest to [q], the even one of two nearest. *)
Definition nearest_even (q : Q) : Z :=
  let f := Qfloor q in
  match Qcompare (q - inject_Z f) (1 # 2) with
  | Lt => f
  | Gt => (f + 1)%Z
  | Eq => if Z.even f then f else (f + 1)%Z
  end.

(** The exponent [e] with [2 ^ e <= q < 2 ^ (e + 1)], for a positive [q]. *)
Definition binade (q : Q) : Z :=
  let e := (Z.log2 (Qnum q) - Z.log2 (Zpos (Qden q)))%Z in
  if Qle_bool (2 ^ e) q then e else (e - 1)%Z.

(** A positive [q] rounded to 53 significant bits. *)
Definition round53 (q : Q) : Q :=
  let ulp := (2 ^ (binade q - 52))%Q in
  (inject_Z (nearest_even (q / ulp)) * ulp)%Q.

(** The binary64 number nearest to [q]: what [float(...)] makes of a decimal
    numeral or of an [int], and what an arithmetic operation makes of its
    exact result. *)
Definition rnd64 (q : Q) : Q :=
  match Qcompare q 0 with
  | Eq => 0%Q
  | Gt => round53 q
  | Lt => (- round53 (- q))%Q
  end.

(** ** Stable sorting by a rational key, largest first

    [sorted(items, key=..., reverse=True)]: Python's sort is stable, and with
    [reverse=True] elements of equal key keep their original order. *)

Section SortedDesc.
Context {A : Type} (key : A -> Q).

Fixpoint insert_desc (x : A) (l : list A) : list A :=
  match l with
  | [] => [x]
  | y :: l' =>
      if Qlt_le_dec (key x) (key y) then y :: insert_desc x l'
      else x :: l
  end.

Definition sorted_desc (l : list A) : list A := foldr insert_desc [] l.

(** Largest key first: every element is at least as large as all later ones. *)
Definition descending (l : list A) : Prop :=
  StronglySorted (fun a b => (key b <= key a)%Q) l.
End SortedDesc.

#[local] Instance Qeq_decision (x y : Q) : Decision (x == y)%Q := Qeq_dec x y.

(** ** Feature vectors ([feature_engineering.py]) *)

Record product : Type := {
  product_name : string;
  category : string;
  tags : list string;
  rating : Q;
  device_suitability : list string;
}.

(** The loop [for tag in product["tags"]: tag_vector[all_tags.index(tag)] = 1]. *)
Fixpoint mark_tags (all_tags : list string) (ts : list string) (tag_vector : list Q)
  : result (list Q) :=
  match ts with
  | [] => Ok tag_vector
  | tag :: ts' =>
      i ← list_index all_tags tag;
      mark_tags all_tags ts' (<[i := 1%Q]> tag_vector)
  end.

Definition create_product_feature_vector
    (p : product) (all_tags all_categories : list string) : result (list Q) :=
  let tag_vector := replicate (length all_tags) 0%Q in
  let category_vector := replicate (length all_categories) 0%Q in
  tag_vector ← mark_tags all_tags (tags p) tag_vector;
  c ← list_index all_categories (category p);
  Ok (tag_vector ++ <[c := 1%Q]> category_vector).

(** ** Data model ([data_loading.py]) *)

Record user : Type := {
  user_name : string;
  location : string;
  device : string;
}.

Record signals : Type := {
  peak_days : list string;
  season : string;
}.

(** A purchase is [(product_id, quantity, timestamp)], a browsing event is
    [(product_id, timestamp)]. *)
Definition purchase : Type := Z * Z * string.
Definition browse : Type := Z * string.

Definition purchased_id (p : purchase) : Z := p.1.1.

(** [{p[0] for p in purchase_history.get(user_id, [])}] *)
Definition purchased_products
    (purchase_history : dict Z (list purchase)) (user_id : Z) : gset Z :=
  list_to_set (purchased_id <$> default [] (dict_get purchase_history user_id)).

(** ** The parts of the run-time environment the code calls into *)

Record runtime : Type := {
  (** [np.argsort(scores)]: positions of [scores] in ascending order of
      value; numpy does not fix the order of equal values. *)
  np_argsort : list Q -> list nat;
  (** [NearestNeighbors(n_neighbors=n, metric="cosine").fit(X).kneighbors([q])]:
      the positions in [X] of the [n] rows nearest to [q]. *)
  kneighbors : nat -> list (list Q) -> list Q -> result (list nat);
  (** [datetime.now().strftime("%A")] *)
  current_day : string;
  (** [os.environ]: each value is the decimal number that its text writes *)
  environ : dict string Q;
}.

(** [float(os.getenv(name, default))]: the binary64 number nearest to the
    decimal number of the variable, or to the default. *)
Definition getenv_float (rt : runtime) (name : string) (dflt : Q) : Q :=
  rnd64 (default dflt (dict_get (environ rt) name)).

(** ** Signal recommenders ([recommendation_algorithms.py]) *)

Definition dot (u v : list Q) : Q :=
  foldr Qplus 0%Q (zip_with Qmult u v).

(** [item_factors @ user_vector]: every row must have the vector's length. *)
Definition matvec (m : list (list Q)) (v : list Q) : result (list Q) :=
  mapM (fun row => if decide (length row = length v) then Ok (dot row v)
                   else Raise ValueError) m.

Definition recommend_products_mf (rt : runtime)
    (user_id : Z) (user_factors item_factors : list (list Q))
    (user_index : dict Z nat) (product_index : dict Z nat)
    (purchase_history : dict Z (list purchase)) (top_n : nat)
  : result (list Z) :=
  if negb (dict_mem user_index user_id) then Ok []
  else
    row ← dict_item user_index user_id;
    user_vector ← list_item user_factors row;
    scores ← matvec item_factors user_vector;
    let sorted_indices := reverse (np_argsort rt scores) in
    sorted_products ← mapM (list_item (dict_keys product_index)) sorted_indices;
    let purchased := purchased_products purchase_history user_id in
    Ok (take top_n (filter (fun pid => pid ∉ purchased) sorted_products)).

(** The loop over [indices[0]] of [recommend_products_cbf]. *)
Fixpoint cbf_collect (keys : list Z) (purchased : gset Z)
    (indices : list nat) (recommendations : list Z) : result (list Z) :=
  match indices with
  | [] => Ok recommendations
  | idx :: rest =>
      product_id ← list_item keys idx;
      cbf_collect keys purchased rest
        (if decide (product_id ∉ purchased) then recommendations ++ [product_id]
         else recommendations)
  end.

Definition recommend_products_cbf (rt : runtime)
    (user_id : Z) (user_profiles : dict Z (list Q))
    (product_feature_vectors : dict Z (list Q))
    (purchase_history : dict Z (list purchase)) (top_n : nat)
  : result (list Z) :=
  user_profile ← dict_item user_profiles user_id;
  indices ← kneighbors rt top_n (dict_values product_feature_vectors) user_profile;
  recommendations ←
    cbf_collect (dict_keys product_feature_vectors)
      (purchased_products purchase_history user_id) indices [];
  Ok (take top_n recommendations).

Definition recommend_popular_trending_products
    (user_id : Z) (popular_products : list (Z * Q))
    (purchase_history : dict Z (list purchase)) (top_n : nat) : list Z :=
  let purchased := purchased_products purchase_history user_id in
  take top_n (filter (fun x => x.1 ∉ purchased) popular_products).*1.

Definition recommend_products_time_based (rt : runtime)
    (season_input : list string) (products : dict Z product)
    (contextual_signals : dict string signals) : list Z :=
  let trending_categories : gset string :=
    list_to_set
      (filter (fun cs => current_day rt ∈ peak_days cs.2 ∧ season cs.2 ∈ season_input)
         contextual_signals).*1 in
  (filter (fun x => category x.2 ∈ trending_categories) products).*1.

Definition recommend_products_device_based
    (user_id : Z) (users : dict Z user) (products : dict Z product)
    (purchase_history : dict Z (list purchase)) (top_n : nat) : list Z :=
  match dict_get users user_id with
  | None => []
  | Some u =>
      let device_type := device u in
      let device_recommendations :=
        (filter (fun x => device_type ∈ device_suitability x.2) products).*1 in
      let device_recommendations :=
        match dict_get purchase_history user_id with
        | Some purchases =>
            let purchased : gset Z := list_to_set (purchased_id <$> purchases) in
            filter (fun pid => pid ∉ purchased) device_recommendations
        | None => device_recommendations
        end in
      take top_n device_recommendations
  end.

(** ** Popularity ranking ([main.py], [compute_product_popularity]) *)

(** [d[k] = v] *)
Definition dict_set `{EqDecision K} {V} (k : K) (v : V) (d : dict K V) : dict K V :=
  dd_update v (fun _ => v) k d.

(** The two nested loops that count purchases per product, in the order of
    traversal of [purchase_history.values()]. *)
Definition purchase_frequency (purchase_history : dict Z (list purchase)) : dict Z Z :=
  foldl (fun freq pid => dd_update 0%Z Z.succ pid freq) []
    (purchased_id <$> concat (dict_values purchase_history)).

(** The loop [for product_id in purchase_frequency]. *)
Fixpoint weigh_products (products : dict Z product) (rating_weight frequency_weight : Q)
    (freq : list (Z * Z)) (product_popularity : dict Z Q) : result (dict Z Q) :=
  match freq with
  | [] => Ok product_popularity
  | (product_id, frequency) :: rest =>
      p ← dict_item products product_id;
      weigh_products products rating_weight frequency_weight rest
        (dict_set product_id
           (rnd64 (rnd64 (rating_weight * rating p)
                   + rnd64 (frequency_weight * rnd64 (inject_Z frequency))))
           product_popularity)
  end.

(** [max(values, default=dflt)] *)
Definition py_max (dflt : Q) (l : list Q) : Q :=
  match l with
  | [] => dflt
  | x :: l' => foldl (fun m y => if Qlt_le_dec m y then y else m) x l'
  end.

(** [x / y] on floats *)
Definition true_div (x y : Q) : result Q :=
  if Qeq_bool y 0 then Raise ZeroDivisionError else Ok (rnd64 (x / y)).

Definition compute_product_popularity
    (purchase_history : dict Z (list purchase)) (products : dict Z product)
    (rating_weight frequency_weight : Q) : result (list (Z * Q)) :=
  let purchase_frequency := purchase_frequency purchase_history in
  product_popularity ←
    weigh_products products rating_weight frequency_weight purchase_frequency [];
  let max_popularity := py_max 1 (dict_values product_popularity) in
  product_popularity ←
    mapM (fun x => s ← true_div x.2 max_popularity; Ok (x.1, s)) product_popularity;
  Ok (sorted_desc snd product_popularity).

(** The defaults of the keyword arguments. *)
Definition default_rating_weight : Q := rnd64 (7 # 10).
Definition default_frequency_weight : Q := rnd64 (3 # 10).

(** ** The cache ([setup.py], [main.py]) *)

(** An element of a returned list: an [(id, explanation)] pair, or a bare id. *)
Inductive rec_entry : Type :=
  | Explained (product_id : Z) (explanation : string)
  | Bare (product_id : Z).

(** A stored payload: the JSON text of a list of entries, or text that
    [json.loads] rejects, the empty text included.  These are the payloads
    this development follows; bytes that are not text and the JSON text of
    a value that is not a list of entries are not among them. *)
Inductive blob : Type :=
  | Json (recs : list rec_entry)
  | Garbled (raw : string).

(** The Redis server as the client sees it: the stored entries with their
    time-to-live, and for each coming call whether the connection fails. *)
Record redis : Type := {
  entries : gmap string (nat * blob);
  outages : list bool;
}.

Definition redis_connect (r : redis) : bool * redis :=
  match outages r with
  | [] => (false, r)
  | down :: rest => (down, {| entries := entries r; outages := rest |})
  end.

(** [redis_client.get(key)] *)
Definition redis_get (key : string) (r : redis) : result (option blob) * redis :=
  let '(down, r') := redis_connect r in
  if down then (Raise RedisError, r')
  else (Ok (snd <$> entries r' !! key), r').

(** [redis_client.setex(key, ttl, value)] *)
Definition redis_setex (key : string) (ttl : nat) (value : blob) (r : redis)
  : result unit * redis :=
  let '(down, r') := redis_connect r in
  if down then (Raise RedisError, r')
  else (Ok tt, {| entries := <[key := (ttl, value)]> (entries r'); outages := outages r' |}).

(** The handlers of [cache_recommendations] catch [TypeError] and
    [json.JSONDecodeError] only, so an error of the store passes through. *)
Definition cache_recommendations
    (user_id : Z) (season_input : list string) (recommendations : list rec_entry)
    (ttl : nat) (r : redis) : result unit * redis :=
  let cache_key :=
    "recommendations:" +:+ pretty user_id +:+ ":" +:+ String.concat "," season_input in
  redis_setex cache_key ttl (Json recommendations) r.

(** The call to the store stands outside the [try] block. *)
Definition get_cached_recommendations
    (user_id : Z) (season_input : list string) (r : redis)
  : result (option (list rec_entry)) * redis :=
  let cache_key :=
    "recommendations:" +:+ pretty user_id +:+ ":" +:+ String.concat "," season_input in
  match redis_get cache_key r with
  | (Raise e, r') => (Raise e, r')
  | (Ok None, r') => (Ok None, r')
  | (Ok (Some (Garbled _)), r') => (Ok None, r')
  | (Ok (Some (Json recs)), r') => (Ok (Some recs), r')
  end.

Definition default_ttl : nat := 3600.

(** ** The hybrid engine ([main.py], [recommend_products_hybrid]) *)

Inductive source : Set :=
  | mf
  | cbf
  | popular
  | time_based
  | device_based.

(** [EXPLANATION_TEMPLATES] *)
Definition explanation_template (s : source) : string :=
  match s with
  | mf => "Recommended because users similar to you purchased this."
  | cbf => "Recommended because it matches your interests."
  | popular => "Recommended because it's popular among other users."
  | time_based => "Recommended because it's trending this season."
  | device_based => "Recommended because it's suitable for your device."
  end.

(** [weight * (1 - i / len(recommendations))]: a division of integers, a
    subtraction and a multiplication, each rounded. *)
Definition position_score (weight : Q) (i len : nat) : Q :=
  rnd64 (weight * rnd64 (1 - rnd64 (inject_Z (Z.of_nat i) / inject_Z (Z.of_nat len)))).

(** [recommendation_scores] and [recommendation_sources]. *)
Definition tally : Type := dict Z Q * dict Z (list source).

(** One of the five loops [for i, product_id in enumerate(recommendations)],
    from position [i] on; [len] is the length of the whole list. *)
Fixpoint add_signal_from (weight : Q) (src : source) (len i : nat)
    (recommendations : list Z) (t : tally) : tally :=
  match recommendations with
  | [] => t
  | product_id :: rest =>
      add_signal_from weight src len (S i) rest
        (dd_update 0%Q (fun s => rnd64 (s + position_score weight i len)) product_id t.1,
         dd_update [] (fun l => l ++ [src]) product_id t.2)
  end.

Definition add_signal (weight : Q) (src : source) (recommendations : list Z) (t : tally)
  : tally :=
  add_signal_from weight src (length recommendations) 0 recommendations t.

(** The weights, read from the environment with their defaults. *)
Definition signal_weights (rt : runtime) (is_new_user : bool) : Q * Q * Q * Q * Q :=
  let mf_weight := getenv_float rt "MF_WEIGHT" (1 # 2) in
  let cbf_weight := getenv_float rt "CBF_WEIGHT" (2 # 5) in
  let popular_weight := getenv_float rt "POPULAR_WEIGHT" (3 # 10) in
  let time_base_weight := getenv_float rt "TIME_BASE_WEIGHT" (1 # 5) in
  let device_weight := getenv_float rt "DEVICE_WEIGHT" (1 # 5) in
  if is_new_user then
    (getenv_float rt "NEW_USER_MF_WEIGHT" 0,
     getenv_float rt "NEW_USER_CBF_WEIGHT" 0,
     getenv_float rt "NEW_USER_POPULAR_WEIGHT" (1 # 2),
     getenv_float rt "NEW_USER_TIME_BASE_WEIGHT" (3 # 10),
     getenv_float rt "NEW_USER_DEVICE_WEIGHT" (1 # 5))
  else (mf_weight, cbf_weight, popular_weight, time_base_weight, device_weight).

(** The five loops, in the order of the source. *)
Definition fuse_signals (w : Q * Q * Q * Q * Q)
    (mf_recommendations cbf_recommendations popular_recommendations
     time_based_recommendations device_recommendations : list Z) : tally :=
  let '(mf_weight, cbf_weight, popular_weight, time_base_weight, device_weight) := w in
  add_signal device_weight device_based device_recommendations
    (add_signal time_base_weight time_based time_based_recommendations
       (add_signal popular_weight popular popular_recommendations
          (add_signal cbf_weight cbf cbf_recommendations
             (add_signal mf_weight mf mf_recommendations ([], []))))).

(** Sorting, truncation and the explanation of each kept product. *)
Definition top_recommendations (t : tally) (top_n : nat) : list (Z * string) :=
  let sorted_recommendations := sorted_desc snd t.1 in
  (fun x =>
     let sources := default [] (dict_get t.2 x.1) in
     (x.1, String.concat ", " (explanation_template <$> sources)))
    <$> take top_n sorted_recommendations.

(** Which [return] statement ended the call, with the value it returned. *)
Inductive outcome : Type :=
  | FromCache (recs : list rec_entry)
  | NewUser (recs : list (Z * string))
  | PopularFallback (ids : list Z)
  | Fused (recs : list (Z * string)).

Definition explained (recs : list (Z * string)) : list rec_entry :=
  (fun x => Explained x.1 x.2) <$> recs.

(** The Python value handed to the caller. *)
Definition returned (o : outcome) : list rec_entry :=
  match o with
  | FromCache recs => recs
  | NewUser recs => explained recs
  | PopularFallback ids => Bare <$> ids
  | Fused recs => explained recs
  end.

Definition nonempty {A} (l : list A) : bool :=
  match l with
  | [] => false
  | _ :: _ => true
  end.

Section Hybrid.
Variable rt : runtime.
Variables (user_id : Z) (season_input : list string).
Variables (users : dict Z user) (products : dict Z product).
Variable contextual_signals : dict string signals.
Variable browsing_history : dict Z (list browse).
Variable purchase_history : dict Z (list purchase).
Variable popular_products : list (Z * Q).
Variables user_factors item_factors : list (list Q).
Variables user_index product_index : dict Z nat.
Variables user_profiles product_feature_vectors : dict Z (list Q).
Variable top_n : nat.

(** Lines 107 to 159: the two context signals, the fallback test, the
    fusion and the cache write. *)
Definition fused_outcome (is_new_user : bool)
    (popular_recommendations mf_recommendations cbf_recommendations : list Z)
    (r1 : redis) : result outcome * redis :=
  let time_based_recommendations :=
    recommend_products_time_based rt season_input products contextual_signals in
  let device_recommendations :=
    recommend_products_device_based user_id users products purchase_history top_n in
  if negb (existsb nonempty
             [mf_recommendations; cbf_recommendations;
              time_based_recommendations; device_recommendations])
  then (Ok (PopularFallback (take top_n popular_recommendations)), r1)
  else
    let t :=
      fuse_signals (signal_weights rt is_new_user)
        mf_recommendations cbf_recommendations popular_recommendations
        time_based_recommendations device_recommendations in
    let top := top_recommendations t top_n in
    match cache_recommendations user_id season_input (explained top)
            default_ttl r1 with
    | (Raise e, r2) => (Raise e, r2)
    | (Ok _, r2) => (Ok (Fused top), r2)
    end.

(** Lines 95 to 105: the new-user test and the two collaborative signals. *)
Definition computed_outcome (r1 : redis) : result outcome * redis :=
  let is_new_user :=
    negb (dict_mem browsing_history user_id)
    && negb (dict_mem purchase_history user_id) in
  let popular_recommendations :=
    recommend_popular_trending_products user_id popular_products
      purchase_history top_n in
  if is_new_user then
    (Ok (NewUser ((fun pid => (pid, explanation_template popular))
                    <$> popular_recommendations)), r1)
  else
    let collaborative :=
      mf_recommendations ←
        (if is_new_user then Ok []
         else recommend_products_mf rt user_id user_factors item_factors
                user_index product_index purchase_history top_n);
      cbf_recommendations ←
        (if is_new_user then Ok []
         else recommend_products_cbf rt user_id user_profiles
                product_feature_vectors purchase_history top_n);
      Ok (mf_recommendations, cbf_recommendations) in
    match collaborative with
    | Raise e => (Raise e, r1)
    | Ok (mf_recommendations, cbf_recommendations) =>
        fused_outcome is_new_user popular_recommendations
          mf_recommendations cbf_recommendations r1
    end.

(** Lines 91 to 93, then the computation: a cached list is returned only
    when it is not empty. *)
Definition hybrid_outcome (r : redis) : result outcome * redis :=
  match get_cached_recommendations user_id season_input r with
  | (Raise e, r1) => (Raise e, r1)
  | (Ok (Some (entry :: cached)), r1) => (Ok (FromCache (entry :: cached)), r1)
  | (Ok _, r1) => computed_outcome r1
  end.

Definition recommend_products_hybrid (r : redis)
  : result (list rec_entry) * redis :=
  let '(o, r') := hybrid_outcome r in (returned <$> o, r').
End Hybrid.

(** ** The sample data of [load_data] *)

Module Sample.

Definition users : dict Z user := [
  (1, {| user_name := "Alice"; location := "New York"; device := "mobile" |});
  (2, {| user_name := "Bob"; location := "Los Angeles"; device := "desktop" |});
  (3, {| user_name := "Charlie"; location := "Chicago"; device := "mobile" |});
  (4, {| user_name := "Diana"; location := "San Francisco"; device := "desktop" |});
  (5, {| user_name := "Mary"; location := "San Francisco"; device := "desktop" |})
]%Z.

Definition products : dict Z product := [
  (101, {| product_name := "Wireless Earbuds"; category := "Electronics";
           tags := ["audio"; "wireless"; "Bluetooth"]; rating := rnd64 (45 # 10);
           device_suitability := ["mobile"; "tablet"] |});
  (102, {| product_name := "Smartphone Case"; category := "Accessories";
           tags := ["phone"; "protection"; "case"]; rating := rnd64 (42 # 10);
           device_suitability := ["mobile"] |});
  (103, {| product_name := "Yoga Mat"; category := "Fitness";
           tags := ["exercise"; "mat"; "yoga"]; rating := rnd64 (47 # 10);
           device_suitability := ["tablet"] |});
  (104, {| product_name := "Electric Toothbrush"; category := "Personal Care";
           tags := ["hygiene"; "electric"; "toothbrush"]; rating := rnd64 (43 # 10);
           device_suitability := ["mobile"] |});
  (105, {| product_name := "Laptop Stand"; category := "Office Supplies";
           tags := ["work"; "laptop"; "stand"]; rating := rnd64 (46 # 10);
           device_suitability := ["desktop"] |})
]%Z.

Definition browsing_history : dict Z (list browse) := [
  (1, [(101, "2025-03-04 10:00:00"); (103, "2023-10-01 10:05:00")]);
  (2, [(102, "2025-03-04 11:30:00")]);
  (3, [(104, "2025-03-04 14:30:00")]);
  (4, [(105, "2025-03-04 16:30:00")])
]%Z.

Definition purchase_history : dict Z (list purchase) := [
  (1, [(101, 1, "2025-03-04 10:00:00")]);
  (2, [(105, 2, "2025-03-04 12:00:00")]);
  (3, [(103, 1, "2025-03-04 12:00:00")]);
  (4, [(101, 1, "2025-03-04 12:00:00")])
]%Z.

Definition contextual_signals : dict string signals := [
  ("Electronics", {| peak_days := ["Friday"; "Saturday"]; season := "Holiday" |});
  ("Fitness", {| peak_days := ["Monday"; "Wednesday"]; season := "Summer" |});
  ("Office Supplies", {| peak_days := ["Tuesday"; "Thursday"]; season := "Back-to-School" |});
  ("Personal Care", {| peak_days := ["Sunday"]; season := "All Year" |})
].

End Sample.

(** ** A second data set: two products, one registered user

    User 1 is registered, has bought product 101 and has a profile.  User 6
    has bought product 102 and has a profile, but is registered neither in
    [users] nor in [user_index]. *)

Module Duo.

Definition users : dict Z user := [
  (1, {| user_name := "Alice"; location := "New York"; device := "mobile" |})
]%Z.

Definition products : dict Z product := [
  (101, {| product_name := "Wireless Earbuds"; category := "Electronics";
           tags := ["audio"; "wireless"; "Bluetooth"]; rating := rnd64 (45 # 10);
           device_suitability := ["mobile"; "tablet"] |});
  (102, {| product_name := "Smartphone Case"; category := "Accessories";
           tags := ["phone"; "protection"; "case"]; rating := rnd64 (42 # 10);
           device_suitability := ["mobile"] |})
]%Z.

Definition browsing_history : dict Z (list browse) := [
  (1, [(101, "2025-03-04 10:00:00")])
]%Z.

Definition purchase_history : dict Z (list purchase) := [
  (1, [(101, 1, "2025-03-04 10:00:00")]);
  (6, [(102, 1, "2025-03-04 12:00:00")])
]%Z.

Definition contextual_signals : dict string signals := [
  ("Electronics", {| peak_days := ["Friday"; "Saturday"]; season := "Holiday" |})
].

Definition user_index : dict Z nat := [(1%Z, 0%nat)].
Definition product_index : dict Z nat := [(101%Z, 0%nat); (102%Z, 1%nat)].

(** All-zero latent factors of rank 1: every product scores 0 for every user. *)
Definition user_factors : list (list Q) := [[0%Q]].
Definition item_factors : list (list Q) := [[0%Q]; [0%Q]].

Definition all_tags : list string :=
  ["audio"; "wireless"; "Bluetooth"; "phone"; "protection"; "case"].
Definition all_categories : list string := ["Electronics"; "Accessories"].

Definition vector_101 : list Q := [1; 1; 1; 0; 0; 0; 1; 0]%Q.
Definition vector_102 : list Q := [0; 0; 0; 1; 1; 1; 0; 1]%Q.

Definition product_feature_vectors : dict Z (list Q) :=
  [(101%Z, vector_101); (102%Z, vector_102)].

(** Each profile is the mean over the single product the user interacted with. *)
Definition user_profiles : dict Z (list Q) :=
  [(1%Z, vector_101); (6%Z, vector_102)].

(** [compute_product_popularity(purchase_history, products)]: both products
    were bought once, so 101 scores 1 and 102 a little less. *)
Definition popular_products : list (Z * Q) :=
  match compute_product_popularity purchase_history products
          default_rating_weight default_frequency_weight with
  | Ok ranking => ranking
  | Raise _ => []
  end.

(** A Friday.  Both item scores are zero and [argsort] leaves them in place;
    the rows nearest to a profile are that product's own row, then the other. *)
Definition friday (nearest : list nat) : runtime := {|
  np_argsort := fun scores => seq 0 (length scores);
  kneighbors := fun n _ _ => Ok (take n nearest);
  current_day := "Friday";
  environ := [];
|}.

Definition empty_cache : redis := {| entries := ∅; outages := [] |}.

(** User 1 asks for two recommendations on a Friday of the Holiday season. *)
Definition alice_request (r : redis) : result outcome * redis :=
  hybrid_outcome (friday [0; 1]%nat) 1 ["Holiday"] users products
    contextual_signals browsing_history purchase_history popular_products
    user_factors item_factors user_index product_index user_profiles
    product_feature_vectors 2 r.

(** User 6 asks for one recommendation, with no active season. *)
Definition guest_request (r : redis) : result outcome * redis :=
  hybrid_outcome (friday [1; 0]%nat) 6 [] users products
    contextual_signals browsing_history purchase_history popular_products
    user_factors item_factors user_index product_index user_profiles
    product_feature_vectors 1 r.


End Duo.

(** ** A third data set: two products of equal rating, each bought once *)

Module Ties.

Definition products : dict Z product := [
  (201, {| product_name := "Desk Lamp"; category := "Office Supplies";
           tags := ["work"]; rating := rnd64 (45 # 10);
           device_suitability := ["desktop"] |});
  (202, {| product_name := "Desk Mat"; category := "Office Supplies";
           tags := ["work"]; rating := rnd64 (45 # 10);
           device_suitability := ["desktop"] |})
]%Z.

Definition purchase_history : dict Z (list purchase) := [
  (1, [(201, 1, "2025-03-04 10:00:00")]);
  (2, [(202, 1, "2025-03-04 12:00:00")])
]%Z.

End Ties.

(** ** A data set whose two products score 3.73 in exact arithmetic

    Product 1, rated 1.9, was bought eight times and product 2, rated 4.9,
    once: 0.7 × 1.9 + 0.3 × 8 and 0.7 × 4.9 + 0.3 × 1 are both 3.73, but in
    binary64 the first sum is 3.7299999999999995. *)

Module Pair.

Definition products : dict Z product := [
  (1, {| product_name := "Pencil"; category := "Stationery";
         tags := ["paper"]; rating := rnd64 (19 # 10);
         device_suitability := ["desktop"] |});
  (2, {| product_name := "Desk Lamp"; category := "Office Supplies";
         tags := ["work"]; rating := rnd64 (49 # 10);
         device_suitability := ["desktop"] |})
]%Z.

Definition purchase_history : dict Z (list purchase) := [
  (1, replicate 8 (1, 1, "2025-03-04 10:00:00"));
  (2, [(2, 1, "2025-03-04 12:00:00")])
]%Z.

End Pair.

(** ** A fourth data set: five products on a shelf

    Users 1 and 9 have both bought products 7 and 8, which is why their
    profile is the mean of these two products' vectors and why the two
    products nearest to it are 7 and 8; user 2 has bought product 30.  Only
    user 1 is registered. *)

Module Shelf.

Definition users : dict Z user := [
  (1, {| user_name := "Alice"; location := "New York"; device := "mobile" |})
]%Z.

Definition products : dict Z product := [
  (7, {| product_name := "Notebook"; category := "Stationery";
         tags := ["paper"]; rating := rnd64 (40 # 10);
         device_suitability := ["desktop"] |});
  (8, {| product_name := "Fountain Pen"; category := "Stationery";
         tags := ["ink"]; rating := rnd64 (40 # 10);
         device_suitability := ["desktop"] |});
  (20, {| product_name := "Phone Stand"; category := "Office Supplies";
          tags := ["phone"]; rating := rnd64 (40 # 10);
          device_suitability := ["mobile"] |});
  (30, {| product_name := "Yoga Mat"; category := "Fitness";
          tags := ["yoga"]; rating := rnd64 (40 # 10);
          device_suitability := ["tablet"] |});
  (50, {| product_name := "Wireless Earbuds"; category := "Electronics";
          tags := ["audio"]; rating := rnd64 (40 # 10);
          device_suitability := ["mobile"; "tablet"] |})
]%Z.

Definition browsing_history : dict Z (list browse) := [].

Definition purchase_history : dict Z (list purchase) := [
  (1, [(7, 1, "2025-03-04 10:00:00"); (8, 1, "2025-03-04 10:05:00")]);
  (2, [(30, 1, "2025-03-04 12:00:00")]);
  (9, [(7, 1, "2025-03-05 09:00:00"); (8, 1, "2025-03-05 09:05:00")])
]%Z.

Definition contextual_signals : dict string signals := [
  ("Electronics", {| peak_days := ["Friday"; "Saturday"]; season := "Holiday" |})
].

Definition product_index : dict Z nat :=
  [(7%Z, 0%nat); (8%Z, 1%nat); (20%Z, 2%nat); (30%Z, 3%nat); (50%Z, 4%nat)].

(** All-zero latent factors of rank 1. *)
Definition user_factors : list (list Q) := [[0%Q]].
Definition item_factors : list (list Q) := [[0%Q]; [0%Q]; [0%Q]; [0%Q]; [0%Q]].

Definition product_feature_vectors : dict Z (list Q) := [
  (7%Z, [1; 0; 0; 0; 0]%Q); (8%Z, [0; 1; 0; 0; 0]%Q); (20%Z, [0; 0; 1; 0; 0]%Q);
  (30%Z, [0; 0; 0; 1; 0]%Q); (50%Z, [0; 0; 0; 0; 1]%Q)
].

Definition user_profiles : dict Z (list Q) := [
  (1%Z, [1 # 2; 1 # 2; 0; 0; 0]%Q); (9%Z, [1 # 2; 1 # 2; 0; 0; 0]%Q)
].

(** Products 7 and 8 were bought twice, product 30 once. *)
Definition popular_products : list (Z * Q) :=
  match compute_product_popularity purchase_history products
          default_rating_weight default_frequency_weight with
  | Ok ranking => ranking
  | Raise _ => []
  end.

(** A Friday with the environment [env].  All five item scores are zero and
    [argsort] returns the positions in the order 1, 0, 4, 3, 2; the rows
    nearest to the profile are those of products 7, 8 and 20. *)
Definition friday (env : dict string Q) : runtime := {|
  np_argsort := fun _ => [1; 0; 4; 3; 2]%nat;
  kneighbors := fun n _ _ => Ok (take n [0; 1; 2]%nat);
  current_day := "Friday";
  environ := env;
|}.

(** User 1, not yet indexed, asks for two recommendations in the Holiday
    season. *)
Definition alice_request (env : dict string Q) (r : redis) : result outcome * redis :=
  hybrid_outcome (friday env) 1 ["Holiday"] users products contextual_signals
    browsing_history purchase_history popular_products user_factors item_factors
    [] product_index user_profiles product_feature_vectors 2 r.

(** User 1, indexed, asks for three. *)
Definition indexed_request (r : redis) : result outcome * redis :=
  hybrid_outcome (friday []) 1 ["Holiday"] users products contextual_signals
    browsing_history purchase_history popular_products user_factors item_factors
    [(1%Z, 0%nat)] product_index user_profiles product_feature_vectors 3 r.

(** User 9, neither registered nor indexed, asks for two recommendations
    with no active season, given the popularity ranking [ranking]. *)
Definition guest_request (ranking : list (Z * Q)) (r : redis) : result outcome * redis :=
  hybrid_outcome (friday []) 9 [] users products contextual_signals
    browsing_history purchase_history ranking user_factors item_factors
    [] product_index user_profiles product_feature_vectors 2 r.

(** What the two requests of user 1 return, and the cache afterwards. *)
Definition alice_list : list (Z * string) := [
  (50%Z, String.concat ", " (explanation_template <$> [time_based; device_based]));
  (30%Z, explanation_template popular)
].

Definition indexed_list : list (Z * string) := [
  (20%Z, String.concat ", " (explanation_template <$> [mf; cbf; device_based]));
  (30%Z, String.concat ", " (explanation_template <$> [mf; popular]));
  (50%Z, String.concat ", " (explanation_template <$> [mf; time_based; device_based]))
].

Definition stored (recs : list (Z * string)) : redis := {|
  entries := {[ "recommendations:1:Holiday" := (3600%nat, Json (explained recs)) ]};
  outages := [];
|}.


End Shelf.

(** ** Vocabulary of the statements *)

Definition entry_id (e : rec_entry) : Z :=
  match e with
  | Explained product_id _ => product_id
  | Bare product_id => product_id
  end.

(** The product ids of the list handed to the caller. *)
Definition outcome_ids (o : outcome) : list Z := entry_id <$> returned o.

(** The request is answered from the cache. *)
Definition cache_hit (user_id : Z) (season_input : list string) (r : redis) : Prop :=
  exists entry cached r1,
    get_cached_recommendations user_id season_input r
    = (Ok (Some (entry :: cached)), r1).

(** Following the specification of the fusion step: in a ranked output of
    length [L], the product at 0-indexed rank [i] contributes
    [weight × (1 − i/L)], and the contributions add up over the signals. *)
Fixpoint spec_contribution_from (weight : Q) (L i : nat) (ranked : list Z) (pid : Z) : Q :=
  match ranked with
  | [] => 0
  | p :: rest =>
      ((if decide (p = pid)
        then weight * (1 - inject_Z (Z.of_nat i) / inject_Z (Z.of_nat L))
        else 0)
       + spec_contribution_from weight L (S i) rest pid)%Q
  end.

Definition spec_contribution (signal : Q * list Z) (pid : Z) : Q :=
  spec_contribution_from signal.1 (length signal.2) 0 signal.2 pid.

Definition spec_aggregate_score (signals : list (Q * list Z)) (pid : Z) : Q :=
  foldr (fun signal acc => (spec_contribution signal pid + acc)%Q) 0%Q signals.

(** The same sum as the code forms it: the score of a product starts at 0
    and the contributions are added to it one by one, in the order of the
    signals and of the ranks, each operation rounded. *)
Fixpoint accumulate_from (weight : Q) (L i : nat) (ranked : list Z) (pid : Z)
    (score : Q) : Q :=
  match ranked with
  | [] => score
  | p :: rest =>
      accumulate_from weight L (S i) rest pid
        (if decide (p = pid)
         then rnd64 (score
                     + rnd64 (weight
                              * rnd64 (1 - rnd64 (inject_Z (Z.of_nat i)
                                                  / inject_Z (Z.of_nat L)))))
         else score)
  end.

Definition computed_aggregate_score (signals : list (Q * list Z)) (pid : Z) : Q :=
  foldl (fun score signal =>
           accumulate_from signal.1 (length signal.2) 0 signal.2 pid score)
    0%Q signals.


(** Each score is larger than the next one. *)
Definition strictly_descending (l : list (Z * Q)) : Prop :=
  forall i x y, l !! i = Some x -> l !! S i = Some y -> (y.2 < x.2)%Q.


(** A season label that contains no comma, so that it cannot be mistaken
    for two labels once joined. *)
Fixpoint has_comma (s : string) : bool :=
  match s with
  | EmptyString => false
  | String c s' => if Ascii.eqb c ","%char then true else has_comma s'
  end.

Definition plain_label (s : string) : Prop := has_comma s = false /\ s <> "".

(** ** Index and vocabulary ([data_loading.py]) *)

(** [{key: idx for idx, key in enumerate(keys)}], from position [idx] on. *)
Fixpoint enumerate_from (idx : nat) (keys : list Z) (index : dict Z nat) : dict Z nat :=
  match keys with
  | [] => index
  | key :: rest => enumerate_from (S idx) rest (dict_set key idx index)
  end.

Definition build_index (users : dict Z user) (products : dict Z product)
  : dict Z nat * dict Z nat :=
  (enumerate_from 0 (dict_keys users) [], enumerate_from 0 (dict_keys products) []).

(** [list(s)] of a set of strings lists its elements in an order Python does
    not fix; [list_of_set] stands for that order. *)
Definition extract_tags_and_categories (list_of_set : gset string -> list string)
    (products : dict Z product) : list string * list string :=
  let all_tags : gset string :=
    list_to_set (concat (tags <$> dict_values products)) in
  let all_categories : gset string :=
    list_to_set (category <$> dict_values products) in
  (list_of_set all_tags, list_of_set all_categories).

(** ** The user-item matrix ([main.py], [create_sparse_user_item_matrix]) *)

(** A sparse matrix, kept dense: its shape and its rows. *)
Record matrix : Type := {
  n_rows : nat;
  n_cols : nat;
  cells : list (list Z);
}.

(** The purchase records as [(user_id, product_id)], in the order in which
    the two nested loops meet them. *)
Definition purchase_records (purchase_history : dict Z (list purchase)) : list (Z * Z) :=
  concat ((fun x : Z * list purchase => (fun p => (x.1, purchased_id p)) <$> x.2)
            <$> (purchase_history : list (Z * list purchase))).

(** The body of the loops: one coordinate per purchase record. *)
Definition purchase_coordinates (purchase_history : dict Z (list purchase))
    (user_index product_index : dict Z nat) : result (list (nat * nat)) :=
  mapM (M := result)
    (fun record : Z * Z =>
       row ← dict_item user_index record.1;
       col ← dict_item product_index record.2;
       Ok (row, col))
    (purchase_records purchase_history).

(** [csr_matrix((data, (rows, cols)), shape=...)] with every datum 1: scipy
    rejects a coordinate outside the shape and adds up the data of equal
    coordinates. *)
Definition csr_matrix (coordinates : list (nat * nat)) (rows cols : nat)
  : result matrix :=
  if decide (Forall (fun c => (c.1 < rows)%nat /\ (c.2 < cols)%nat) coordinates) then
    Ok {| n_rows := rows; n_cols := cols;
          cells :=
            (fun i => (fun j => Z.of_nat (length (filter (fun c => c = (i, j)) coordinates)))
                        <$> seq 0 cols) <$> seq 0 rows |}
  else Raise ValueError.

Definition create_sparse_user_item_matrix (purchase_history : dict Z (list purchase))
    (user_index product_index : dict Z nat) : result matrix :=
  coordinates ← purchase_coordinates purchase_history user_index product_index;
  csr_matrix coordinates (length user_index) (length product_index).

(** ** Factorization ([matrix_factorization.py]) *)

Definition factors : Type := list (list Q) * list (list Q).

(** [np.zeros((rows, cols))] *)
Definition zeros (rows cols : nat) : list (list Q) := replicate rows (replicate cols 0%Q).

(** [svds] stands for the numerical routine: [U @ np.diag(sigma)] and [Vt.T]
    of scipy's truncated decomposition, or the exception it raised. *)
Definition perform_svd (svds : matrix -> nat -> result factors)
    (user_item_matrix : matrix) (k : Z) : result factors :=
  let k :=
    Z.min k (Z.min (Z.of_nat (n_rows user_item_matrix))
                   (Z.of_nat (n_cols user_item_matrix)) - 1) in
  if decide (k <= 0)%Z then Raise ValueError
  else
    match svds user_item_matrix (Z.to_nat k) with
    | Ok computed => Ok computed
    | Raise _ =>
        Ok (zeros (n_rows user_item_matrix) (Z.to_nat k),
            zeros (n_cols user_item_matrix) (Z.to_nat k))
    end.

(** ** Cached computations ([feature_engineering.py], [matrix_factorization.py])

    The same Redis server, seen through the keys of one family: what is
    stored there is the JSON text of a value of type [A], or text that
    [json.loads] rejects. *)

Inductive payload (A : Type) : Type :=
  | Encoded (a : A)
  | Unreadable (raw : string).
Arguments Encoded {A} a.
Arguments Unreadable {A} raw.

Record cache (A : Type) : Type := {
  slots : gmap string (nat * payload A);
  faults : list bool;
}.
Arguments slots {A} c.
Arguments faults {A} c.

Definition cache_connect {A} (c : cache A) : bool * cache A :=
  match faults c with
  | [] => (false, c)
  | down :: rest => (down, {| slots := slots c; faults := rest |})
  end.

Definition cache_get {A} (key : string) (c : cache A)
  : result (option (payload A)) * cache A :=
  let '(down, c') := cache_connect c in
  if down then (Raise RedisError, c')
  else (Ok (snd <$> slots c' !! key), c').

Definition cache_setex {A} (key : string) (ttl : nat) (value : payload A) (c : cache A)
  : result unit * cache A :=
  let '(down, c') := cache_connect c in
  if down then (Raise RedisError, c')
  else (Ok tt, {| slots := <[key := (ttl, value)]> (slots c'); faults := faults c' |}).

#[global] Instance exn_eq_dec : EqDecision exn.
Proof. solve_decision. Defined.

(** The body shared by [get_product_feature_vector] and [get_svd_factors]:
    [try: read; if cached: return decoded; value = compute(); write; return
    value] with [except redis.RedisError: return compute()]. *)
Definition cached_call {A} (key : string) (ttl : nat) (compute : result A)
    (c : cache A) : result A * cache A :=
  let on_error (e : exn) (c' : cache A) : result A * cache A :=
    if decide (e = RedisError) then (compute, c') else (Raise e, c') in
  match cache_get key c with
  | (Raise e, c1) => on_error e c1
  | (Ok (Some (Encoded a)), c1) => (Ok a, c1)
  | (Ok (Some (Unreadable (String _ _))), c1) => (Raise ValueError, c1)
  | (Ok _, c1) =>
      match compute with
      | Raise e => on_error e c1
      | Ok a =>
          match cache_setex key ttl (Encoded a) c1 with
          | (Raise e, c2) => on_error e c2
          | (Ok _, c2) => (Ok a, c2)
          end
      end
  end.

Definition day_ttl : nat := 24 * 3600.

Definition get_product_feature_vector (product_id : Z) (p : product)
    (all_tags all_categories : list string) (c : cache (list Q))
  : result (list Q) * cache (list Q) :=
  cached_call ("product_feature:" +:+ pretty product_id) day_ttl
    (create_product_feature_vector p all_tags all_categories) c.

Definition get_svd_factors (svds : matrix -> nat -> result factors)
    (user_item_matrix : matrix) (k : Z) (c : cache factors)
  : result factors * cache factors :=
  cached_call
    ("svd_factors:" +:+ pretty (n_rows user_item_matrix) +:+ ":"
       +:+ pretty (n_cols user_item_matrix))
    day_ttl (perform_svd svds user_item_matrix k) c.

(** ** User profiles ([user_profiles.py], [create_user_profile]) *)

(** What [create_user_profile] can raise: a built-in error of the kinds
    above, or [StopIteration] from [next(iter(...))] on an empty dictionary. *)
Inductive raised : Set :=
  | Builtin (e : exn)
  | StopIteration.

(** [acc += v] on one-dimensional numpy arrays: equal lengths add up
    elementwise, a one-element [v] is added to every entry, anything else
    cannot be broadcast. *)
Definition iadd (acc v : list Q) : result (list Q) :=
  if decide (length v = length acc) then Ok (zip_with Qplus acc v)
  else
    match v with
    | [x] => Ok ((fun a => (a + x)%Q) <$> acc)
    | _ => Raise ValueError
    end.

(** The loop [for product_id in interacted_products: user_profile += ...]. *)
Fixpoint add_vectors (product_feature_vectors : dict Z (list Q))
    (product_ids : list Z) (user_profile : list Q) : result (list Q) :=
  match product_ids with
  | [] => Ok user_profile
  | product_id :: rest =>
      v ← dict_item product_feature_vectors product_id;
      user_profile ← iadd user_profile v;
      add_vectors product_feature_vectors rest user_profile
  end.

Definition interacted_products (user_id : Z)
    (browsing_history : dict Z (list browse))
    (purchase_history : dict Z (list purchase)) : gset Z :=
  match dict_get browsing_history user_id with
  | Some events => list_to_set (fst <$> events)
  | None => ∅
  end
  ∪
  match dict_get purchase_history user_id with
  | Some purchases => list_to_set (purchased_id <$> purchases)
  | None => ∅
  end.

(** [iter_set] stands for the order in which Python iterates over a set of
    product ids. *)
Definition create_user_profile (iter_set : gset Z -> list Z) (user_id : Z)
    (browsing_history : dict Z (list browse))
    (purchase_history : dict Z (list purchase))
    (product_feature_vectors : dict Z (list Q)) : raised + list Q :=
  let interacted := interacted_products user_id browsing_history purchase_history in
  match product_feature_vectors with
  | [] => inl StopIteration
  | (_, first) :: _ =>
      let user_profile := replicate (length first) 0%Q in
      match add_vectors product_feature_vectors (iter_set interacted) user_profile with
      | Raise e => inl (Builtin e)
      | Ok user_profile =>
          if decide (0 < size interacted)%nat then
            inr ((fun a => (a / inject_Z (Z.of_nat (size interacted)))%Q) <$> user_profile)
          else inr user_profile
      end
  end.

(** [get_user_profile]: the same body as [cached_call], around a
    computation that can also end in [StopIteration], which the handler
    for [redis.RedisError] does not catch. *)
Definition get_user_profile (iter_set : gset Z -> list Z) (user_id : Z)
    (browsing_history : dict Z (list browse))
    (purchase_history : dict Z (list purchase))
    (product_feature_vectors : dict Z (list Q)) (c : cache (list Q))
  : (raised + list Q) * cache (list Q) :=
  let cache_key := "user_profile:" +:+ pretty user_id in
  let compute :=
    create_user_profile iter_set user_id browsing_history purchase_history
      product_feature_vectors in
  let on_error (e : exn) (c' : cache (list Q)) :=
    if decide (e = RedisError) then (compute, c') else (inl (Builtin e), c') in
  match cache_get cache_key c with
  | (Raise e, c1) => on_error e c1
  | (Ok (Some (Encoded user_profile)), c1) => (inr user_profile, c1)
  | (Ok (Some (Unreadable (String _ _))), c1) => (inl (Builtin ValueError), c1)
  | (Ok _, c1) =>
      match compute with
      | inl (Builtin e) => on_error e c1
      | inl StopIteration => (inl StopIteration, c1)
      | inr user_profile =>
          match cache_setex cache_key day_ttl (Encoded user_profile) c1 with
          | (Raise e, c2) => on_error e c2
          | (Ok _, c2) => (inr user_profile, c2)
          end
      end
  end.

(** ** Clearing a user's cache ([main.py], [clear_cache_for_user]) *)

(** [redis_client.keys(prefix + "*")]: the keys that start with [prefix], in
    the order [scan] in which the server lists its keys. *)
Definition redis_keys (scan : gmap string (nat * blob) -> list string)
    (prefix : string) (r : redis) : result (list string) * redis :=
  let '(down, r') := redis_connect r in
  if down then (Raise RedisError, r')
  else (Ok (filter (fun key => String.prefix prefix key = true) (scan (entries r'))), r').

(** [redis_client.delete(key)] *)
Definition redis_delete (key : string) (r : redis) : result unit * redis :=
  let '(down, r') := redis_connect r in
  if down then (Raise RedisError, r')
  else (Ok tt, {| entries := delete key (entries r'); outages := outages r' |}).

Fixpoint delete_keys (keys : list string) (r : redis) : result unit * redis :=
  match keys with
  | [] => (Ok tt, r)
  | key :: rest =>
      match redis_delete key r with
      | (Raise e, r') => (Raise e, r')
      | (Ok _, r') => delete_keys rest r'
      end
  end.

Definition clear_cache_for_user (scan : gmap string (nat * blob) -> list string)
    (user_id : Z) (r : redis) : result unit * redis :=
  match redis_keys scan ("recommendations:" +:+ pretty user_id +:+ ":") r with
  | (Raise e, r') => (Raise e, r')
  | (Ok cache_keys, r') => delete_keys cache_keys r'
  end.

(** A string in which the character [c] does not occur. *)
Fixpoint lacks (c : ascii) (s : string) : bool :=
  match s with
  | EmptyString => true
  | String c' s' => if Ascii.eqb c' c then false else lacks c s'
  end.

(** The distinct elements of a list, each at the place where the list
    first mentions it. *)
Definition first_occurrences (l : list Z) : list Z :=
  foldl (fun seen pid => if decide (pid ∈ seen) then seen else seen ++ [pid]) [] l.

(** The signals that list a product, in the order of the signals, once per
    mention. *)
Definition contributing (signals : list (source * list Z)) (pid : Z) : list source :=
  concat ((fun s : source * list Z =>
             (fun _ => s.1) <$> filter (fun x => x = pid) s.2) <$> signals).

(** A usable cached value: the JSON text of a value. *)
Definition cached_value {A} (key : string) (c : cache A) : option A :=
  match slots c !! key with
  | Some (_, Encoded a) => Some a
  | _ => None
  end.

(** Nothing usable and nothing to fail on: no entry, or the empty payload. *)
Definition vacant {A} (key : string) (c : cache A) : Prop :=
  match slots c !! key with
  | None | Some (_, Unreadable EmptyString) => True
  | _ => False
  end.

(** A number between 0 and 1. *)
Definition unit_interval (x : Q) : Prop := (0 <= x /\ x <= 1)%Q.

(** The list that user 1's request of module [Duo] returns, and the cache
    once it is stored. *)
Module DuoRun.

Definition alice_list : list (Z * string) := [
  (102%Z, String.concat ", " (explanation_template <$> [mf; cbf; popular; device_based]));
  (101%Z, explanation_template time_based)
].

Definition alice_cache : redis := {|
  entries := {[ "recommendations:1:Holiday" := (default_ttl, Json (explained alice_list)) ]};
  outages := [];
|}.

(** A cache that holds an empty list for that request. *)
Definition stale_cache : redis := {|
  entries := {[ "recommendations:1:Holiday" := (default_ttl, Json []) ]};
  outages := [];
|}.

(** A cache that holds a list for user 1 and one for user 11, on a server
    that lists its keys in the order of the map. *)
Definition shared_cache : redis := {|
  entries := {[ "recommendations:1:Holiday" := (default_ttl, Json (explained alice_list));
                "recommendations:11:Holiday" := (default_ttl, Json [Bare 101]) ]};
  outages := [];
|}.

Definition listing (m : gmap string (nat * blob)) : list string := (map_to_list m).*1.

End DuoRun.

(** * Properties *)

(** ** Rounding to binary64

    What the proofs below use of [rnd64]: it respects equality of
    rationals, it is monotone, it keeps 0 and 1, and it maps a positive
    number to a positive one. *)

Lemma nearest_even_bounds (q : Q) :
  (Qfloor q <= nearest_even q <= Qfloor q + 1)%Z.
Proof.
  unfold nearest_even.
  destruct (Qcompare _ _); [destruct (Z.even _)|..]; lia.
Qed.


Lemma nearest_even_le (q q' : Q) :
  (q <= q')%Q -> (nearest_even q <= nearest_even q')%Z.
Proof.
  intros Hle. pose proof (Qfloor_resp_le q q' Hle) as Hfloor.
  destruct (decide (Qfloor q = Qfloor q')) as [Heq|Hne].
  - unfold nearest_even. rewrite <- Heq.
    destruct (Qcompare_spec (q - inject_Z (Qfloor q)) (1 # 2)) as [H|H|H],
             (Qcompare_spec (q' - inject_Z (Qfloor q)) (1 # 2)) as [H'|H'|H'];
      try (destruct (Z.even _)); first [lia | exfalso; lra].
  - pose proof (nearest_even_bounds q). pose proof (nearest_even_bounds q'). lia.
Qed.

#[global] Instance nearest_even_proper : Proper (Qeq ==> eq) nearest_even.
Proof.
  intros q q' E. apply Z.le_antisymm; apply nearest_even_le; rewrite E; apply Qle_refl.
Qed.

Lemma pow2_pos (e : Z) : (0 < 2 ^ e)%Q.
Proof. by apply Qpower_0_lt. Qed.

Lemma pow2_succ (e : Z) : (2 ^ (e + 1) == 2 * 2 ^ e)%Q.
Proof. rewrite Qpower_plus by done. simpl. ring. Qed.

Lemma pow2_log2 (n : Z) :
  (0 < n)%Z ->
  (2 ^ Z.log2 n <= inject_Z n /\ inject_Z n < 2 * 2 ^ Z.log2 n)%Q.
Proof.
  intros Hn. destruct (Z.log2_spec n Hn) as [Hlo Hhi].
  pose proof (Z.log2_nonneg n) as Hnn.
  rewrite <- pow2_succ.
  change 2%Q with (inject_Z 2).
  rewrite <- !Zpower_Qpower by lia.
  rewrite <- Zle_Qle, <- Zlt_Qlt. by rewrite Z.add_1_r.
Qed.

Lemma binade_spec (q : Q) :
  (0 < q)%Q -> (2 ^ binade q <= q /\ q < 2 ^ (binade q + 1))%Q.
Proof.
  intros Hq. unfold binade.
  set (n := Qnum q). set (d := Z.pos (Qden q)).
  assert (0 < n)%Z as Hn.
  { destruct q as [qn qd]. unfold Qlt in Hq. simpl in *. subst n. lia. }
  assert (0 < d)%Z as Hd by done.
  assert (0 < inject_Z d)%Q as HdQ.
  { change 0%Q with (inject_Z 0). by rewrite <- Zlt_Qlt. }
  destruct (pow2_log2 n Hn) as [Hn1 Hn2]. destruct (pow2_log2 d Hd) as [Hd1 Hd2].
  set (a := Z.log2 n) in *. set (b := Z.log2 d) in *.
  pose proof (pow2_pos a) as Ha. pose proof (pow2_pos b) as Hb.
  assert (q * inject_Z d == inject_Z n)%Q as Hqd.
  { destruct q as [qn qd]. subst n d. unfold Qeq. simpl. lia. }
  assert (2 ^ (a - b) * 2 ^ b == 2 ^ a)%Q as Hab.
  { rewrite <- Qpower_plus by done. by replace (a - b + b)%Z with a by lia. }
  pose proof (pow2_pos (a - b)) as He.
  destruct (Qle_bool (2 ^ (a - b)) q) eqn:Hcmp.
  - apply Qle_bool_iff in Hcmp. split; [done|].
    rewrite pow2_succ.
    apply (Qmult_lt_r _ _ (inject_Z d)); [done|].
    rewrite Hqd. nra.
  - assert (q < 2 ^ (a - b))%Q as Hlt.
    { apply Qnot_le_lt. intros Hle. apply Qle_bool_iff in Hle. congruence. }
    replace (a - b - 1 + 1)%Z with (a - b)%Z by lia. split; [|done].
    assert (2 * 2 ^ (a - b - 1) == 2 ^ (a - b))%Q as Hhalf.
    { rewrite <- pow2_succ. by replace (a - b - 1 + 1)%Z with (a - b)%Z by lia. }
    pose proof (pow2_pos (a - b - 1)) as He'.
    apply Qlt_le_weak.
    apply (Qmult_lt_r _ _ (inject_Z d)); [done|].
    rewrite Hqd. nra.
Qed.

Lemma binade_le (q q' : Q) :
  (0 < q)%Q -> (q <= q')%Q -> (binade q <= binade q')%Z.
Proof.
  intros Hq Hle.
  destruct (binade_spec q Hq) as [Hlo _].
  destruct (binade_spec q') as [_ Hhi]; [lra|].
  assert (2 ^ binade q < 2 ^ (binade q' + 1))%Q as Hlt by lra.
  apply Qpower_lt_compat_l_inv in Hlt; [lia | done].
Qed.

Lemma binade_proper (q q' : Q) :
  (0 < q)%Q -> (q == q')%Q -> binade q = binade q'.
Proof.
  intros Hq E. apply Z.le_antisymm; apply binade_le; lra.
Qed.












(** ** Fallible list and dictionary access *)

Lemma list_index_absent `{EqDecision A} (l : list A) (x : A) :
  x ∉ l -> list_index l x = Raise ValueError.
Proof.
  intros Hx. unfold list_index.
  destruct (list_find (fun y => y = x) l) as [[i y]|] eqn:E; [|done].
  apply list_find_Some in E as (Hi & -> & _).
  exfalso. apply Hx. by eapply list_elem_of_lookup_2.
Qed.

Lemma list_index_present `{EqDecision A} (l : list A) (x : A) :
  x ∈ l -> exists i, list_index l x = Ok i /\ l !! i = Some x.
Proof.
  intros Hx. unfold list_index.
  destruct (list_find (fun y => y = x) l) as [[i y]|] eqn:E.
  - apply list_find_Some in E as (Hi & -> & _). eauto.
  - apply list_find_None in E. rewrite Forall_forall in E.
    exfalso. by apply (E x).
Qed.

Lemma dict_mem_true `{EqDecision K} {V} (d : dict K V) (k : K) :
  dict_mem d k = true <-> is_Some (dict_get d k).
Proof. unfold dict_mem. by rewrite bool_decide_eq_true. Qed.

Lemma dict_mem_false `{EqDecision K} {V} (d : dict K V) (k : K) :
  dict_mem d k = false <-> dict_get d k = None.
Proof.
  unfold dict_mem. rewrite bool_decide_eq_false.
  by rewrite eq_None_not_Some.
Qed.

(** ** Feature vectors *)

Lemma mark_tags_raises_only_ValueError all_tags ts v e :
  mark_tags all_tags ts v = Raise e -> e = ValueError.
Proof.
  revert v. induction ts as [|tag ts IH]; intros v; simpl; [done|].
  unfold list_index.
  destruct (list_find _ all_tags) as [[i y]|]; simpl.
  - apply IH.
  - congruence.
Qed.

Lemma mark_tags_foreign_tag all_tags ts v tag :
  tag ∈ ts -> tag ∉ all_tags -> mark_tags all_tags ts v = Raise ValueError.
Proof.
  intros Hin Hout. revert v.
  induction ts as [|t ts IH]; intros v; [by apply elem_of_nil in Hin|].
  simpl. destruct (decide (t ∈ all_tags)) as [Ht|Ht].
  - destruct (list_index_present all_tags t Ht) as (i & -> & _). simpl.
    apply IH. apply elem_of_cons in Hin as [->|Hin]; [done|exact Hin].
  - by rewrite list_index_absent.
Qed.

(** C7.  A product whose category is missing from the category vocabulary,
    or one of whose tags is missing from the tag vocabulary, is rejected:
    [create_product_feature_vector] raises [ValueError] and returns no
    vector at all. *)
Theorem create_product_feature_vector_rejects_foreign
    (p : product) (all_tags all_categories : list string) :
  category p ∉ all_categories \/ (exists tag, tag ∈ tags p /\ tag ∉ all_tags) ->
  create_product_feature_vector p all_tags all_categories = Raise ValueError.
Proof.
  intros [Hcat | (tag & Hin & Hout)]; unfold create_product_feature_vector.
  - destruct (mark_tags all_tags (tags p) _) as [v|e] eqn:E; simpl.
    + by rewrite list_index_absent.
    + f_equal. by eapply mark_tags_raises_only_ValueError.
  - by rewrite (mark_tags_foreign_tag _ _ _ tag).
Qed.

Lemma create_product_feature_vector_rejects_foreign_witness :
  create_product_feature_vector
    {| product_name := "Invalid Product"; category := "NonExistentCategory";
       tags := ["audio"]; rating := 0; device_suitability := [] |}
    ["audio"; "wireless"] ["Electronics"; "Fitness"] = Raise ValueError.
Proof.
  apply create_product_feature_vector_rejects_foreign.
  left. simpl. by apply not_elem_of_cons; split; [|apply not_elem_of_cons; split; [|apply not_elem_of_nil]].
Defined.

(** A returned vector has the length of both vocabularies and carries a one
    in its category segment. *)
Lemma mark_tags_length all_tags ts v v' :
  mark_tags all_tags ts v = Ok v' -> length v' = length v.
Proof.
  revert v. induction ts as [|tag ts IH]; intros v; simpl.
  - by intros [= ->].
  - destruct (list_index all_tags tag) as [i|e]; simpl; [|done].
    intros H%IH. by rewrite length_insert in H.
Qed.

Lemma create_product_feature_vector_shape p all_tags all_categories v :
  create_product_feature_vector p all_tags all_categories = Ok v ->
  length v = (length all_tags + length all_categories)%nat
  /\ exists c, all_categories !! c = Some (category p)
       /\ v !! (length all_tags + c)%nat = Some 1%Q.
Proof.
  unfold create_product_feature_vector.
  destruct (mark_tags all_tags (tags p) _) as [tv|e] eqn:E; simpl; [|done].
  apply mark_tags_length in E. rewrite length_replicate in E.
  unfold list_index.
  destruct (list_find _ all_categories) as [[c y]|] eqn:F; simpl; [|done].
  apply list_find_Some in F as (Hc & -> & _).
  intros [= <-]. split.
  - by rewrite length_app, length_insert, length_replicate, E.
  - exists c. split; [done|].
    rewrite lookup_app_r by lia. rewrite E.
    replace (length all_tags + c - length all_tags)%nat with c by lia.
    apply list_lookup_insert_eq. rewrite length_replicate.
    by eapply lookup_lt_Some.
Qed.

(** ** Dictionaries *)

Section DictFacts.
Context `{EqDecision K} {V : Type}.
Implicit Types (d : dict K V) (k : K) (v : V).

Lemma dict_get_None d k : dict_get d k = None <-> k ∉ d.*1.
Proof.
  induction d as [|[k' v] d IH]; simpl.
  - split; [intros _; apply not_elem_of_nil | done].
  - rewrite not_elem_of_cons. destruct (decide (k' = k)) as [->|Hne].
    + split; [done | intros [? _]; done].
    + rewrite IH. split; [intros ?; split; [congruence | done] | by intros [_ ?]].
Qed.

Lemma dict_get_Some_elem d k v : dict_get d k = Some v -> (k, v) ∈ d.
Proof.
  induction d as [|[k' v'] d IH]; simpl; [done|].
  destruct (decide (k' = k)) as [->|Hne].
  - intros [= ->]. apply elem_of_cons. by left.
  - intros H. apply elem_of_cons. right. by apply IH.
Qed.


Lemma dd_update_keys dflt f k d :
  (dd_update dflt f k d).*1 = if decide (k ∈ d.*1) then d.*1 else d.*1 ++ [k].
Proof.
  induction d as [|[k' v] d IH].
  - destruct (decide (k ∈ ([] : dict K V).*1)) as [Hin|_]; [|done].
    by apply elem_of_nil in Hin.
  - cbn [dd_update]. destruct (decide (k' = k)) as [->|Hne].
    + destruct (decide (k ∈ ((k, v) :: d).*1)) as [_|Hout]; [done|].
      exfalso. apply Hout. rewrite fmap_cons. apply elem_of_cons. by left.
    + rewrite fmap_cons, IH. cbn [fst].
      destruct (decide (k ∈ d.*1)) as [Hin|Hout],
               (decide (k ∈ ((k', v) :: d).*1)) as [Hin'|Hout']; try done.
      * exfalso. apply Hout'. rewrite fmap_cons. apply elem_of_cons. by right.
      * exfalso. rewrite fmap_cons in Hin'.
        apply elem_of_cons in Hin' as [?|?]; [by apply Hne | done].
Qed.

Lemma dict_get_dd_update dflt f k d k' :
  dict_get (dd_update dflt f k d) k' =
    if decide (k = k') then Some (f (default dflt (dict_get d k)))
    else dict_get d k'.
Proof.
  induction d as [|[k0 v] d IH]; simpl.
  - destruct (decide (k = k')); done.
  - destruct (decide (k0 = k)) as [->|Hne]; simpl.
    + destruct (decide (k = k')); done.
    + rewrite IH. destruct (decide (k = k')) as [->|Hne'].
      * by rewrite decide_False.
      * done.
Qed.

Lemma dd_update_NoDup dflt f k d : NoDup d.*1 -> NoDup (dd_update dflt f k d).*1.
Proof.
  intros Hnd. rewrite dd_update_keys. destruct (decide (k ∈ d.*1)); [done|].
  apply NoDup_app. split; [done|]. split; [|apply NoDup_singleton].
  intros x Hx ->%list_elem_of_singleton. done.
Qed.

Lemma dd_update_elem_key dflt f k d x :
  x ∈ (dd_update dflt f k d).*1 <-> x ∈ d.*1 \/ x = k.
Proof.
  rewrite dd_update_keys. destruct (decide (k ∈ d.*1)) as [Hin|Hout].
  - split; [by left | intros [?| ->]; done].
  - rewrite elem_of_app, list_elem_of_singleton. done.
Qed.
End DictFacts.

(** ** Stable descending sort *)

Section SortedDescFacts.
Context {A : Type} (key : A -> Q).

Lemma insert_desc_perm x l : insert_desc key x l ≡ₚ x :: l.
Proof.
  induction l as [|y l IH]; simpl; [done|].
  destruct (Qlt_le_dec (key x) (key y)); [|done].
  rewrite IH. apply Permutation_swap.
Qed.

Lemma sorted_desc_perm l : sorted_desc key l ≡ₚ l.
Proof.
  induction l as [|x l IH]; simpl; [done|].
  by rewrite insert_desc_perm, IH.
Qed.





Lemma descending_lookup l i j x y :
  descending key l -> (i < j)%nat -> l !! i = Some x -> l !! j = Some y ->
  (key y <= key x)%Q.
Proof.
  intros Hl. revert i j. induction Hl as [|z l Hl IH Hz]; intros i j Hij Hi Hj.
  - done.
  - destruct j as [|j]; [lia|]. simpl in Hj. destruct i as [|i]; simpl in Hi.
    + injection Hi as ->. rewrite Forall_forall in Hz. apply Hz.
      by eapply list_elem_of_lookup_2.
    + apply (IH i j); [lia | done | done].
Qed.
End SortedDescFacts.





(** ** Signal recommenders *)

Lemma bind_Ok {A B} (m : result A) (f : A -> result B) (b : B) :
  m ≫= f = Ok b -> exists a, m = Ok a /\ f a = Ok b.
Proof. destruct m as [a|e]; simpl; [eauto | done]. Qed.

Ltac bind_inv H :=
  let a := fresh "a" in
  let E := fresh "E" in
  apply bind_Ok in H as (a & E & H).

Lemma elem_of_purchased_products purchase_history user_id purchases pid :
  dict_get purchase_history user_id = Some purchases ->
  pid ∈ purchased_products purchase_history user_id
  <-> pid ∈ purchased_id <$> purchases.
Proof.
  intros E. unfold purchased_products. rewrite E. simpl.
  by rewrite elem_of_list_to_set.
Qed.

Lemma purchased_products_unknown purchase_history user_id :
  dict_get purchase_history user_id = None ->
  purchased_products purchase_history user_id = ∅.
Proof. intros E. unfold purchased_products. by rewrite E. Qed.

Lemma take_filter_not_purchased (purchased : gset Z) n l pid :
  pid ∈ take n (filter (fun x => x ∉ purchased) l) -> pid ∉ purchased.
Proof.
  intros H%elem_of_take. destruct H as (i & Hi & _).
  apply list_elem_of_lookup_2 in Hi. by apply list_elem_of_filter in Hi as [? _].
Qed.

Lemma recommend_products_mf_not_purchased rt user_id user_factors item_factors
    user_index product_index purchase_history top_n l pid :
  recommend_products_mf rt user_id user_factors item_factors user_index
    product_index purchase_history top_n = Ok l ->
  pid ∈ l -> pid ∉ purchased_products purchase_history user_id.
Proof.
  unfold recommend_products_mf.
  destruct (dict_mem user_index user_id); simpl.
  - intros H. do 4 bind_inv H. injection H as <-.
    apply take_filter_not_purchased.
  - intros [= <-] Hin. by apply elem_of_nil in Hin.
Qed.

Lemma recommend_products_mf_length rt user_id user_factors item_factors
    user_index product_index purchase_history top_n l :
  recommend_products_mf rt user_id user_factors item_factors user_index
    product_index purchase_history top_n = Ok l ->
  (length l <= top_n)%nat.
Proof.
  unfold recommend_products_mf.
  destruct (dict_mem user_index user_id); simpl.
  - intros H. do 4 bind_inv H. injection H as <-. rewrite length_take. lia.
  - intros [= <-]. simpl. lia.
Qed.

Lemma cbf_collect_not_purchased keys purchased indices acc l :
  cbf_collect keys purchased indices acc = Ok l ->
  Forall (fun x => x ∉ purchased) acc -> Forall (fun x => x ∉ purchased) l.
Proof.
  revert acc. induction indices as [|idx rest IH]; intros acc; simpl.
  - by intros [= <-].
  - intros H Hacc. bind_inv H. apply IH in H; [done|].
    destruct (decide (a ∉ purchased)); [|done].
    apply Forall_app. split; [done|]. by constructor.
Qed.

Lemma recommend_products_cbf_not_purchased rt user_id user_profiles
    product_feature_vectors purchase_history top_n l pid :
  recommend_products_cbf rt user_id user_profiles product_feature_vectors
    purchase_history top_n = Ok l ->
  pid ∈ l -> pid ∉ purchased_products purchase_history user_id.
Proof.
  unfold recommend_products_cbf. intros H. do 3 bind_inv H. injection H as <-.
  apply cbf_collect_not_purchased in E1; [|constructor].
  intros Hin%elem_of_take. destruct Hin as (i & Hi & _).
  apply list_elem_of_lookup_2 in Hi. rewrite Forall_forall in E1. by apply E1.
Qed.

Lemma recommend_products_cbf_length rt user_id user_profiles
    product_feature_vectors purchase_history top_n l :
  recommend_products_cbf rt user_id user_profiles product_feature_vectors
    purchase_history top_n = Ok l ->
  (length l <= top_n)%nat.
Proof.
  unfold recommend_products_cbf. intros H. do 3 bind_inv H. injection H as <-.
  rewrite length_take. lia.
Qed.

Lemma recommend_popular_not_purchased user_id popular_products purchase_history
    top_n pid :
  pid ∈ recommend_popular_trending_products user_id popular_products
          purchase_history top_n ->
  pid ∉ purchased_products purchase_history user_id.
Proof.
  unfold recommend_popular_trending_products.
  intros Hin%elem_of_take. destruct Hin as (i & Hi & _).
  apply list_elem_of_lookup_2, list_elem_of_fmap in Hi as (x & -> & Hx).
  by apply list_elem_of_filter in Hx as [? _].
Qed.

Lemma recommend_popular_length user_id popular_products purchase_history top_n :
  (length (recommend_popular_trending_products user_id popular_products
             purchase_history top_n) <= top_n)%nat.
Proof. unfold recommend_popular_trending_products. rewrite length_take. lia. Qed.

Lemma recommend_products_device_based_not_purchased user_id users products
    purchase_history top_n pid :
  pid ∈ recommend_products_device_based user_id users products
          purchase_history top_n ->
  pid ∉ purchased_products purchase_history user_id.
Proof.
  unfold recommend_products_device_based.
  destruct (dict_get users user_id) as [u|]; [|by intros ?%elem_of_nil].
  destruct (dict_get purchase_history user_id) as [purchases|] eqn:E.
  - intros Hin%take_filter_not_purchased.
    rewrite (elem_of_purchased_products _ _ purchases) by done.
    by rewrite elem_of_list_to_set in Hin.
  - intros _. rewrite purchased_products_unknown by done. apply not_elem_of_empty.
Qed.

Lemma recommend_products_device_based_length user_id users products
    purchase_history top_n :
  (length (recommend_products_device_based user_id users products
             purchase_history top_n) <= top_n)%nat.
Proof.
  unfold recommend_products_device_based.
  destruct (dict_get users user_id) as [u|]; simpl; [|lia].
  rewrite length_take. lia.
Qed.

(** C10 (as amended).  A user id absent from [user_profiles] makes
    [recommend_products_cbf] raise [KeyError], whereas
    [recommend_products_mf] and [recommend_products_device_based] return the
    empty list for a user id absent from their maps; hence, unless the
    request is answered from the cache, a hybrid request for a user who has
    a browsing or purchase history but no profile ends in an exception. *)
Theorem recommend_products_cbf_unknown_user
    rt user_id season_input users products contextual_signals browsing_history
    purchase_history popular_products user_factors item_factors user_index
    product_index (user_profiles product_feature_vectors : dict Z (list Q)) top_n :
  dict_get user_profiles user_id = None ->
  recommend_products_cbf rt user_id user_profiles product_feature_vectors
    purchase_history top_n = Raise KeyError
  /\ (dict_get user_index user_id = None ->
      recommend_products_mf rt user_id user_factors item_factors user_index
        product_index purchase_history top_n = Ok [])
  /\ (dict_get users user_id = None ->
      recommend_products_device_based user_id users products purchase_history
        top_n = [])
  /\ (forall r,
        dict_mem browsing_history user_id || dict_mem purchase_history user_id = true ->
        ~ cache_hit user_id season_input r ->
        is_raise (hybrid_outcome rt user_id season_input users products
                    contextual_signals browsing_history purchase_history
                    popular_products user_factors item_factors user_index
                    product_index user_profiles product_feature_vectors
                    top_n r).1).
Proof.
  intros Hprofile. split; [|split; [|split]].
  - unfold recommend_products_cbf, dict_item. by rewrite Hprofile.
  - intros Hindex. unfold recommend_products_mf.
    apply dict_mem_false in Hindex. by rewrite Hindex.
  - intros Huser. unfold recommend_products_device_based. by rewrite Huser.
  - intros r Hknown Hmiss. unfold hybrid_outcome.
    destruct (get_cached_recommendations user_id season_input r)
      as [[[[|entry cached]|]|e] r1] eqn:Hget; simpl; try done.
    2: { exfalso. apply Hmiss. by exists entry, cached, r1. }
    all: unfold computed_outcome;
      replace (negb (dict_mem browsing_history user_id)
               && negb (dict_mem purchase_history user_id)) with false
        by (symmetry; rewrite <- negb_orb, Hknown; done);
      destruct (recommend_products_mf _ _ _ _ _ _ _ _) as [l|e]; simpl; [|done];
      unfold recommend_products_cbf, dict_item; by rewrite Hprofile.
Qed.

(** ** The fusion step *)

Lemma add_signal_from_keys weight src len i recs (t : tally) x :
  x ∈ (add_signal_from weight src len i recs t).1.*1 <-> x ∈ t.1.*1 \/ x ∈ recs.
Proof.
  revert i t. induction recs as [|p recs IH]; intros i t; simpl.
  - rewrite elem_of_nil. tauto.
  - rewrite IH. simpl. rewrite dd_update_elem_key, elem_of_cons. tauto.
Qed.

Lemma add_signal_from_NoDup weight src len i recs (t : tally) :
  NoDup t.1.*1 -> NoDup (add_signal_from weight src len i recs t).1.*1.
Proof.
  revert i t. induction recs as [|p recs IH]; intros i t Hnd; simpl; [done|].
  apply IH. simpl. by apply dd_update_NoDup.
Qed.


Section FuseSignals.
Variables (w1 w2 w3 w4 w5 : Q) (l1 l2 l3 l4 l5 : list Z).
Let t : tally := fuse_signals (w1, w2, w3, w4, w5) l1 l2 l3 l4 l5.

Lemma fuse_signals_keys x :
  x ∈ t.1.*1 <-> x ∈ l1 \/ x ∈ l2 \/ x ∈ l3 \/ x ∈ l4 \/ x ∈ l5.
Proof.
  subst t. unfold fuse_signals, add_signal.
  rewrite !add_signal_from_keys. simpl. rewrite elem_of_nil. tauto.
Qed.

Lemma fuse_signals_NoDup : NoDup t.1.*1.
Proof.
  subst t. unfold fuse_signals, add_signal.
  do 5 apply add_signal_from_NoDup. simpl. constructor.
Qed.


End FuseSignals.

Lemma top_recommendations_ids (t : tally) top_n :
  (top_recommendations t top_n).*1 = take top_n (sorted_desc snd t.1).*1.
Proof.
  unfold top_recommendations. rewrite <- list_fmap_compose, fmap_take.
  done.
Qed.

Lemma top_recommendations_length (t : tally) top_n :
  (length (top_recommendations t top_n) <= top_n)%nat.
Proof.
  unfold top_recommendations. rewrite length_fmap, length_take. lia.
Qed.

Lemma explained_ids recs : entry_id <$> explained recs = recs.*1.
Proof. unfold explained. rewrite <- list_fmap_compose. done. Qed.

(** ** The cache *)

Lemma redis_connect_entries r : entries (redis_connect r).2 = entries r.
Proof. unfold redis_connect. by destruct (outages r). Qed.

Lemma redis_get_state key r : (redis_get key r).2 = (redis_connect r).2.
Proof.
  unfold redis_get. destruct (redis_connect r) as [down r']. by destruct down.
Qed.

Lemma get_cached_recommendations_state user_id season_input r :
  (get_cached_recommendations user_id season_input r).2 = (redis_connect r).2.
Proof.
  unfold get_cached_recommendations.
  match goal with |- context [redis_get ?key r] =>
    rewrite <- (redis_get_state key r);
    destruct (redis_get key r) as [[[[recs|raw]|]|e] r']
  end; done.
Qed.

Lemma get_cached_recommendations_entries user_id season_input r x r1 :
  get_cached_recommendations user_id season_input r = (x, r1) ->
  entries r1 = entries r.
Proof.
  intros E. rewrite <- (redis_connect_entries r).
  rewrite <- (get_cached_recommendations_state user_id season_input r).
  by rewrite E.
Qed.

(** ** The hybrid engine, path by path *)

Section HybridFacts.
Variable rt : runtime.
Variables (user_id : Z) (season_input : list string).
Variables (users : dict Z user) (products : dict Z product).
Variable contextual_signals : dict string signals.
Variable browsing_history : dict Z (list browse).
Variable purchase_history : dict Z (list purchase).
Variable popular_products : list (Z * Q).
Variables user_factors item_factors : list (list Q).
Variables user_index product_index : dict Z nat.
Variables user_profiles product_feature_vectors : dict Z (list Q).
Variable top_n : nat.

Local Abbreviation hybrid :=
  (hybrid_outcome rt user_id season_input users products contextual_signals
     browsing_history purchase_history popular_products user_factors item_factors
     user_index product_index user_profiles product_feature_vectors top_n).
Local Abbreviation computed :=
  (computed_outcome rt user_id season_input users products contextual_signals
     browsing_history purchase_history popular_products user_factors item_factors
     user_index product_index user_profiles product_feature_vectors top_n).
Local Abbreviation fused :=
  (fused_outcome rt user_id season_input users products contextual_signals
     purchase_history top_n).
Local Abbreviation mf_signal :=
  (recommend_products_mf rt user_id user_factors item_factors user_index
     product_index purchase_history top_n).
Local Abbreviation cbf_signal :=
  (recommend_products_cbf rt user_id user_profiles product_feature_vectors
     purchase_history top_n).
Local Abbreviation popular_signal :=
  (recommend_popular_trending_products user_id popular_products purchase_history
     top_n).
Local Abbreviation time_signal :=
  (recommend_products_time_based rt season_input products contextual_signals).
Local Abbreviation device_signal :=
  (recommend_products_device_based user_id users products purchase_history top_n).
Local Abbreviation is_new_user :=
  (negb (dict_mem browsing_history user_id)
   && negb (dict_mem purchase_history user_id)).

Lemma hybrid_outcome_miss r c r1 :
  get_cached_recommendations user_id season_input r = (Ok c, r1) ->
  ~ cache_hit user_id season_input r ->
  hybrid r = computed r1.
Proof.
  intros E Hmiss. unfold hybrid_outcome. rewrite E.
  destruct c as [[|entry cached]|]; try done.
  exfalso. apply Hmiss. by exists entry, cached, r1.
Qed.

Lemma hybrid_outcome_computed r o r' :
  hybrid r = (Ok o, r') -> (forall recs, o <> FromCache recs) ->
  exists c r1,
    get_cached_recommendations user_id season_input r = (Ok c, r1)
    /\ computed r1 = (Ok o, r').
Proof.
  unfold hybrid_outcome.
  destruct (get_cached_recommendations user_id season_input r)
    as [[[[|entry cached]|]|e] r1]; intros H Ho; try done.
  - by exists (Some []), r1.
  - injection H as <- <-. by destruct (Ho (entry :: cached)).
  - by exists None, r1.
Qed.

Lemma computed_outcome_returning r1 :
  is_new_user = false ->
  computed r1 =
    match mf_signal with
    | Raise e => (Raise e, r1)
    | Ok mf_recommendations =>
        match cbf_signal with
        | Raise e => (Raise e, r1)
        | Ok cbf_recommendations =>
            fused false popular_signal mf_recommendations cbf_recommendations r1
        end
    end.
Proof.
  intros Hnew. unfold computed_outcome. rewrite Hnew.
  destruct mf_signal as [l|e]; simpl; [|done].
  destruct cbf_signal as [l'|e]; simpl; done.
Qed.

Lemma computed_outcome_new r1 :
  is_new_user = true ->
  computed r1 =
    (Ok (NewUser ((fun pid => (pid, explanation_template popular))
                    <$> popular_signal)), r1).
Proof. intros Hnew. unfold computed_outcome. by rewrite Hnew. Qed.

Lemma fused_outcome_fallback b pop l1 l2 r1 :
  l1 = [] -> l2 = [] -> time_signal = [] -> device_signal = [] ->
  fused b pop l1 l2 r1 = (Ok (PopularFallback (take top_n pop)), r1).
Proof.
  intros -> -> Ht Hd. unfold fused_outcome. rewrite Ht, Hd. done.
Qed.

Lemma fused_outcome_fusion b pop l1 l2 r1 :
  ~ (l1 = [] /\ l2 = [] /\ time_signal = [] /\ device_signal = []) ->
  fused b pop l1 l2 r1 =
    let top :=
      top_recommendations
        (fuse_signals (signal_weights rt b) l1 l2 pop time_signal device_signal)
        top_n in
    match cache_recommendations user_id season_input (explained top)
            default_ttl r1 with
    | (Raise e, r2) => (Raise e, r2)
    | (Ok _, r2) => (Ok (Fused top), r2)
    end.
Proof.
  intros Hsome. unfold fused_outcome.
  destruct l1, l2, time_signal, device_signal; try done.
  exfalso. by apply Hsome.
Qed.

(** X30.  On every computation that is not answered from the cache, a product
    of the returned list that the user has already purchased was put there by
    the time-based recommender, the one signal that filters nothing by
    user: no other path lets a purchased product through. *)
Theorem hybrid_purchased_only_via_time_based r o r' pid :
  hybrid r = (Ok o, r') ->
  (forall recs, o <> FromCache recs) ->
  pid ∈ outcome_ids o ->
  pid ∈ purchased_products purchase_history user_id ->
  pid ∈ time_signal.
Proof.
  intros Hrun Hmiss Hin Hbought.
  destruct (hybrid_outcome_computed r o r' Hrun Hmiss) as (c & r1 & _ & Hc).
  destruct is_new_user eqn:Hnew.
  - rewrite computed_outcome_new in Hc by done. injection Hc as <- <-.
    unfold outcome_ids in Hin. simpl in Hin.
    rewrite explained_ids, <- list_fmap_compose in Hin.
    apply list_elem_of_fmap in Hin as (x & -> & Hx).
    by apply recommend_popular_not_purchased in Hx.
  - rewrite computed_outcome_returning in Hc by done.
    destruct mf_signal as [l1|e] eqn:Hmf; [|done].
    destruct cbf_signal as [l2|e] eqn:Hcbf; [|done].
    destruct (decide (l1 = [] /\ l2 = [] /\ time_signal = [] /\ device_signal = []))
      as [(-> & -> & Ht & Hd)|Hsome].
    + rewrite fused_outcome_fallback in Hc by done. injection Hc as <- <-.
      unfold outcome_ids in Hin. simpl in Hin.
      rewrite <- list_fmap_compose in Hin.
      apply list_elem_of_fmap in Hin as (x & -> & Hx).
      apply elem_of_take in Hx as (i & Hx%list_elem_of_lookup_2 & _).
      by apply recommend_popular_not_purchased in Hx.
    + rewrite fused_outcome_fusion in Hc by done. cbv zeta in Hc.
      destruct (cache_recommendations _ _ _ _ _) as [[[]|e] r2]; [|done].
      injection Hc as <- <-.
      unfold outcome_ids in Hin. simpl in Hin.
      rewrite explained_ids, top_recommendations_ids in Hin.
      apply elem_of_take in Hin as (i & Hx%list_elem_of_lookup_2 & _).
      rewrite sorted_desc_perm in Hx.
      destruct (signal_weights rt false) as [[[[w1 w2] w3] w4] w5].
      apply fuse_signals_keys in Hx as [Hx|[Hx|[Hx|[Hx|Hx]]]]; [| | |done|].
      * by eapply recommend_products_mf_not_purchased in Hx.
      * by eapply recommend_products_cbf_not_purchased in Hx.
      * by apply recommend_popular_not_purchased in Hx.
      * by apply recommend_products_device_based_not_purchased in Hx.
Qed.



(** C4 (as amended).  For a user known to a history, the engine takes the
    popularity fallback exactly when the cache lookup returns without a
    usable list and the four recommenders other than popularity
    (latent-factor, content, time-based, device-based) each return the empty
    list; the popularity list itself is not part of the test.  The products
    that the fallback returns are those of the popularity recommender, that
    is, of the popularity ranking without the user's purchases, truncated to
    [top_n], and the call leaves the cache as it found it. *)
Theorem popular_fallback_iff_four_signals_empty r :
  dict_mem browsing_history user_id || dict_mem purchase_history user_id = true ->
  ((exists ids r', hybrid r = (Ok (PopularFallback ids), r'))
   <-> (exists c r1, get_cached_recommendations user_id season_input r = (Ok c, r1))
       /\ ~ cache_hit user_id season_input r
       /\ mf_signal = Ok [] /\ cbf_signal = Ok []
       /\ time_signal = [] /\ device_signal = [])
  /\ (forall ids r',
        hybrid r = (Ok (PopularFallback ids), r') ->
        ids = recommend_popular_trending_products user_id popular_products
                purchase_history top_n
        /\ entries r' = entries r).
Proof.
  intros Hknown.
  assert (is_new_user = false) as Hnew by (rewrite <- negb_orb, Hknown; done).
  assert (forall r1 ids r',
            computed r1 = (Ok (PopularFallback ids), r') -> r1 = r') as Hstate.
  { intros r1 ids r' Hc.
    rewrite computed_outcome_returning in Hc by done.
    destruct mf_signal as [l1|e]; [|done]. destruct cbf_signal as [l2|e]; [|done].
    destruct (decide (l1 = [] /\ l2 = [] /\ time_signal = [] /\ device_signal = []))
      as [(-> & -> & Ht & Hd)|Hsome].
    - rewrite fused_outcome_fallback in Hc by done. by injection Hc.
    - rewrite fused_outcome_fusion in Hc by done. cbv zeta in Hc.
      by destruct (cache_recommendations _ _ _ _ _) as [[[]|e] r2]. }
  assert (forall ids r',
            hybrid r = (Ok (PopularFallback ids), r') ->
            get_cached_recommendations user_id season_input r = (Ok None, r')
            \/ get_cached_recommendations user_id season_input r = (Ok (Some []), r'))
    as Hread.
  { intros ids r'. unfold hybrid_outcome.
    destruct (get_cached_recommendations user_id season_input r)
      as [[[[|entry cached]|]|e] r1]; [| done | | done].
    - intros Hc. right. f_equal. by eapply Hstate.
    - intros Hc. left. f_equal. by eapply Hstate. }
  assert (forall ids r',
            hybrid r = (Ok (PopularFallback ids), r') ->
            ~ cache_hit user_id season_input r
            /\ mf_signal = Ok [] /\ cbf_signal = Ok []
            /\ time_signal = [] /\ device_signal = []
            /\ ids = popular_signal) as Hinv.
  { intros ids r' Hrun.
    assert (~ cache_hit user_id season_input r) as Hmiss.
    { intros (entry & cached & r2 & Hhit).
      destruct (Hread ids r' Hrun) as [E|E]; rewrite E in Hhit; done. }
    split; [done|].
    destruct (hybrid_outcome_computed r _ r' Hrun) as (c & r1 & Hget & Hc); [done|].
    rewrite computed_outcome_returning in Hc by done.
    destruct mf_signal as [l1|e]; [|done]. destruct cbf_signal as [l2|e]; [|done].
    destruct (decide (l1 = [] /\ l2 = [] /\ time_signal = [] /\ device_signal = []))
      as [(-> & -> & Ht & Hd)|Hsome].
    - rewrite fused_outcome_fallback in Hc by done. injection Hc as <- <-.
      rewrite take_ge; [done | apply recommend_popular_length].
    - rewrite fused_outcome_fusion in Hc by done. cbv zeta in Hc.
      by destruct (cache_recommendations _ _ _ _ _) as [[[]|e] r2]. }
  split; [split|].
  - intros (ids & r' & Hrun). split.
    + destruct (Hread ids r' Hrun) as [E|E]; eexists _, _; exact E.
    + by destruct (Hinv ids r' Hrun) as (? & ? & ? & ? & ? & _).
  - intros ((c & r1 & Hget) & Hmiss & Hmf & Hcbf & Ht & Hd).
    exists popular_signal, r1.
    rewrite (hybrid_outcome_miss r c r1) by done.
    rewrite computed_outcome_returning by done. rewrite Hmf, Hcbf.
    rewrite fused_outcome_fallback by done.
    rewrite take_ge; [done | apply recommend_popular_length].
  - intros ids r' Hrun. split.
    + by destruct (Hinv ids r' Hrun) as (_ & _ & _ & _ & _ & ?).
    + destruct (Hread ids r' Hrun) as [E|E];
        by eapply get_cached_recommendations_entries.
Qed.

(** Every computed list, on each of the three paths, has at most [top_n]
    entries. *)
Lemma hybrid_outcome_length r o r' :
  hybrid r = (Ok o, r') ->
  (forall recs, o <> FromCache recs) ->
  (length (returned o) <= top_n)%nat.
Proof.
  intros Hrun Hmiss.
  destruct (hybrid_outcome_computed r o r' Hrun Hmiss) as (c & r1 & _ & Hc).
  destruct is_new_user eqn:Hnew.
  - rewrite computed_outcome_new in Hc by done. injection Hc as <- <-.
    simpl. unfold explained. rewrite !length_fmap.
    apply recommend_popular_length.
  - rewrite computed_outcome_returning in Hc by done.
    destruct mf_signal as [l1|e] eqn:Hmf; [|done].
    destruct cbf_signal as [l2|e] eqn:Hcbf; [|done].
    destruct (decide (l1 = [] /\ l2 = [] /\ time_signal = [] /\ device_signal = []))
      as [(-> & -> & Ht & Hd)|Hsome].
    + rewrite fused_outcome_fallback in Hc by done. injection Hc as <- <-.
      simpl. rewrite length_fmap, length_take. lia.
    + rewrite fused_outcome_fusion in Hc by done. cbv zeta in Hc.
      destruct (cache_recommendations _ _ _ _ _) as [[[]|e] r2]; [|done].
      injection Hc as <- <-. simpl. unfold explained. rewrite length_fmap.
      apply top_recommendations_length.
Qed.

End HybridFacts.

(** ** Popularity ranking *)

Lemma dd_update_fresh `{EqDecision K} {V} (dflt : V) f (k : K) (d : dict K V) :
  k ∉ d.*1 -> dd_update dflt f k d = d ++ [(k, f dflt)].
Proof.
  induction d as [|[k' v] d IH]; simpl; [done|].
  rewrite not_elem_of_cons. intros [Hne Hout].
  rewrite decide_False by congruence. by rewrite IH.
Qed.


Section Frequency.
Variable purchase_history : dict Z (list purchase).
Let ids : list Z := purchased_id <$> concat (dict_values purchase_history).




Lemma count_elem (seen : dict Z Z) (l : list Z) x :
  x ∈ (foldl (fun freq pid => dd_update 0%Z Z.succ pid freq) seen l).*1
  <-> x ∈ seen.*1 \/ x ∈ l.
Proof.
  revert seen. induction l as [|pid l IH]; intros seen; simpl.
  - rewrite elem_of_nil. tauto.
  - rewrite IH, dd_update_elem_key, elem_of_cons. tauto.
Qed.



Lemma purchase_frequency_elem x :
  x ∈ (purchase_frequency purchase_history).*1 <-> x ∈ ids.
Proof.
  unfold purchase_frequency. rewrite count_elem. simpl.
  rewrite elem_of_nil. tauto.
Qed.

End Frequency.








(** ** Cache keys *)

Lemma append_nil_l (s : string) : "" +:+ s = s.
Proof. reflexivity. Qed.

Lemma append_cons_l (c : ascii) (s t : string) :
  String c s +:+ t = String c (s +:+ t).
Proof. reflexivity. Qed.

Lemma comma_splits_once (x y a b : string) :
  has_comma x = false -> has_comma y = false ->
  x +:+ "," +:+ a = y +:+ "," +:+ b -> x = y /\ a = b.
Proof.
  revert y. induction x as [|c x IH]; intros [|c' y]; simpl;
    repeat first [rewrite append_nil_l | rewrite append_cons_l].
  - intros _ _ [= ->]. done.
  - intros _ Hy [= <- _]. done.
  - intros Hx _ [= -> _]. done.
  - destruct (Ascii.eqb c ","%char) eqn:Ec; [done|].
    destruct (Ascii.eqb c' ","%char) eqn:Ec'; [done|].
    intros Hx Hy [= -> H]. destruct (IH y Hx Hy H) as [-> ->]. done.
Qed.

Lemma comma_free_is_one_label (x y b : string) :
  has_comma x = false -> x <> y +:+ "," +:+ b.
Proof.
  revert y. induction x as [|c x IH]; intros [|c' y]; simpl;
    repeat first [rewrite append_nil_l | rewrite append_cons_l]; try done.
  - destruct (Ascii.eqb c ","%char) eqn:Ec; [done|]. intros _ [= -> _]. done.
  - destruct (Ascii.eqb c ","%char) eqn:Ec; [done|]. intros Hx [= _ H].
    by apply (IH y).
Qed.

Lemma join_labels_inj (s1 s2 : list string) :
  Forall plain_label s1 -> Forall plain_label s2 ->
  String.concat "," s1 = String.concat "," s2 -> s1 = s2.
Proof.
  intros H1. revert s2. induction H1 as [|x s1 [Hx Hx'] H1 IH]; intros s2 H2.
  - destruct H2 as [|y s2 [Hy Hy'] H2]; [done|]. simpl.
    destruct s2 as [|y' s2]; [by intros <-|].
    destruct y; [done|]. done.
  - destruct H2 as [|y s2 [Hy Hy'] H2].
    + simpl. destruct s1 as [|x' s1]; [by intros ->|].
      destruct x; [done|]. done.
    + simpl. destruct s1 as [|x' s1], s2 as [|y' s2].
      * by intros ->.
      * intros E. by apply comma_free_is_one_label in E.
      * intros E. symmetry in E. by apply comma_free_is_one_label in E.
      * intros E. apply comma_splits_once in E as [-> E]; [|done|done].
        f_equal. by apply IH.
Qed.

(** C6 (as amended).  Reading and writing use the same key, the string
    ["recommendations:{user_id}:"] followed by the season labels joined
    with commas in the order in which the caller gave them; nothing sorts
    them.  A write to a reachable store puts the list under that key and a
    read looks up that key only.  For one user, two lists of non-empty,
    comma-free labels share a key only if they are the same list in the
    same order. *)
Theorem cache_key_joins_labels_in_given_order
    (user_id : Z) (season_input : list string) (recs : list rec_entry)
    (ttl : nat) (stored : gmap string (nat * blob)) :
  let cache_key :=
    "recommendations:" +:+ pretty user_id +:+ ":" +:+ String.concat "," season_input in
  let r := {| entries := stored; outages := [] |} in
  cache_recommendations user_id season_input recs ttl r
  = (Ok tt, {| entries := <[cache_key := (ttl, Json recs)]> stored; outages := [] |})
  /\ get_cached_recommendations user_id season_input r
     = (Ok (match stored !! cache_key with
            | Some (_, Json cached) => Some cached
            | _ => None
            end), r)
  /\ (forall other : list string,
        Forall plain_label season_input -> Forall plain_label other ->
        "recommendations:" +:+ pretty user_id +:+ ":" +:+ String.concat "," other
        = cache_key ->
        other = season_input).
Proof.
  intros cache_key r. split; [done|]. split.
  - unfold get_cached_recommendations, redis_get. simpl. fold cache_key.
    by destruct (stored !! cache_key) as [[t [cached|raw]]|].
  - intros other Hs Ho E. subst cache_key.
    do 3 apply String.app_inj in E. by apply join_labels_inj.
Qed.

(** ** Concrete runs *)

Ltac by_computation := vm_compute; first [reflexivity | exact I | done].

Ltac in_list :=
  repeat first [apply list_elem_of_here | apply list_elem_of_further].

Lemma no_hit_on_empty_cache user_id season_input :
  ~ cache_hit user_id season_input Duo.empty_cache.
Proof. intros (entry & cached & r1 & H). discriminate H. Qed.

(** C1, the code at a purchased and trending product.  User 1 has purchased
    product 101; on a Friday of the Holiday season the time-based
    recommender names it and the engine returns it, second of two, although
    the claim is that no purchased product is ever returned. *)
Lemma hybrid_returns_purchased_product :
  outcome_ids <$> (Duo.alice_request Duo.empty_cache).1 = Ok [102; 101]%Z
  /\ 101%Z ∈ purchased_products Duo.purchase_history 1.
Proof.
  split; [by_computation|].
  apply elem_of_list_to_set. by_computation || in_list.
Qed.

Lemma hybrid_purchased_only_via_time_based_witness :
  101%Z ∈ recommend_products_time_based (Duo.friday [0; 1]%nat) ["Holiday"]
            Duo.products Duo.contextual_signals.
Proof.
  eapply (hybrid_purchased_only_via_time_based (Duo.friday [0; 1]%nat) 1%Z
            ["Holiday"] Duo.users Duo.products Duo.contextual_signals
            Duo.browsing_history Duo.purchase_history Duo.popular_products
            Duo.user_factors Duo.item_factors Duo.user_index Duo.product_index
            Duo.user_profiles Duo.product_feature_vectors 2 Duo.empty_cache).
  - by_computation.
  - discriminate.
  - unfold outcome_ids. simpl. in_list.
  - apply elem_of_list_to_set. simpl. in_list.
Defined.

(** C2, the code at a failing store.  When the connection fails on the
    read, the request of user 1 ends in [RedisError] before anything is
    computed; when it fails on the write, the same request ends in
    [RedisError] although its list had been computed. *)
Lemma hybrid_propagates_store_errors :
  Duo.alice_request {| entries := ∅; outages := [true] |}
  = (Raise RedisError, Duo.empty_cache)
  /\ Duo.alice_request {| entries := ∅; outages := [false; true] |}
     = (Raise RedisError, Duo.empty_cache)
  /\ (exists top r, Duo.alice_request Duo.empty_cache = (Ok (Fused top), r)).
Proof.
  split; [by_computation|]. split; [by_computation|].
  eexists _, _. by_computation.
Qed.



(** C4, counterexample.  User 9 has a purchase history.  For the request
    of two products the latent-factor, content, time-based and device-based
    recommenders return nothing and the popularity recommender returns
    product 30, so one of the five signals is not empty; the engine takes
    the fallback all the same.  The fallback returns product 30, whereas
    the popularity ranking truncated to two is products 7 and 8, both
    bought by user 9.  And when the popularity ranking is empty too, so
    that all five signals are empty, a list held by the cache is returned
    instead of the fallback. *)
Lemma fallback_taken_with_popular_signal :
  dict_mem Shelf.purchase_history 9%Z = true
  /\ Shelf.guest_request Shelf.popular_products Duo.empty_cache
     = (Ok (PopularFallback [30%Z]), Duo.empty_cache)
  /\ recommend_popular_trending_products 9 Shelf.popular_products
       Shelf.purchase_history 2 = [30%Z]
  /\ take 2 Shelf.popular_products.*1 = [7; 8]%Z
  /\ (let cached :=
        {| entries := {[ "recommendations:9:" := (default_ttl, Json [Bare 30]) ]};
           outages := [] |} in
      recommend_products_mf (Shelf.friday []) 9 Shelf.user_factors
        Shelf.item_factors [] Shelf.product_index Shelf.purchase_history 2 = Ok []
      /\ recommend_products_cbf (Shelf.friday []) 9 Shelf.user_profiles
           Shelf.product_feature_vectors Shelf.purchase_history 2 = Ok []
      /\ recommend_popular_trending_products 9 [] Shelf.purchase_history 2 = []
      /\ recommend_products_time_based (Shelf.friday []) [] Shelf.products
           Shelf.contextual_signals = []
      /\ recommend_products_device_based 9 Shelf.users Shelf.products
           Shelf.purchase_history 2 = []
      /\ Shelf.guest_request [] cached = (Ok (FromCache [Bare 30]), cached)).
Proof. cbv zeta. repeat split; by_computation. Qed.

Lemma popular_fallback_iff_four_signals_empty_witness :
  (exists ids r',
     Shelf.guest_request Shelf.popular_products Duo.empty_cache
     = (Ok (PopularFallback ids), r'))
  /\ (forall ids r',
        Shelf.guest_request Shelf.popular_products Duo.empty_cache
        = (Ok (PopularFallback ids), r') ->
        ids = recommend_popular_trending_products 9 Shelf.popular_products
                Shelf.purchase_history 2
        /\ entries r' = entries Duo.empty_cache).
Proof.
  destruct (popular_fallback_iff_four_signals_empty (Shelf.friday []) 9%Z []
              Shelf.users Shelf.products Shelf.contextual_signals
              Shelf.browsing_history Shelf.purchase_history Shelf.popular_products
              Shelf.user_factors Shelf.item_factors [] Shelf.product_index
              Shelf.user_profiles Shelf.product_feature_vectors 2 Duo.empty_cache)
    as [Hiff Hreturned].
  - reflexivity.
  - split; [|exact Hreturned].
    apply (proj2 Hiff). split; [by exists None, Duo.empty_cache|].
    split; [apply no_hit_on_empty_cache|].
    repeat split; by_computation.
Defined.

(** C5, the code on the fallback path.  The request of user 6 returns the
    bare product id 101, not an [(id, explanation)] pair. *)
Lemma fallback_returns_bare_ids :
  recommend_products_hybrid (Duo.friday [1; 0]%nat) 6 [] Duo.users Duo.products
    Duo.contextual_signals Duo.browsing_history Duo.purchase_history
    Duo.popular_products Duo.user_factors Duo.item_factors Duo.user_index
    Duo.product_index Duo.user_profiles Duo.product_feature_vectors 1
    Duo.empty_cache
  = (Ok [Bare 101], Duo.empty_cache).
Proof. by_computation. Qed.

(** C6, counterexample.  A list cached for user 1 under the seasons
    [All Year, Summer] sits under the key ending in ["All Year,Summer"]; a
    request with the same two labels in the other order reads the key
    ending in ["Summer,All Year"] and misses it. *)
Lemma reordered_seasons_miss_the_cache :
  let written :=
    (cache_recommendations 1 ["All Year"; "Summer"] [Explained 102 "popular"]
       default_ttl Duo.empty_cache).2 in
  entries written !! "recommendations:1:All Year,Summer"
  = Some (default_ttl, Json [Explained 102 "popular"])
  /\ (get_cached_recommendations 1 ["All Year"; "Summer"] written).1
     = Ok (Some [Explained 102 "popular"])
  /\ (get_cached_recommendations 1 ["Summer"; "All Year"] written).1 = Ok None
  /\ entries (cache_recommendations 1 ["Summer"; "All Year"] [] default_ttl
                Duo.empty_cache).2
       !! "recommendations:1:Summer,All Year" = Some (default_ttl, Json []).
Proof. cbv zeta. repeat split; by_computation. Qed.

Lemma cache_key_joins_labels_in_given_order_witness :
  ["All Year"; "Summer"] = ["All Year"; "Summer"].
Proof.
  apply (cache_key_joins_labels_in_given_order 1%Z ["All Year"; "Summer"] []
           default_ttl ∅).
  - repeat constructor; discriminate.
  - repeat constructor; discriminate.
  - reflexivity.
Defined.



(** The scores behind that ranking, as binary64 numbers: 1.1 for product
    20, 0.6333333333333333 for product 30, second of the three products of
    the latent-factor list, and 0.4666666666666667 for product 50, third of
    them.  Were every rank to contribute the full weight, product 50 (0.9)
    would stand before product 30 (0.8). *)
Lemma positional_decay_on_the_shelf :
  let signals :=
    [(rnd64 (1 # 2), [20; 30; 50]%Z); (rnd64 (2 # 5), [20%Z]);
     (rnd64 (3 # 10), [30%Z]); (rnd64 (1 # 5), [50%Z]);
     (rnd64 (1 # 5), [20; 50]%Z)] in
  Shelf.indexed_request Duo.empty_cache
  = (Ok (Fused Shelf.indexed_list), Shelf.stored Shelf.indexed_list)
  /\ (computed_aggregate_score signals 20
      == 2476979795053773 # 2251799813685248)%Q
  /\ (computed_aggregate_score signals 30
      == 1426139882000657 # 2251799813685248)%Q
  /\ (computed_aggregate_score signals 50
      == 4203359652212463 # 9007199254740992)%Q
  /\ (position_score (rnd64 (1 # 2)) 1 3 == 6004799503160662 # 18014398509481984)%Q.
Proof. cbv zeta. repeat split; by_computation. Qed.

(** Equal scores do occur: two products of equal rating, each bought once,
    both score 1, and the one bought first is listed first. *)
Lemma popularity_ranking_has_ties :
  exists l,
    compute_product_popularity Ties.purchase_history Ties.products
      default_rating_weight default_frequency_weight = Ok l
    /\ l.*1 = [201; 202]%Z
    /\ Forall (fun x => x.2 == 1)%Q l
    /\ ~ strictly_descending l.
Proof.
  eexists. split; [by_computation|]. split; [reflexivity|]. split.
  - repeat constructor.
  - intros H. specialize (H 0%nat _ _ eq_refl eq_refl). by vm_compute in H.
Qed.



(** C10, counterexample.  User 6 has a purchase history and no profile.
    When the cache holds a list for the request, the engine returns it
    without calling any recommender: the request does not fail. *)
Lemma cached_list_answers_user_without_profile :
  let cached :=
    {| entries := {[ "recommendations:6:" := (default_ttl, Json [Bare 101]) ]};
       outages := [] |} in
  dict_mem Duo.purchase_history 6%Z = true
  /\ dict_get [(1%Z, Duo.vector_101)] 6%Z = None
  /\ hybrid_outcome (Duo.friday [1; 0]%nat) 6 [] Duo.users Duo.products
       Duo.contextual_signals Duo.browsing_history Duo.purchase_history
       Duo.popular_products Duo.user_factors Duo.item_factors Duo.user_index
       Duo.product_index [(1%Z, Duo.vector_101)] Duo.product_feature_vectors
       1 cached
     = (Ok (FromCache [Bare 101]), cached).
Proof. cbv zeta. repeat split; by_computation. Qed.

Lemma recommend_products_cbf_unknown_user_witness :
  recommend_products_cbf (Duo.friday [1; 0]%nat) 6 [(1%Z, Duo.vector_101)]
    Duo.product_feature_vectors Duo.purchase_history 1 = Raise KeyError
  /\ recommend_products_mf (Duo.friday [1; 0]%nat) 6 Duo.user_factors
       Duo.item_factors Duo.user_index Duo.product_index Duo.purchase_history 1
     = Ok []
  /\ recommend_products_device_based 6 Duo.users Duo.products
       Duo.purchase_history 1 = []
  /\ is_raise
       (hybrid_outcome (Duo.friday [1; 0]%nat) 6 [] Duo.users Duo.products
          Duo.contextual_signals Duo.browsing_history Duo.purchase_history
          Duo.popular_products Duo.user_factors Duo.item_factors Duo.user_index
          Duo.product_index [(1%Z, Duo.vector_101)] Duo.product_feature_vectors
          1 Duo.empty_cache).1.
Proof.
  destruct (recommend_products_cbf_unknown_user (Duo.friday [1; 0]%nat) 6%Z []
              Duo.users Duo.products Duo.contextual_signals
              Duo.browsing_history Duo.purchase_history Duo.popular_products
              Duo.user_factors Duo.item_factors Duo.user_index Duo.product_index
              [(1%Z, Duo.vector_101)] Duo.product_feature_vectors 1 eq_refl)
    as (Hcbf & Hmf & Hdevice & Hhybrid).
  split; [exact Hcbf|]. split; [exact (Hmf eq_refl)|].
  split; [exact (Hdevice eq_refl)|].
  apply Hhybrid; [reflexivity | apply no_hit_on_empty_cache].
Defined.

(** * Further properties of the code *)

(** ** Feature vectors of well-formed products *)

Lemma list_index_NoDup `{EqDecision A} (l : list A) (x : A) (i : nat) :
  NoDup l -> l !! i = Some x -> list_index l x = Ok i.
Proof.
  intros Hnd Hi.
  destruct (list_index_present l x) as (j & Hj & Hlj);
    [by eapply list_elem_of_lookup_2|].
  rewrite Hj. f_equal. by eapply NoDup_lookup.
Qed.

Lemma mark_tags_indicator all_tags ts v :
  NoDup all_tags ->
  (forall tag, tag ∈ ts -> tag ∈ all_tags) ->
  length v = length all_tags ->
  exists v',
    mark_tags all_tags ts v = Ok v'
    /\ length v' = length all_tags
    /\ forall i tag, all_tags !! i = Some tag ->
         v' !! i = if decide (tag ∈ ts) then Some 1%Q else v !! i.
Proof.
  intros Hnd. revert v. induction ts as [|t ts IH]; intros v Hin Hlen;
    cbn [mark_tags].
  - exists v. split; [done|]. split; [done|]. intros i tag _.
    destruct (decide (tag ∈ [])) as [Hnil|_]; [by apply elem_of_nil in Hnil | done].
  - destruct (list_index_present all_tags t) as (i0 & Hidx & Hi0);
      [apply Hin, elem_of_cons; by left|].
    rewrite Hidx. simpl.
    destruct (IH (<[i0 := 1%Q]> v)) as (v' & Hv' & Hlen' & Hat).
    { intros tag Htag. apply Hin, elem_of_cons. by right. }
    { by rewrite length_insert. }
    exists v'. split; [done|]. split; [done|]. intros i tag Hi.
    rewrite (Hat i tag Hi).
    destruct (decide (tag ∈ ts)) as [Hts|Hts].
    + rewrite decide_True; [done | apply elem_of_cons; by right].
    + destruct (decide (tag = t)) as [->|Hne].
      * rewrite decide_True by (apply elem_of_cons; by left).
        rewrite (NoDup_lookup _ _ _ _ Hnd Hi Hi0).
        apply list_lookup_insert_eq. rewrite Hlen. by eapply lookup_lt_Some.
      * rewrite decide_False.
        2: { rewrite not_elem_of_cons. done. }
        apply list_lookup_insert_ne. intros <-. congruence.
Qed.

(** X1.  For vocabularies without repetition that contain the product's
    tags and category, [create_product_feature_vector] returns a vector of
    the length of both vocabularies whose tag segment holds 1 exactly at
    the positions of the product's tags and whose category segment holds 1
    exactly at the position of the product's category, 0 elsewhere. *)
Theorem create_product_feature_vector_indicator
    (p : product) (all_tags all_categories : list string) :
  NoDup all_tags -> NoDup all_categories ->
  (forall tag, tag ∈ tags p -> tag ∈ all_tags) ->
  category p ∈ all_categories ->
  exists v,
    create_product_feature_vector p all_tags all_categories = Ok v
    /\ length v = (length all_tags + length all_categories)%nat
    /\ (forall i tag, all_tags !! i = Some tag ->
          v !! i = Some (if decide (tag ∈ tags p) then 1%Q else 0%Q))
    /\ (forall j c, all_categories !! j = Some c ->
          v !! (length all_tags + j)%nat
          = Some (if decide (c = category p) then 1%Q else 0%Q)).
Proof.
  intros Htags Hcats Hin Hcat. unfold create_product_feature_vector.
  destruct (mark_tags_indicator all_tags (tags p)
              (replicate (length all_tags) 0%Q) Htags Hin)
    as (tv & -> & Hlen & Hat); [by rewrite length_replicate|].
  destruct (list_index_present all_categories (category p) Hcat)
    as (c0 & -> & Hc0).
  simpl. eexists. split; [done|]. split; [|split].
  - by rewrite length_app, length_insert, length_replicate, Hlen.
  - intros i tag Hi. rewrite lookup_app_l by (rewrite Hlen; by eapply lookup_lt_Some).
    rewrite (Hat i tag Hi). destruct (decide (tag ∈ tags p)); [done|].
    apply lookup_replicate_2. by eapply lookup_lt_Some.
  - intros j c Hj. rewrite lookup_app_r by lia. rewrite Hlen.
    replace (length all_tags + j - length all_tags)%nat with j by lia.
    pose proof (lookup_lt_Some _ _ _ Hj) as Hlt.
    destruct (decide (c = category p)) as [->|Hne].
    + rewrite (NoDup_lookup _ _ _ _ Hcats Hj Hc0).
      apply list_lookup_insert_eq. rewrite length_replicate.
      by eapply lookup_lt_Some.
    + rewrite list_lookup_insert_ne by (intros <-; congruence).
      by apply lookup_replicate_2.
Qed.

Lemma create_product_feature_vector_indicator_witness :
  create_product_feature_vector
    {| product_name := "Wireless Earbuds"; category := "Electronics";
       tags := ["audio"; "wireless"; "Bluetooth"]; rating := 45 # 10;
       device_suitability := ["mobile"; "tablet"] |}
    Duo.all_tags Duo.all_categories = Ok Duo.vector_101.
Proof.
  destruct (create_product_feature_vector_indicator
              {| product_name := "Wireless Earbuds"; category := "Electronics";
                 tags := ["audio"; "wireless"; "Bluetooth"]; rating := 45 # 10;
                 device_suitability := ["mobile"; "tablet"] |}
              Duo.all_tags Duo.all_categories) as (v & Hv & _).
  - apply (bool_decide_unpack _). by_computation.
  - apply (bool_decide_unpack _). by_computation.
  - intros tag Htag. simpl in Htag.
    repeat (apply elem_of_cons in Htag as [->|Htag]); [in_list .. |].
    by apply elem_of_nil in Htag.
  - in_list.
  - rewrite Hv. vm_compute in Hv. by injection Hv as <-.
Defined.

(** ** Index and vocabulary *)

Lemma enumerate_from_fresh idx keys (index : dict Z nat) :
  NoDup (index.*1 ++ keys) ->
  enumerate_from idx keys index = index ++ zip keys (seq idx (length keys)).
Proof.
  revert idx index. induction keys as [|key keys IH]; intros idx index Hnd; simpl.
  - by rewrite app_nil_r.
  - unfold dict_set. rewrite dd_update_fresh.
    2: { apply NoDup_app in Hnd as (_ & Hdisj & _). intros Hin.
         apply (Hdisj key Hin). apply elem_of_cons. by left. }
    rewrite IH.
    + by rewrite <- app_assoc.
    + rewrite fmap_app, <- app_assoc. exact Hnd.
Qed.

Lemma dict_get_zip_seq (keys : list Z) (start : nat) k i :
  NoDup keys ->
  dict_get (zip keys (seq start (length keys))) k = Some i
  <-> exists j, i = (start + j)%nat /\ keys !! j = Some k.
Proof.
  revert start. induction keys as [|key keys IH]; intros start Hnd; simpl.
  - split; [done | by intros (j & _ & ?)].
  - apply NoDup_cons in Hnd as [Hkey Hnd].
    destruct (decide (key = k)) as [->|Hne].
    + split.
      * intros [= <-]. exists 0%nat. split; [lia | done].
      * intros ([|j] & -> & Hj); [f_equal; lia|].
        simpl in Hj. apply list_elem_of_lookup_2 in Hj. done.
    + rewrite (IH (S start) Hnd). split.
      * intros (j & -> & Hj). exists (S j). split; [lia | done].
      * intros ([|j] & -> & Hj); simpl in Hj; [congruence|].
        exists j. split; [lia | done].
Qed.

Lemma enumerate_keys (keys : list Z) :
  NoDup keys ->
  (enumerate_from 0 keys []).*1 = keys
  /\ forall k i, dict_get (enumerate_from 0 keys []) k = Some i <-> keys !! i = Some k.
Proof.
  intros Hnd. rewrite enumerate_from_fresh by done. simpl. split.
  - apply fst_zip. rewrite length_seq. lia.
  - intros k i. rewrite dict_get_zip_seq by done. split.
    + by intros (j & -> & Hj).
    + intros Hi. by exists i.
Qed.

(** X2.  For users and products with distinct keys, [build_index] maps each
    id to its position in the dictionary's key order and to nothing else,
    and both indexes list their keys in that same order; so
    [list(product_index.keys())[product_index[pid]]] is [pid] again. *)
Theorem build_index_positions (users : dict Z user) (products : dict Z product) :
  NoDup (dict_keys users) -> NoDup (dict_keys products) ->
  dict_keys (build_index users products).1 = dict_keys users
  /\ dict_keys (build_index users products).2 = dict_keys products
  /\ (forall uid i, dict_get (build_index users products).1 uid = Some i
                    <-> dict_keys users !! i = Some uid)
  /\ (forall pid i, dict_get (build_index users products).2 pid = Some i
                    <-> dict_keys products !! i = Some pid)
  /\ (forall pid i, dict_get (build_index users products).2 pid = Some i ->
        list_item (dict_keys (build_index users products).2) i = Ok pid).
Proof.
  intros Hu Hp. unfold build_index. simpl.
  destruct (enumerate_keys (dict_keys users) Hu) as [Hku Hiu].
  destruct (enumerate_keys (dict_keys products) Hp) as [Hkp Hip].
  split; [done|]. split; [done|]. split; [done|]. split; [done|].
  intros pid i Hi. unfold list_item, dict_keys at 1. rewrite Hkp.
  apply Hip in Hi. by rewrite Hi.
Qed.

Lemma build_index_positions_witness :
  build_index Sample.users Sample.products
  = ([(1%Z, 0%nat); (2%Z, 1%nat); (3%Z, 2%nat); (4%Z, 3%nat); (5%Z, 4%nat)],
     [(101%Z, 0%nat); (102%Z, 1%nat); (103%Z, 2%nat); (104%Z, 3%nat); (105%Z, 4%nat)])
  /\ list_item (dict_keys (build_index Sample.users Sample.products).2) 2 = Ok 103%Z.
Proof.
  split; [by_computation|].
  apply (build_index_positions Sample.users Sample.products).
  - apply (bool_decide_unpack _). by_computation.
  - apply (bool_decide_unpack _). by_computation.
  - by_computation.
Defined.

Lemma elem_of_concat {A} (x : A) (ls : list (list A)) :
  x ∈ concat ls <-> exists l, x ∈ l /\ l ∈ ls.
Proof.
  induction ls as [|l ls IH]; simpl.
  - split; [by intros ?%elem_of_nil | by intros (l & _ & ?%elem_of_nil)].
  - rewrite elem_of_app, IH. split.
    + intros [Hx|(l' & Hx & Hl')].
      * exists l. split; [done | apply elem_of_cons; by left].
      * exists l'. split; [done | apply elem_of_cons; by right].
    + intros (l' & Hx & [->|Hl']%elem_of_cons); [by left | right; by exists l'].
Qed.

Lemma mark_tags_accepts all_tags ts v :
  (forall tag, tag ∈ ts -> tag ∈ all_tags) ->
  exists v', mark_tags all_tags ts v = Ok v'.
Proof.
  revert v. induction ts as [|t ts IH]; intros v Hin; simpl; [by eexists|].
  destruct (list_index_present all_tags t) as (i & -> & _);
    [apply Hin, elem_of_cons; by left|].
  simpl. apply IH. intros tag Htag. apply Hin, elem_of_cons. by right.
Qed.

(** X3.  Whatever the order in which Python lists a set, the vocabularies
    that [extract_tags_and_categories] derives from a catalog make
    [create_product_feature_vector] succeed on every product of that
    catalog, and all the vectors have one length, the number of distinct
    tags plus the number of distinct categories. *)
Theorem catalog_vocabulary_vectorizes
    (list_of_set : gset string -> list string) (products : dict Z product)
    (pid : Z) (p : product) :
  (forall s, list_of_set s ≡ₚ elements s) ->
  (pid, p) ∈ products ->
  exists v,
    create_product_feature_vector p
      (extract_tags_and_categories list_of_set products).1
      (extract_tags_and_categories list_of_set products).2 = Ok v
    /\ length v
       = (size (list_to_set (concat (tags <$> dict_values products)) : gset string)
          + size (list_to_set (category <$> dict_values products) : gset string))%nat.
Proof.
  intros Horder Hp. unfold extract_tags_and_categories. simpl.
  set (all_tags := list_of_set _). set (all_categories := list_of_set _).
  assert (p ∈ dict_values products) as Hvalue.
  { apply list_elem_of_fmap. by exists (pid, p). }
  destruct (mark_tags_accepts all_tags (tags p) (replicate (length all_tags) 0%Q))
    as (tv & Htv).
  { intros tag Htag. subst all_tags. rewrite Horder, elem_of_elements.
    apply elem_of_list_to_set, elem_of_concat. exists (tags p).
    split; [done|]. apply list_elem_of_fmap. by exists p. }
  destruct (list_index_present all_categories (category p)) as (c & Hc & _).
  { subst all_categories. rewrite Horder, elem_of_elements.
    apply elem_of_list_to_set, list_elem_of_fmap. by exists p. }
  assert (create_product_feature_vector p all_tags all_categories
          = Ok (tv ++ <[c := 1%Q]> (replicate (length all_categories) 0%Q))) as Hv.
  { unfold create_product_feature_vector. rewrite Htv. simpl. by rewrite Hc. }
  eexists. split; [exact Hv|].
  apply create_product_feature_vector_shape in Hv as [-> _].
  subst all_tags all_categories. unfold size, set_size. simpl.
  by rewrite !Horder.
Qed.

Lemma catalog_vocabulary_vectorizes_witness :
  exists v,
    create_product_feature_vector
      {| product_name := "Yoga Mat"; category := "Fitness";
         tags := ["exercise"; "mat"; "yoga"]; rating := rnd64 (47 # 10);
         device_suitability := ["tablet"] |}
      (extract_tags_and_categories elements Sample.products).1
      (extract_tags_and_categories elements Sample.products).2 = Ok v
    /\ length v = 20%nat.
Proof.
  destruct (catalog_vocabulary_vectorizes elements Sample.products 103%Z
              {| product_name := "Yoga Mat"; category := "Fitness";
                 tags := ["exercise"; "mat"; "yoga"]; rating := rnd64 (47 # 10);
                 device_suitability := ["tablet"] |}) as (v & Hv & Hlen).
  - done.
  - unfold Sample.products. in_list.
  - exists v. split; [exact Hv|]. rewrite Hlen. by_computation.
Defined.

(** ** The user-item matrix *)

Lemma mapM_Ok {A B} (f : A -> result B) (g : A -> B) (l : list A) :
  (forall x, x ∈ l -> f x = Ok (g x)) -> mapM f l = Ok (g <$> l).
Proof.
  induction l as [|x l IH]; intros Hf; [done|].
  simpl. rewrite (Hf x) by (apply elem_of_cons; by left). simpl.
  rewrite IH; [done|]. intros y Hy. apply Hf, elem_of_cons. by right.
Qed.

Lemma mapM_raises {A B} (f : A -> result B) (e : exn) (l : list A) :
  (forall x e', x ∈ l -> f x = Raise e' -> e' = e) ->
  (exists x, x ∈ l /\ is_raise (f x)) ->
  mapM f l = Raise e.
Proof.
  intros Honly (x & Hx & Hraise). induction l as [|y l IH].
  - by apply elem_of_nil in Hx.
  - simpl. destruct (f y) as [b|e'] eqn:Hy; simpl.
    + rewrite IH; [done | |].
      * intros z e' Hz. apply Honly, elem_of_cons. by right.
      * apply elem_of_cons in Hx as [->|Hx]; [|done].
        rewrite Hy in Hraise. done.
    + f_equal. apply (Honly y e'); [apply elem_of_cons; by left | done].
Qed.

Lemma elem_of_purchase_records purchase_history uid pid :
  (uid, pid) ∈ purchase_records purchase_history
  <-> exists purchases p,
        (uid, purchases) ∈ purchase_history /\ p ∈ purchases /\ purchased_id p = pid.
Proof.
  unfold purchase_records. rewrite elem_of_concat. split.
  - intros (l & Hin & Hl). apply list_elem_of_fmap in Hl as ([u purchases] & -> & Hu).
    apply list_elem_of_fmap in Hin as (p & [= -> ->] & Hp). by exists purchases, p.
  - intros (purchases & p & Hu & Hp & <-).
    exists ((fun p => (uid, purchased_id p)) <$> purchases). split.
    + apply list_elem_of_fmap. by exists p.
    + apply list_elem_of_fmap. by exists (uid, purchases).
Qed.

(** X4.  When some purchase record names a user missing from [user_index]
    or a product missing from [product_index],
    [create_sparse_user_item_matrix] raises [KeyError] and builds no
    matrix. *)
Theorem create_sparse_user_item_matrix_unindexed
    (purchase_history : dict Z (list purchase)) (user_index product_index : dict Z nat)
    (uid : Z) (purchases : list purchase) (p : purchase) :
  (uid, purchases) ∈ purchase_history ->
  p ∈ purchases ->
  dict_get user_index uid = None \/ dict_get product_index (purchased_id p) = None ->
  create_sparse_user_item_matrix purchase_history user_index product_index
  = Raise KeyError.
Proof.
  intros Hu Hp Hmissing. unfold create_sparse_user_item_matrix, purchase_coordinates.
  rewrite (mapM_raises _ KeyError); [done| |].
  - intros [u q] e _. simpl. unfold dict_item.
    destruct (dict_get user_index u); simpl; [|congruence].
    destruct (dict_get product_index q); simpl; congruence.
  - exists (uid, purchased_id p). split.
    + apply elem_of_purchase_records. by exists purchases, p.
    + simpl. unfold dict_item. destruct Hmissing as [->| Hq]; [done|].
      rewrite Hq. by destruct (dict_get user_index uid).
Qed.

Lemma create_sparse_user_item_matrix_unindexed_witness :
  create_sparse_user_item_matrix Duo.purchase_history Duo.user_index
    Duo.product_index = Raise KeyError.
Proof.
  apply (create_sparse_user_item_matrix_unindexed Duo.purchase_history
           Duo.user_index Duo.product_index 6%Z
           [(102%Z, 1%Z, "2025-03-04 12:00:00")]
           (102%Z, 1%Z, "2025-03-04 12:00:00")).
  - unfold Duo.purchase_history. in_list.
  - in_list.
  - left. reflexivity.
Defined.

Lemma filter_fmap_length {A B} `{EqDecision B} (f : A -> B) (l : list A) (b : B) :
  length (filter (fun y => y = b) (f <$> l))
  = length (filter (fun x => f x = b) l).
Proof.
  induction l as [|x l IH]; [done|].
  rewrite fmap_cons, !filter_cons.
  destruct (decide (f x = b)); simpl; by rewrite IH.
Qed.

Lemma filter_length_ext {A} (P Q : A -> Prop) `{forall x, Decision (P x)}
    `{forall x, Decision (Q x)} (l : list A) :
  (forall x, x ∈ l -> P x <-> Q x) ->
  length (filter P l) = length (filter Q l).
Proof.
  induction l as [|x l IH]; intros Hext; [done|].
  rewrite !filter_cons.
  assert (P x <-> Q x) as Hx by (apply Hext, elem_of_cons; by left).
  assert (length (filter P l) = length (filter Q l)) as Hl.
  { apply IH. intros y Hy. apply Hext, elem_of_cons. by right. }
  destruct (decide (P x)), (decide (Q x)); simpl; try tauto; by rewrite Hl.
Qed.

(** X5.  When every purchase record names an indexed user and an indexed
    product, with positions inside the indexes, and no two ids share a
    position, [create_sparse_user_item_matrix] returns a matrix with one
    row per indexed user and one column per indexed product whose entry
    for a user and a product is the number of purchase records of that
    product by that user (2 for a product bought twice, 0 for none). *)
Theorem create_sparse_user_item_matrix_counts
    (purchase_history : dict Z (list purchase)) (user_index product_index : dict Z nat) :
  (forall uid pid, (uid, pid) ∈ purchase_records purchase_history ->
     exists row col,
       dict_get user_index uid = Some row /\ (row < length user_index)%nat
       /\ dict_get product_index pid = Some col /\ (col < length product_index)%nat) ->
  (forall u u' row, dict_get user_index u = Some row ->
     dict_get user_index u' = Some row -> u = u') ->
  (forall q q' col, dict_get product_index q = Some col ->
     dict_get product_index q' = Some col -> q = q') ->
  exists m,
    create_sparse_user_item_matrix purchase_history user_index product_index = Ok m
    /\ n_rows m = length user_index
    /\ n_cols m = length product_index
    /\ forall uid pid row col,
         dict_get user_index uid = Some row -> (row < length user_index)%nat ->
         dict_get product_index pid = Some col -> (col < length product_index)%nat ->
         cells m !! row ≫= (fun cells_row => cells_row !! col)
         = Some (Z.of_nat (length (filter (fun record => record = (uid, pid))
                                     (purchase_records purchase_history)))).
Proof.
  intros Hindexed Hui Hpi.
  set (coordinate := fun record : Z * Z =>
         (default 0%nat (dict_get user_index record.1),
          default 0%nat (dict_get product_index record.2))).
  assert (purchase_coordinates purchase_history user_index product_index
          = Ok (coordinate <$> purchase_records purchase_history)) as Hcoords.
  { unfold purchase_coordinates. apply mapM_Ok. intros [u q] Hrec.
    destruct (Hindexed u q Hrec) as (row & col & Hrow & _ & Hcol & _).
    subst coordinate. simpl. unfold dict_item. by rewrite Hrow, Hcol. }
  unfold create_sparse_user_item_matrix. rewrite Hcoords. simpl.
  unfold csr_matrix. rewrite decide_True.
  2: { apply Forall_forall. intros c Hc.
       apply list_elem_of_fmap in Hc as ([u q] & -> & Hrec).
       destruct (Hindexed u q Hrec) as (row & col & Hrow & ? & Hcol & ?).
       subst coordinate. simpl. by rewrite Hrow, Hcol. }
  eexists. split; [done|]. split; [done|]. split; [done|].
  intros uid pid row col Hrow Hrlt Hcol Hclt. simpl.
  rewrite list_lookup_fmap, lookup_seq_lt by done. simpl.
  rewrite list_lookup_fmap, lookup_seq_lt by done. simpl.
  f_equal. f_equal. rewrite filter_fmap_length.
  apply filter_length_ext. intros [u q] Hrec.
  destruct (Hindexed u q Hrec) as (row' & col' & Hrow' & _ & Hcol' & _).
  subst coordinate. simpl. rewrite Hrow', Hcol'. simpl. split.
  - intros [= -> ->]. f_equal; [by eapply Hui | by eapply Hpi].
  - intros [= -> ->]. congruence.
Qed.

Lemma create_sparse_user_item_matrix_counts_witness :
  exists m,
    create_sparse_user_item_matrix Sample.purchase_history
      (build_index Sample.users Sample.products).1
      (build_index Sample.users Sample.products).2 = Ok m
    /\ cells m = [[1; 0; 0; 0; 0]; [0; 0; 0; 0; 1]; [0; 0; 1; 0; 0];
                  [1; 0; 0; 0; 0]; [0; 0; 0; 0; 0]]%Z.
Proof.
  destruct (create_sparse_user_item_matrix_counts Sample.purchase_history
              (build_index Sample.users Sample.products).1
              (build_index Sample.users Sample.products).2)
    as (m & Hm & _).
  - intros uid pid Hrec. vm_compute in Hrec.
    repeat (apply elem_of_cons in Hrec as [[= -> ->]|Hrec]);
      [eexists _, _; split; [reflexivity|]; split; [vm_compute; lia|];
       split; [reflexivity | vm_compute; lia] .. |].
    by apply elem_of_nil in Hrec.
  - intros u u' row Hu Hu'.
    destruct (enumerate_keys (dict_keys Sample.users)) as [_ Hpos];
      [apply (bool_decide_unpack _); by_computation|].
    apply Hpos in Hu, Hu'. congruence.
  - intros q q' col Hq Hq'.
    destruct (enumerate_keys (dict_keys Sample.products)) as [_ Hpos];
      [apply (bool_decide_unpack _); by_computation|].
    apply Hpos in Hq, Hq'. congruence.
  - exists m. split; [exact Hm|]. vm_compute in Hm. by injection Hm as <-.
Defined.

(** ** Factorization *)

Lemma zeros_shape rows cols :
  length (zeros rows cols) = rows
  /\ Forall (fun row => row = replicate cols 0%Q) (zeros rows cols).
Proof.
  unfold zeros. split; [apply length_replicate|].
  apply Forall_forall. intros row Hrow. by apply elem_of_replicate in Hrow as [-> _].
Qed.

(** X6.  [perform_svd] raises, and then [ValueError], exactly when the
    requested rank is not positive or the matrix has fewer than two rows or
    two columns.  In every other case it returns: the factors of the
    numerical routine called with the rank [min(k, min(rows, cols) - 1)],
    or, should that routine raise, all-zero factors with one row per user,
    one row per product and that many columns. *)
Theorem perform_svd_outcome (svds : matrix -> nat -> result factors)
    (user_item_matrix : matrix) (k : Z) :
  let rows := n_rows user_item_matrix in
  let cols := n_cols user_item_matrix in
  let rank := Z.to_nat (Z.min k (Z.min (Z.of_nat rows) (Z.of_nat cols) - 1)) in
  (perform_svd svds user_item_matrix k = Raise ValueError
   <-> (k <= 0)%Z \/ (rows <= 1)%nat \/ (cols <= 1)%nat)
  /\ (forall e, perform_svd svds user_item_matrix k = Raise e -> e = ValueError)
  /\ (forall computed, svds user_item_matrix rank = Ok computed ->
        (0 < k)%Z -> (1 < rows)%nat -> (1 < cols)%nat ->
        perform_svd svds user_item_matrix k = Ok computed)
  /\ (forall e, svds user_item_matrix rank = Raise e ->
        (0 < k)%Z -> (1 < rows)%nat -> (1 < cols)%nat ->
        perform_svd svds user_item_matrix k = Ok (zeros rows rank, zeros cols rank)
        /\ (1 <= rank < Nat.min rows cols)%nat).
Proof.
  intros rows cols rank. unfold perform_svd. fold rows cols. fold rank.
  destruct (decide (Z.min k (Z.min (Z.of_nat rows) (Z.of_nat cols) - 1) <= 0)%Z)
    as [Hle|Hgt].
  - split; [split; [lia | done]|]. split; [by intros e [= <-]|].
    split; intros; lia.
  - split.
    { split; [|lia]. by destruct (svds user_item_matrix rank). }
    split; [by destruct (svds user_item_matrix rank)|].
    split.
    + intros computed -> _ _ _. done.
    + intros e -> _ _ _. split; [done|]. subst rank. lia.
Qed.

Lemma perform_svd_outcome_witness :
  perform_svd (fun _ _ => Raise ValueError)
    {| n_rows := 5; n_cols := 5; cells := replicate 5 (replicate 5 0%Z) |} 2
  = Ok (zeros 5 2, zeros 5 2).
Proof.
  destruct (perform_svd_outcome (fun _ _ => Raise ValueError)
              {| n_rows := 5; n_cols := 5; cells := replicate 5 (replicate 5 0%Z) |} 2)
    as (_ & _ & _ & Hzeros).
  apply (Hzeros ValueError); simpl; [reflexivity | lia | lia | lia].
Defined.

(** ** Cached computations *)

Lemma cache_connect_slots {A} (c : cache A) : slots (cache_connect c).2 = slots c.
Proof. unfold cache_connect. by destruct (faults c). Qed.

Lemma cached_call_vacant {A} key ttl (compute : result A) (c : cache A) :
  vacant key c ->
  (cached_call key ttl compute c).1 = compute.
Proof.
  unfold vacant, cached_call, cache_get, cache_setex. intros Hvacant.
  destruct (cache_connect c) as [down c1] eqn:Hc1.
  assert (slots c1 = slots c) as Hslots.
  { rewrite <- (cache_connect_slots c). by rewrite Hc1. }
  destruct down; simpl; [done|].
  rewrite Hslots.
  destruct (slots c !! key) as [[t [a|[|ch raw]]]|]; simpl; try done.
  all: destruct compute as [a|e]; simpl;
    [destruct (cache_connect c1) as [[] c2]; simpl; done
    | by destruct (decide (e = RedisError))].
Qed.

(** X7.  When the store holds nothing usable under the product's key (no
    entry, or an empty payload), [get_product_feature_vector] gives exactly
    what [create_product_feature_vector] gives, a vector or [ValueError],
    whether the store answers or fails on the read or on the write: an
    error of the store never reaches the caller. *)
Theorem get_product_feature_vector_survives_outages
    (product_id : Z) (p : product) (all_tags all_categories : list string)
    (c : cache (list Q)) :
  vacant ("product_feature:" +:+ pretty product_id) c ->
  (get_product_feature_vector product_id p all_tags all_categories c).1
  = create_product_feature_vector p all_tags all_categories.
Proof. apply cached_call_vacant. Qed.

Lemma get_product_feature_vector_survives_outages_witness :
  (get_product_feature_vector 101
     {| product_name := "Wireless Earbuds"; category := "Electronics";
        tags := ["audio"; "wireless"; "Bluetooth"]; rating := 45 # 10;
        device_suitability := ["mobile"; "tablet"] |}
     Duo.all_tags Duo.all_categories
     {| slots := ∅; faults := [false; true] |}).1
  = create_product_feature_vector
      {| product_name := "Wireless Earbuds"; category := "Electronics";
         tags := ["audio"; "wireless"; "Bluetooth"]; rating := 45 # 10;
         device_suitability := ["mobile"; "tablet"] |}
      Duo.all_tags Duo.all_categories.
Proof.
  apply get_product_feature_vector_survives_outages. by_computation.
Defined.

Lemma cached_call_stores {A} key ttl (compute : result A) (a : A) (c : cache A) :
  faults c = [] -> vacant key c -> compute = Ok a ->
  cached_call key ttl compute c
  = (Ok a, {| slots := <[key := (ttl, Encoded a)]> (slots c); faults := [] |}).
Proof.
  unfold vacant, cached_call, cache_get, cache_setex, cache_connect.
  intros Hfaults Hvacant ->. rewrite Hfaults. simpl.
  destruct (slots c !! key) as [[t [a'|[|ch raw]]]|]; simpl; try done.
  all: rewrite Hfaults; simpl; by rewrite Hfaults.
Qed.

Lemma cached_call_hit {A} key ttl (compute : result A) (a : A) (c : cache A) :
  faults c = [] -> cached_value key c = Some a ->
  cached_call key ttl compute c = (Ok a, c).
Proof.
  unfold cached_value, cached_call, cache_get, cache_connect.
  intros Hfaults Hvalue. rewrite Hfaults. simpl.
  destruct (slots c !! key) as [[t [a'|raw]]|]; simpl; try done.
  injection Hvalue as ->. by destruct c; simpl in *; subst.
Qed.

(** X8.  The factors are cached under a key made of the matrix's two
    dimensions only.  On a store that answers, once a call has computed
    and stored factors, every later call for a matrix of the same shape
    returns those stored factors, whatever the matrix's entries, the
    requested rank and the numerical routine, and computes nothing. *)
Theorem get_svd_factors_shared_by_shape
    (svds svds' : matrix -> nat -> result factors) (m m' : matrix) (k k' : Z)
    (computed : factors) (c : cache factors) :
  faults c = [] ->
  vacant ("svd_factors:" +:+ pretty (n_rows m) +:+ ":" +:+ pretty (n_cols m)) c ->
  perform_svd svds m k = Ok computed ->
  n_rows m' = n_rows m -> n_cols m' = n_cols m ->
  (get_svd_factors svds m k c).1 = Ok computed
  /\ get_svd_factors svds' m' k' (get_svd_factors svds m k c).2
     = (Ok computed, (get_svd_factors svds m k c).2).
Proof.
  intros Hfaults Hvacant Hcompute Hrows Hcols. unfold get_svd_factors.
  rewrite Hrows, Hcols.
  rewrite (cached_call_stores _ _ _ computed) by done. simpl. split; [done|].
  apply cached_call_hit; [done|]. unfold cached_value. simpl.
  by rewrite lookup_insert_eq.
Qed.

Lemma get_svd_factors_shared_by_shape_witness :
  let first := {| n_rows := 2; n_cols := 2; cells := [[1; 0]; [0; 1]]%Z |} in
  let second := {| n_rows := 2; n_cols := 2; cells := [[0; 1]; [1; 1]]%Z |} in
  let stored :=
    (get_svd_factors (fun _ _ => Raise ValueError) first 2
       {| slots := ∅; faults := [] |}).2 in
  get_svd_factors (fun _ _ => Ok ([[1]; [2]]%Q, [[3]; [4]]%Q)) second 1 stored
  = (Ok (zeros 2 1, zeros 2 1), stored).
Proof.
  cbv zeta.
  apply (get_svd_factors_shared_by_shape (fun _ _ => Raise ValueError)
           (fun _ _ => Ok ([[1]; [2]]%Q, [[3]; [4]]%Q))
           {| n_rows := 2; n_cols := 2; cells := [[1; 0]; [0; 1]]%Z |}
           {| n_rows := 2; n_cols := 2; cells := [[0; 1]; [1; 1]]%Z |}
           2 1 (zeros 2 1, zeros 2 1) {| slots := ∅; faults := [] |});
    by_computation.
Defined.

(** X9.  The vector of a product is cached under the product id alone.  On
    a store that answers, once a call has computed and stored a vector,
    every later call for that id returns the stored vector, whatever
    product record and vocabularies it is given. *)
Theorem get_product_feature_vector_cached_by_id
    (product_id : Z) (p p' : product)
    (all_tags all_categories all_tags' all_categories' : list string)
    (v : list Q) (c : cache (list Q)) :
  faults c = [] ->
  vacant ("product_feature:" +:+ pretty product_id) c ->
  create_product_feature_vector p all_tags all_categories = Ok v ->
  (get_product_feature_vector product_id p all_tags all_categories c).1 = Ok v
  /\ get_product_feature_vector product_id p' all_tags' all_categories'
       (get_product_feature_vector product_id p all_tags all_categories c).2
     = (Ok v, (get_product_feature_vector product_id p all_tags all_categories c).2).
Proof.
  intros Hfaults Hvacant Hcompute. unfold get_product_feature_vector.
  rewrite (cached_call_stores _ _ _ v) by done. simpl. split; [done|].
  apply cached_call_hit; [done|]. unfold cached_value. simpl.
  by rewrite lookup_insert_eq.
Qed.

Lemma get_product_feature_vector_cached_by_id_witness :
  let earbuds :=
    {| product_name := "Wireless Earbuds"; category := "Electronics";
       tags := ["audio"; "wireless"; "Bluetooth"]; rating := 45 # 10;
       device_suitability := ["mobile"; "tablet"] |} in
  let renamed :=
    {| product_name := "Wireless Earbuds"; category := "Accessories";
       tags := ["case"]; rating := 45 # 10;
       device_suitability := ["mobile"] |} in
  let stored :=
    (get_product_feature_vector 101 earbuds Duo.all_tags Duo.all_categories
       {| slots := ∅; faults := [] |}).2 in
  get_product_feature_vector 101 renamed Duo.all_tags Duo.all_categories stored
  = (Ok Duo.vector_101, stored).
Proof.
  cbv zeta.
  apply (get_product_feature_vector_cached_by_id 101%Z
           {| product_name := "Wireless Earbuds"; category := "Electronics";
              tags := ["audio"; "wireless"; "Bluetooth"]; rating := 45 # 10;
              device_suitability := ["mobile"; "tablet"] |}
           {| product_name := "Wireless Earbuds"; category := "Accessories";
              tags := ["case"]; rating := 45 # 10;
              device_suitability := ["mobile"] |}
           Duo.all_tags Duo.all_categories Duo.all_tags Duo.all_categories
           Duo.vector_101 {| slots := ∅; faults := [] |});
    by_computation.
Defined.

(** X10.  A stored payload that is not empty and that [json.loads] rejects
    makes [get_product_feature_vector] raise the decoding error (a
    [ValueError]): only errors of the store are caught there, and the
    vector is not recomputed. *)
Theorem get_product_feature_vector_unreadable
    (product_id : Z) (p : product) (all_tags all_categories : list string)
    (c : cache (list Q)) (ttl : nat) (ch : ascii) (raw : string) :
  faults c = [] ->
  slots c !! ("product_feature:" +:+ pretty product_id)
  = Some (ttl, Unreadable (String ch raw)) ->
  get_product_feature_vector product_id p all_tags all_categories c
  = (Raise ValueError, c).
Proof.
  intros Hfaults Hslot.
  unfold get_product_feature_vector, cached_call, cache_get, cache_connect.
  rewrite Hfaults. simpl. rewrite Hslot. simpl. done.
Qed.

Lemma get_product_feature_vector_unreadable_witness :
  get_product_feature_vector 101
    {| product_name := "Wireless Earbuds"; category := "Electronics";
       tags := ["audio"; "wireless"; "Bluetooth"]; rating := 45 # 10;
       device_suitability := ["mobile"; "tablet"] |}
    Duo.all_tags Duo.all_categories
    {| slots := {[ "product_feature:101" := (60%nat, Unreadable "[1.0, ") ]};
       faults := [] |}
  = (Raise ValueError,
     {| slots := {[ "product_feature:101" := (60%nat, Unreadable "[1.0, ") ]};
        faults := [] |}).
Proof.
  apply (get_product_feature_vector_unreadable 101%Z
           {| product_name := "Wireless Earbuds"; category := "Electronics";
              tags := ["audio"; "wireless"; "Bluetooth"]; rating := 45 # 10;
              device_suitability := ["mobile"; "tablet"] |}
           Duo.all_tags Duo.all_categories
           {| slots := {[ "product_feature:101" := (60%nat, Unreadable "[1.0, ") ]};
              faults := [] |}
           60%nat "["%char "1.0, ").
  - reflexivity.
  - by_computation.
Defined.

(** ** User profiles *)

Lemma interacted_products_unknown user_id browsing_history purchase_history :
  dict_get browsing_history user_id = None ->
  dict_get purchase_history user_id = None ->
  interacted_products user_id browsing_history purchase_history = ∅.
Proof.
  intros Hb Hp. unfold interacted_products. rewrite Hb, Hp. set_solver.
Qed.

Lemma iter_empty (iter_set : gset Z -> list Z) :
  (forall s, iter_set s ≡ₚ elements s) -> iter_set ∅ = [].
Proof.
  intros Horder. apply Permutation_nil_r. rewrite Horder. by rewrite elements_empty.
Qed.

(** X11.  For a user id absent from both histories, and a non-empty map of
    product vectors, [create_user_profile] does not fail: it returns the
    zero vector of the length of the first product vector. *)
Theorem create_user_profile_unknown_user
    (iter_set : gset Z -> list Z) (user_id : Z)
    (browsing_history : dict Z (list browse))
    (purchase_history : dict Z (list purchase))
    (first_id : Z) (first : list Q) (others : dict Z (list Q)) :
  (forall s, iter_set s ≡ₚ elements s) ->
  dict_get browsing_history user_id = None ->
  dict_get purchase_history user_id = None ->
  create_user_profile iter_set user_id browsing_history purchase_history
    ((first_id, first) :: others)
  = inr (replicate (length first) 0%Q).
Proof.
  intros Horder Hb Hp. unfold create_user_profile.
  rewrite interacted_products_unknown by done.
  rewrite iter_empty by done. cbn [add_vectors].
  destruct (decide (0 < size (∅ : gset Z))%nat) as [Hsize|_]; [|done].
  rewrite size_empty in Hsize. lia.
Qed.

Lemma create_user_profile_unknown_user_witness :
  create_user_profile elements 5 Sample.browsing_history Sample.purchase_history
    Duo.product_feature_vectors
  = inr [0; 0; 0; 0; 0; 0; 0; 0]%Q.
Proof.
  apply (create_user_profile_unknown_user elements 5%Z Sample.browsing_history
           Sample.purchase_history 101%Z Duo.vector_101 [(102%Z, Duo.vector_102)]);
    first [done | reflexivity].
Defined.

Lemma zip_with_plus_bounds (bound : Q) (acc v : list Q) :
  length v = length acc ->
  Forall (fun x => 0 <= x /\ x <= bound)%Q acc ->
  Forall unit_interval v ->
  Forall (fun x => 0 <= x /\ x <= bound + 1)%Q (zip_with Qplus acc v).
Proof.
  revert v. induction acc as [|a acc IH]; intros [|x v] Hlen Hacc Hv;
    simpl in *; try done.
  apply Forall_cons in Hacc as [[Ha0 Hab] Hacc].
  apply Forall_cons in Hv as [[Hx0 Hx1] Hv].
  constructor; [split; lra|]. apply IH; [lia | done | done].
Qed.

Lemma add_vectors_bounds product_feature_vectors ids acc (L : nat) (bound : Q) :
  Forall (fun x => length x.2 = L /\ Forall unit_interval x.2) product_feature_vectors ->
  (forall pid, pid ∈ ids -> is_Some (dict_get product_feature_vectors pid)) ->
  length acc = L ->
  Forall (fun x => 0 <= x /\ x <= bound)%Q acc ->
  exists total,
    add_vectors product_feature_vectors ids acc = Ok total
    /\ length total = L
    /\ Forall (fun x => 0 <= x /\ x <= bound + inject_Z (Z.of_nat (length ids)))%Q total.
Proof.
  intros Hshape. revert acc bound.
  induction ids as [|pid ids IH]; intros acc bound Hknown Hlen Hacc.
  - exists acc. split; [done|]. split; [done|].
    eapply Forall_impl; [exact Hacc|]. simpl. intros x [? ?]. split; [done|].
    change (inject_Z (Z.of_nat 0)) with 0%Q. lra.
  - destruct (Hknown pid) as [v Hv]; [apply elem_of_cons; by left|].
    cbn [add_vectors]. unfold dict_item. rewrite Hv. simpl.
    apply dict_get_Some_elem in Hv.
    apply (proj1 (Forall_forall _ _) Hshape) in Hv as [HvL Hv01]. simpl in HvL, Hv01.
    unfold iadd. rewrite decide_True by congruence. simpl.
    destruct (IH (zip_with Qplus acc v) (bound + 1)%Q) as (total & -> & HtL & Ht).
    + intros q Hq. apply Hknown, elem_of_cons. by right.
    + rewrite length_zip_with. lia.
    + apply zip_with_plus_bounds; [congruence | done | done].
    + exists total. split; [done|]. split; [done|].
      eapply Forall_impl; [exact Ht|]. simpl. intros x [? Hx]. split; [done|].
      rewrite Nat2Z.inj_succ, <- Z.add_1_l, inject_Z_plus.
      change (inject_Z 1) with 1%Q. lra.
Qed.

(** X12.  When the product vectors all have one length and entries between
    0 and 1, and each product the user browsed or purchased has a vector,
    [create_user_profile] returns a profile of that same length whose
    entries lie between 0 and 1, in whatever order the set of products is
    traversed. *)
Theorem create_user_profile_mean_in_unit_interval
    (iter_set : gset Z -> list Z) (user_id : Z)
    (browsing_history : dict Z (list browse))
    (purchase_history : dict Z (list purchase))
    (product_feature_vectors : dict Z (list Q)) (L : nat) :
  (forall s, iter_set s ≡ₚ elements s) ->
  product_feature_vectors <> [] ->
  Forall (fun x => length x.2 = L /\ Forall unit_interval x.2) product_feature_vectors ->
  (forall pid, pid ∈ interacted_products user_id browsing_history purchase_history ->
     is_Some (dict_get product_feature_vectors pid)) ->
  exists profile,
    create_user_profile iter_set user_id browsing_history purchase_history
      product_feature_vectors = inr profile
    /\ length profile = L
    /\ Forall unit_interval profile.
Proof.
  intros Horder Hsome Hshape Hknown. unfold create_user_profile.
  destruct product_feature_vectors as [|[first_id first] others] eqn:Hpfv; [done|].
  rewrite <- Hpfv in *.
  set (interacted := interacted_products user_id browsing_history purchase_history) in *.
  assert (length first = L) as HL.
  { rewrite Hpfv in Hshape. by apply Forall_cons in Hshape as [[? _] _]. }
  destruct (add_vectors_bounds product_feature_vectors (iter_set interacted)
              (replicate (length first) 0%Q) L 0 Hshape)
    as (total & -> & HtL & Ht).
  { intros pid Hpid. apply Hknown. by rewrite Horder, elem_of_elements in Hpid. }
  { by rewrite length_replicate. }
  { apply Forall_forall. intros x Hx. apply elem_of_replicate in Hx as [-> _].
    split; apply Qle_refl. }
  assert (length (iter_set interacted) = size interacted) as Hsize.
  { by rewrite Horder. }
  rewrite Hsize in Ht.
  destruct (decide (0 < size interacted)%nat) as [Hpos|Hzero].
  - eexists. split; [done|]. split; [by rewrite length_fmap|].
    apply Forall_fmap. eapply Forall_impl; [exact Ht|]. simpl.
    intros x [Hx0 Hxn].
    assert (0 < inject_Z (Z.of_nat (size interacted)))%Q as Hn.
    { change 0%Q with (inject_Z 0). rewrite <- Zlt_Qlt. lia. }
    split.
    + apply Qle_shift_div_l; [done|]. by rewrite Qmult_0_l.
    + apply Qle_shift_div_r; [done|]. rewrite Qmult_1_l. lra.
  - exists total. split; [done|]. split; [done|].
    eapply Forall_impl; [exact Ht|]. simpl. intros x [Hx0 Hxn]. split; [done|].
    replace (size interacted) with 0%nat in Hxn by lia.
    change (inject_Z (Z.of_nat 0)) with 0%Q in Hxn. lra.
Qed.

Lemma create_user_profile_mean_in_unit_interval_witness :
  exists profile,
    create_user_profile elements 1 Duo.browsing_history Duo.purchase_history
      Duo.product_feature_vectors = inr profile
    /\ length profile = 8%nat
    /\ Forall unit_interval profile.
Proof.
  apply (create_user_profile_mean_in_unit_interval elements 1%Z
           Duo.browsing_history Duo.purchase_history Duo.product_feature_vectors 8).
  - done.
  - done.
  - repeat constructor; by_computation.
  - intros pid Hpid. apply elem_of_elements in Hpid.
    assert (elements (interacted_products 1 Duo.browsing_history
                        Duo.purchase_history) = [101%Z]) as Hall by by_computation.
    rewrite Hall in Hpid. apply list_elem_of_singleton in Hpid as ->. by eexists.
Defined.

Lemma add_vectors_missing product_feature_vectors ids acc (L : nat) pid :
  Forall (fun x => length x.2 = L) product_feature_vectors ->
  length acc = L ->
  pid ∈ ids -> dict_get product_feature_vectors pid = None ->
  add_vectors product_feature_vectors ids acc = Raise KeyError.
Proof.
  intros Hshape. revert acc. induction ids as [|q ids IH]; intros acc Hlen Hin Hnone.
  - by apply elem_of_nil in Hin.
  - cbn [add_vectors]. unfold dict_item.
    destruct (dict_get product_feature_vectors q) as [v|] eqn:Hv; [|done]. simpl.
    assert (pid ∈ ids) as Hrest.
    { apply elem_of_cons in Hin as [->|?]; [congruence | done]. }
    apply dict_get_Some_elem in Hv.
    apply (proj1 (Forall_forall _ _) Hshape) in Hv. simpl in Hv.
    unfold iadd. rewrite decide_True by congruence. simpl.
    apply IH; [|done|done].
    rewrite length_zip_with. lia.
Qed.

(** X13.  When the product vectors all have one length and the user has
    browsed or purchased a product that has no vector,
    [create_user_profile] raises [KeyError], in whatever order the set of
    products is traversed. *)
Theorem create_user_profile_missing_vector
    (iter_set : gset Z -> list Z) (user_id : Z)
    (browsing_history : dict Z (list browse))
    (purchase_history : dict Z (list purchase))
    (first_id : Z) (first : list Q) (others : dict Z (list Q)) (pid : Z) :
  (forall s, iter_set s ≡ₚ elements s) ->
  Forall (fun x => length x.2 = length first) others ->
  pid ∈ interacted_products user_id browsing_history purchase_history ->
  dict_get ((first_id, first) :: others) pid = None ->
  create_user_profile iter_set user_id browsing_history purchase_history
    ((first_id, first) :: others)
  = inl (Builtin KeyError).
Proof.
  intros Horder Hshape Hpid Hnone. unfold create_user_profile.
  rewrite (add_vectors_missing _ _ _ (length first) pid); [done| | | |done].
  - by constructor.
  - by rewrite length_replicate.
  - by rewrite Horder, elem_of_elements.
Qed.

Lemma create_user_profile_missing_vector_witness :
  create_user_profile elements 3 Sample.browsing_history Sample.purchase_history
    Duo.product_feature_vectors
  = inl (Builtin KeyError).
Proof.
  apply (create_user_profile_missing_vector elements 3%Z Sample.browsing_history
           Sample.purchase_history 101%Z Duo.vector_101 [(102%Z, Duo.vector_102)]
           103%Z).
  - done.
  - repeat constructor.
  - apply elem_of_elements.
    assert (elements (interacted_products 3 Sample.browsing_history
                        Sample.purchase_history) = [103; 104]%Z) as ->
      by by_computation.
    in_list.
  - reflexivity.
Defined.

(** ** Signal recommenders, one by one *)

(** X14.  [recommend_products_time_based] returns exactly the products
    whose category has a contextual signal that peaks on the current day
    and whose season is one of the active ones; it lists them in catalog
    order, all of them (there is no truncation), and it returns nothing
    when no season is active. *)
Theorem recommend_products_time_based_exact (rt : runtime)
    (season_input : list string) (products : dict Z product)
    (contextual_signals : dict string signals) :
  (forall pid,
     pid ∈ recommend_products_time_based rt season_input products contextual_signals
     <-> exists p s,
           (pid, p) ∈ products /\ (category p, s) ∈ contextual_signals
           /\ current_day rt ∈ peak_days s /\ season s ∈ season_input)
  /\ recommend_products_time_based rt season_input products contextual_signals
     `sublist_of` dict_keys products
  /\ (season_input = [] ->
      recommend_products_time_based rt season_input products contextual_signals = []).
Proof.
  assert (forall pid,
     pid ∈ recommend_products_time_based rt season_input products contextual_signals
     <-> exists p s,
           (pid, p) ∈ products /\ (category p, s) ∈ contextual_signals
           /\ current_day rt ∈ peak_days s /\ season s ∈ season_input) as Hexact.
  { intros pid. unfold recommend_products_time_based. cbv zeta.
    rewrite list_elem_of_fmap. split.
    - intros ([pid' p] & -> & Hx). apply list_elem_of_filter in Hx as [Hcat Hp].
      simpl in Hcat. apply elem_of_list_to_set, list_elem_of_fmap in Hcat
        as ([c s] & Hc & Hs).
      apply list_elem_of_filter in Hs as [[Hday Hseason] Hs]. simpl in *. subst c.
      by exists p, s.
    - intros (p & s & Hp & Hs & Hday & Hseason). exists (pid, p). split; [done|].
      apply list_elem_of_filter. split; [|done]. simpl.
      apply elem_of_list_to_set, list_elem_of_fmap. exists (category p, s).
      split; [done|]. apply list_elem_of_filter. by split. }
  split; [exact Hexact|]. split.
  - unfold recommend_products_time_based, dict_keys. cbv zeta.
    apply fmap_sublist, sublist_filter.
  - intros ->. apply elem_of_nil_inv. intros pid Hin.
    apply Hexact in Hin as (p & s & _ & _ & _ & Hseason).
    by apply elem_of_nil in Hseason.
Qed.

(** X15.  Every product that [recommend_products_device_based] returns is a
    catalog product suitable for the device of the (registered) user and
    not among the user's purchases; the list follows the catalog order and
    has at most [top_n] entries. *)
Theorem recommend_products_device_based_sound
    (user_id : Z) (users : dict Z user) (products : dict Z product)
    (purchase_history : dict Z (list purchase)) (top_n : nat) :
  (forall pid,
     pid ∈ recommend_products_device_based user_id users products
             purchase_history top_n ->
     exists u p,
       dict_get users user_id = Some u /\ (pid, p) ∈ products
       /\ device u ∈ device_suitability p
       /\ pid ∉ purchased_products purchase_history user_id)
  /\ recommend_products_device_based user_id users products purchase_history top_n
     `sublist_of` dict_keys products
  /\ (length (recommend_products_device_based user_id users products
                purchase_history top_n) <= top_n)%nat.
Proof.
  split; [|split].
  - intros pid Hin.
    pose proof (recommend_products_device_based_not_purchased _ _ _ _ _ _ Hin)
      as Hnew.
    unfold recommend_products_device_based in Hin.
    destruct (dict_get users user_id) as [u|]; [|by apply elem_of_nil in Hin].
    assert (pid ∈ (filter (fun x : Z * product => device u ∈ device_suitability x.2)
                     products).*1) as Hsuit.
    { apply elem_of_take in Hin as (i & Hi%list_elem_of_lookup_2 & _).
      destruct (dict_get purchase_history user_id); [|done].
      by apply list_elem_of_filter in Hi as [_ ?]. }
    apply list_elem_of_fmap in Hsuit as ([pid' p] & -> & Hp).
    apply list_elem_of_filter in Hp as [Hdev Hp]. by exists u, p.
  - unfold recommend_products_device_based, dict_keys.
    destruct (dict_get users user_id) as [u|]; [|apply sublist_nil_l].
    etrans; [apply sublist_take|].
    destruct (dict_get purchase_history user_id).
    + etrans; [apply sublist_filter|]. apply fmap_sublist, sublist_filter.
    + apply fmap_sublist, sublist_filter.
  - apply recommend_products_device_based_length.
Qed.

Lemma lookup_all_positions {A} (d : A) (l : list A) :
  (fun i => default d (l !! i)) <$> seq 0 (length l) = l.
Proof.
  induction l as [|x l IH]; [done|].
  simpl. rewrite <- fmap_S_seq, <- list_fmap_compose. f_equal. exact IH.
Qed.

(** X16.  When the user is indexed, the factor matrices fit (a factor row
    for the user, one item row per indexed product, rows of one length)
    and [argsort] returns the positions of its argument in some order,
    [recommend_products_mf] does not fail: it returns the first [top_n]
    unpurchased products of an ordering of all indexed products, so with
    [top_n] at least the number of products, every unpurchased product
    exactly as often as it is indexed. *)
Theorem recommend_products_mf_ranks_all (rt : runtime)
    (user_id : Z) (user_factors item_factors : list (list Q))
    (user_index product_index : dict Z nat)
    (purchase_history : dict Z (list purchase)) (top_n : nat)
    (row : nat) (user_vector : list Q) :
  (forall scores, np_argsort rt scores ≡ₚ seq 0 (length scores)) ->
  dict_get user_index user_id = Some row ->
  user_factors !! row = Some user_vector ->
  Forall (fun item => length item = length user_vector) item_factors ->
  length item_factors = length product_index ->
  exists ranking,
    ranking ≡ₚ dict_keys product_index
    /\ recommend_products_mf rt user_id user_factors item_factors user_index
         product_index purchase_history top_n
       = Ok (take top_n
               (filter (fun pid => pid ∉ purchased_products purchase_history user_id)
                  ranking))
    /\ ((length product_index <= top_n)%nat ->
        take top_n
          (filter (fun pid => pid ∉ purchased_products purchase_history user_id)
             ranking)
        ≡ₚ filter (fun pid => pid ∉ purchased_products purchase_history user_id)
             (dict_keys product_index)).
Proof.
  intros Hargsort Hrow Hvector Hitems Hcount.
  set (scores := (fun item => dot item user_vector) <$> item_factors).
  set (indices := reverse (np_argsort rt scores)).
  set (keys := dict_keys product_index).
  assert (indices ≡ₚ seq 0 (length keys)) as Hindices.
  { subst indices. rewrite reverse_Permutation, Hargsort. subst scores keys.
    unfold dict_keys. by rewrite !length_fmap, Hcount. }
  set (ranking := (fun i => default 0%Z (keys !! i)) <$> indices).
  assert (ranking ≡ₚ keys) as Hranking.
  { subst ranking. rewrite Hindices. by rewrite lookup_all_positions. }
  exists ranking. split; [done|]. split.
  - unfold recommend_products_mf.
    assert (dict_mem user_index user_id = true) as ->.
    { apply dict_mem_true. by rewrite Hrow. }
    assert (matvec item_factors user_vector = Ok scores) as Hscores.
    { unfold matvec. apply mapM_Ok. intros item Hitem.
      apply (proj1 (Forall_forall _ _) Hitems) in Hitem. by rewrite decide_True. }
    assert (list_item user_factors row = Ok user_vector) as Huv.
    { unfold list_item. by rewrite Hvector. }
    cbn [negb]. unfold dict_item. rewrite Hrow. cbn [mbind result_bind].
    rewrite Huv. cbn [mbind result_bind]. rewrite Hscores. cbn [mbind result_bind].
    fold indices. fold keys.
    rewrite (mapM_Ok _ (fun i => default 0%Z (keys !! i))); [done|].
    intros i Hi. rewrite Hindices in Hi. apply elem_of_seq in Hi as [_ Hi].
    unfold list_item. destruct (keys !! i) eqn:E; [done|].
    apply lookup_ge_None in E. simpl in Hi. lia.
  - intros Hall. rewrite take_ge.
    + by rewrite Hranking.
    + etrans; [apply length_filter|]. rewrite Hranking. subst keys.
      unfold dict_keys. by rewrite length_fmap.
Qed.

Lemma recommend_products_mf_ranks_all_witness :
  exists ranking,
    ranking ≡ₚ [101; 102]%Z
    /\ recommend_products_mf (Duo.friday [0; 1]%nat) 1 Duo.user_factors
         Duo.item_factors Duo.user_index Duo.product_index Duo.purchase_history 2
       = Ok (take 2
               (filter (fun pid => pid ∉ purchased_products Duo.purchase_history 1)
                  ranking)).
Proof.
  destruct (recommend_products_mf_ranks_all (Duo.friday [0; 1]%nat) 1%Z
              Duo.user_factors Duo.item_factors Duo.user_index Duo.product_index
              Duo.purchase_history 2 0 [0%Q]) as (ranking & Hperm & Hmf & _).
  - intros scores. done.
  - reflexivity.
  - reflexivity.
  - repeat constructor.
  - reflexivity.
  - exists ranking. split; [exact Hperm | exact Hmf].
Defined.

(** ** The hybrid engine and its cache *)

Lemma cache_recommendations_written user_id season_input recs ttl r1 x r2 :
  cache_recommendations user_id season_input recs ttl r1 = (Ok x, r2) ->
  entries r2
  = <["recommendations:" +:+ pretty user_id +:+ ":" +:+ String.concat "," season_input
      := (ttl, Json recs)]> (entries r1).
Proof.
  unfold cache_recommendations, redis_setex, redis_connect.
  destruct (outages r1) as [|[] rest]; simpl; intros [= _ <-]; done.
Qed.

Lemma cache_recommendations_failed user_id season_input recs ttl r1 e r2 :
  cache_recommendations user_id season_input recs ttl r1 = (Raise e, r2) ->
  entries r2 = entries r1.
Proof.
  unfold cache_recommendations, redis_setex, redis_connect.
  destruct (outages r1) as [|[] rest]; simpl; intros [= _ <-]; done.
Qed.

Lemma redis_connect_reached r r1 :
  redis_connect r = (false, r1) -> entries r1 = entries r.
Proof. intros E. rewrite <- (redis_connect_entries r). by rewrite E. Qed.

Lemma get_cached_recommendations_found user_id season_input r r1 :
  redis_connect r = (false, r1) ->
  get_cached_recommendations user_id season_input r
  = (Ok match snd <$> entries r !! ("recommendations:" +:+ pretty user_id +:+ ":"
                                      +:+ String.concat "," season_input) with
        | Some (Json recs) => Some recs
        | _ => None
        end, r1).
Proof.
  intros E. unfold get_cached_recommendations, redis_get. rewrite E.
  rewrite (redis_connect_reached r r1 E).
  by destruct (snd <$> entries r !! _) as [[recs|raw]|].
Qed.


Lemma add_signal_from_sources weight src len i recs (t : tally) pid :
  default [] (dict_get (add_signal_from weight src len i recs t).2 pid)
  = default [] (dict_get t.2 pid)
    ++ ((fun _ => src) <$> filter (fun x => x = pid) recs).
Proof.
  revert i t. induction recs as [|p recs IH]; intros i t.
  - by rewrite app_nil_r.
  - cbn [add_signal_from]. rewrite IH. cbn [snd].
    rewrite dict_get_dd_update, filter_cons.
    destruct (decide (p = pid)) as [->|Hne]; simpl; [|done].
    by rewrite <- app_assoc.
Qed.


Lemma fuse_signals_sources w l1 l2 l3 l4 l5 pid :
  default [] (dict_get (fuse_signals w l1 l2 l3 l4 l5).2 pid)
  = contributing [(mf, l1); (cbf, l2); (popular, l3); (time_based, l4);
                  (device_based, l5)] pid.
Proof.
  destruct w as [[[[w1 w2] w3] w4] w5].
  unfold fuse_signals, add_signal, contributing.
  rewrite !add_signal_from_sources. simpl. by rewrite app_nil_r, <- !app_assoc.
Qed.



Section HybridCache.
Variable rt : runtime.
Variables (user_id : Z) (season_input : list string).
Variables (users : dict Z user) (products : dict Z product).
Variable contextual_signals : dict string signals.
Variable browsing_history : dict Z (list browse).
Variable purchase_history : dict Z (list purchase).
Variable popular_products : list (Z * Q).
Variables user_factors item_factors : list (list Q).
Variables user_index product_index : dict Z nat.
Variables user_profiles product_feature_vectors : dict Z (list Q).
Variable top_n : nat.

Local Abbreviation hybrid :=
  (hybrid_outcome rt user_id season_input users products contextual_signals
     browsing_history purchase_history popular_products user_factors item_factors
     user_index product_index user_profiles product_feature_vectors top_n).
Local Abbreviation computed :=
  (computed_outcome rt user_id season_input users products contextual_signals
     browsing_history purchase_history popular_products user_factors item_factors
     user_index product_index user_profiles product_feature_vectors top_n).
Local Abbreviation fused :=
  (fused_outcome rt user_id season_input users products contextual_signals
     purchase_history top_n).
Local Abbreviation mf_signal :=
  (recommend_products_mf rt user_id user_factors item_factors user_index
     product_index purchase_history top_n).
Local Abbreviation cbf_signal :=
  (recommend_products_cbf rt user_id user_profiles product_feature_vectors
     purchase_history top_n).
Local Abbreviation popular_signal :=
  (recommend_popular_trending_products user_id popular_products purchase_history
     top_n).
Local Abbreviation time_signal :=
  (recommend_products_time_based rt season_input products contextual_signals).
Local Abbreviation device_signal :=
  (recommend_products_device_based user_id users products purchase_history top_n).
Local Abbreviation is_new_user :=
  (negb (dict_mem browsing_history user_id)
   && negb (dict_mem purchase_history user_id)).
Local Abbreviation cache_key :=
  ("recommendations:" +:+ pretty user_id +:+ ":" +:+ String.concat "," season_input).

(** What a fused result tells about the run that produced it. *)
Lemma hybrid_outcome_fused r top r' :
  hybrid r = (Ok (Fused top), r') ->
  exists c r1 l1 l2,
    get_cached_recommendations user_id season_input r = (Ok c, r1)
    /\ mf_signal = Ok l1 /\ cbf_signal = Ok l2
    /\ ~ (l1 = [] /\ l2 = [] /\ time_signal = [] /\ device_signal = [])
    /\ top = top_recommendations
               (fuse_signals (signal_weights rt false) l1 l2 popular_signal
                  time_signal device_signal) top_n
    /\ cache_recommendations user_id season_input (explained top) default_ttl r1
       = (Ok tt, r').
Proof.
  intros Hrun.
  destruct (hybrid_outcome_computed _ _ _ _ _ _ _ _ _ _ _ _ _ _ _ _ r _ r' Hrun)
    as (c & r1 & Hget & Hc); [done|].
  destruct is_new_user eqn:Hnew.
  { rewrite computed_outcome_new in Hc by done. done. }
  rewrite computed_outcome_returning in Hc by done.
  destruct mf_signal as [l1|e] eqn:Hmf; [|done].
  destruct cbf_signal as [l2|e] eqn:Hcbf; [|done].
  destruct (decide (l1 = [] /\ l2 = [] /\ time_signal = [] /\ device_signal = []))
    as [(-> & -> & Ht & Hd)|Hsome].
  { rewrite fused_outcome_fallback in Hc by done. done. }
  rewrite fused_outcome_fusion in Hc by done. cbv zeta in Hc.
  destruct (cache_recommendations _ _ _ _ _) as [[[]|e] r2] eqn:Hwrite; [|done].
  injection Hc as <- <-.
  exists c, r1, l1, l2. done.
Qed.

Lemma fuse_signals_nonempty w l1 l2 l3 l4 l5 :
  ~ (l1 = [] /\ l2 = [] /\ l4 = [] /\ l5 = []) ->
  (fuse_signals w l1 l2 l3 l4 l5).1 <> [].
Proof.
  intros Hsome Hnil.
  assert (forall x, x ∉ l1 ++ l2 ++ l4 ++ l5) as Hnone.
  { intros x Hx. destruct w as [[[[w1 w2] w3] w4] w5].
    assert (x ∈ (fuse_signals (w1, w2, w3, w4, w5) l1 l2 l3 l4 l5).1.*1) as Hin.
    { apply fuse_signals_keys. rewrite !elem_of_app in Hx. tauto. }
    rewrite Hnil in Hin. by apply elem_of_nil in Hin. }
  apply Hsome.
  destruct l1 as [|x ?]; [|destruct (Hnone x); apply elem_of_cons; by left].
  destruct l2 as [|x ?]; [|destruct (Hnone x); apply elem_of_cons; by left].
  destruct l4 as [|x ?]; [|destruct (Hnone x); apply elem_of_cons; by left].
  destruct l5 as [|x ?]; [|destruct (Hnone x); apply elem_of_cons; by left].
  done.
Qed.

Lemma hybrid_outcome_fused_nonempty r top r' :
  hybrid r = (Ok (Fused top), r') -> (0 < top_n)%nat -> top <> [].
Proof.
  intros Hrun Hn.
  destruct (hybrid_outcome_fused r top r' Hrun)
    as (c & r1 & l1 & l2 & _ & _ & _ & Hsome & -> & _).
  pose proof (fuse_signals_nonempty (signal_weights rt false) l1 l2 popular_signal
                time_signal device_signal Hsome) as Ht.
  intros Hnil. apply (f_equal length) in Hnil.
  unfold top_recommendations in Hnil.
  rewrite length_fmap, length_take, (Permutation_length (sorted_desc_perm snd _))
    in Hnil.
  destruct (fuse_signals _ _ _ _ _ _).1; [done|]. simpl in Hnil. lia.
Qed.
Lemma computed_outcome_writes r1 :
  entries (computed r1).2 = entries r1
  \/ exists top,
       (computed r1).1 = Ok (Fused top)
       /\ entries (computed r1).2
          = <[cache_key := (default_ttl, Json (explained top))]> (entries r1).
Proof.
  destruct is_new_user eqn:Hnew.
  { rewrite computed_outcome_new by done. by left. }
  rewrite computed_outcome_returning by done.
  destruct mf_signal as [l1|e]; [|by left].
  destruct cbf_signal as [l2|e]; [|by left].
  destruct (decide (l1 = [] /\ l2 = [] /\ time_signal = [] /\ device_signal = []))
    as [(-> & -> & Ht & Hd)|Hsome].
  { rewrite fused_outcome_fallback by done. by left. }
  rewrite fused_outcome_fusion by done. cbv zeta.
  destruct (cache_recommendations _ _ _ _ _) as [[[]|e] r2] eqn:Hwrite.
  - right. eexists. split; [done|]. simpl.
    by apply cache_recommendations_written in Hwrite.
  - left. simpl. by apply cache_recommendations_failed in Hwrite.
Qed.

(** X17.  Once a call has returned a fused list (with [top_n] positive)
    and so stored it, the next call for the same user and season labels,
    when it reaches the store, returns that very list from the cache
    without computing anything: whatever data, weights, clock and [top_n]
    the second call is given play no part. *)
Theorem recommend_products_hybrid_serves_cached r top r' r''
    (rt' : runtime) (users' : dict Z user) (products' : dict Z product)
    (contextual_signals' : dict string signals)
    (browsing_history' : dict Z (list browse))
    (purchase_history' : dict Z (list purchase))
    (popular_products' : list (Z * Q))
    (user_factors' item_factors' : list (list Q))
    (user_index' product_index' : dict Z nat)
    (user_profiles' product_feature_vectors' : dict Z (list Q)) (top_n' : nat) :
  hybrid r = (Ok (Fused top), r') ->
  (0 < top_n)%nat ->
  redis_connect r' = (false, r'') ->
  hybrid_outcome rt' user_id season_input users' products' contextual_signals'
    browsing_history' purchase_history' popular_products' user_factors'
    item_factors' user_index' product_index' user_profiles'
    product_feature_vectors' top_n' r'
  = (Ok (FromCache (explained top)), r'').
Proof.
  intros Hrun Hn Hup.
  pose proof (hybrid_outcome_fused_nonempty r top r' Hrun Hn) as Hsome.
  destruct (hybrid_outcome_fused r top r' Hrun)
    as (c & r1 & l1 & l2 & _ & _ & _ & _ & _ & Hwrite).
  apply cache_recommendations_written in Hwrite.
  unfold hybrid_outcome.
  rewrite (get_cached_recommendations_found user_id season_input r' r'' Hup).
  rewrite Hwrite, lookup_insert_eq. simpl.
  destruct top as [|x top]; [done|]. done.
Qed.

(** X18.  A call changes the cache in one way at most: either the stored
    entries are the ones it found, or it returns a fused list and the
    entries differ by that list alone, stored under the key of this user
    and these season labels for one hour.  No other key is written, and
    no path deletes anything. *)
Theorem recommend_products_hybrid_writes_own_key r :
  entries (hybrid r).2 = entries r
  \/ exists top,
       (hybrid r).1 = Ok (Fused top)
       /\ entries (hybrid r).2
          = <[cache_key := (3600%nat, Json (explained top))]> (entries r).
Proof.
  unfold hybrid_outcome.
  destruct (get_cached_recommendations user_id season_input r)
    as [[[[|entry cached]|]|e] r1] eqn:Hget;
    apply get_cached_recommendations_entries in Hget; rewrite <- Hget;
    first [by left | apply computed_outcome_writes].
Qed.

(** X19.  A fused list names no product twice, and with [top_n] positive
    it is not empty. *)
Theorem fused_list_distinct_and_nonempty r top r' :
  hybrid r = (Ok (Fused top), r') ->
  NoDup (outcome_ids (Fused top))
  /\ ((0 < top_n)%nat -> returned (Fused top) <> []).
Proof.
  intros Hrun. split.
  2: { intros Hn Hnil. apply fmap_nil_inv in Hnil.
       by apply (hybrid_outcome_fused_nonempty r top r'). }
  destruct (hybrid_outcome_fused r top r' Hrun)
    as (c & r1 & l1 & l2 & _ & _ & _ & _ & -> & _).
  unfold outcome_ids. cbn [returned].
  rewrite explained_ids, top_recommendations_ids.
  destruct (signal_weights rt false) as [[[[w1 w2] w3] w4] w5].
  eapply sublist_NoDup; [|apply sublist_take].
  rewrite sorted_desc_perm. apply fuse_signals_NoDup.
Qed.

(** X20.  The explanation of a product in a fused list is the
    comma-separated sequence of the templates of the signals that named
    it, in the fixed order latent-factor, content, popularity, time-based,
    device-based, one template per mention. *)
Theorem fused_explanation_lists_contributing_signals r top r' :
  hybrid r = (Ok (Fused top), r') ->
  exists l1 l2,
    mf_signal = Ok l1 /\ cbf_signal = Ok l2 /\
    forall x, x ∈ top ->
      x.2 = String.concat ", "
              (explanation_template
                 <$> contributing
                       [(mf, l1); (cbf, l2); (popular, popular_signal);
                        (time_based, time_signal); (device_based, device_signal)]
                       x.1).
Proof.
  intros Hrun.
  destruct (hybrid_outcome_fused r top r' Hrun)
    as (c & r1 & l1 & l2 & _ & Hmf & Hcbf & _ & -> & _).
  exists l1, l2. split; [done|]. split; [done|].
  intros x Hx. unfold top_recommendations in Hx.
  apply list_elem_of_fmap in Hx as (y & -> & _). cbn beta zeta iota delta [fst snd].
  by rewrite fuse_signals_sources.
Qed.


(** X22.  When the store is reached and holds under the key of the
    request nothing, an empty list, or text that [json.loads] rejects, the
    call computes its answer as if the cache were not there. *)
Theorem recommend_products_hybrid_recomputes_unusable r r1 :
  redis_connect r = (false, r1) ->
  (snd <$> entries r !! cache_key = None
   \/ snd <$> entries r !! cache_key = Some (Json [])
   \/ exists raw, snd <$> entries r !! cache_key = Some (Garbled raw)) ->
  hybrid r = computed r1.
Proof.
  intros Hup Hstored. unfold hybrid_outcome.
  rewrite (get_cached_recommendations_found user_id season_input r r1 Hup).
  by destruct Hstored as [->|[->|(raw & ->)]].
Qed.
End HybridCache.

(** ** Runs of the engine on the two-product data set *)

Lemma recommend_products_hybrid_serves_cached_witness :
  hybrid_outcome (Duo.friday []) 1 ["Holiday"] [] [] [] [] [] [] [] [] [] [] [] [] 5
    DuoRun.alice_cache
  = (Ok (FromCache (explained DuoRun.alice_list)), DuoRun.alice_cache).
Proof.
  apply (recommend_products_hybrid_serves_cached (Duo.friday [0; 1]%nat) 1%Z
           ["Holiday"] Duo.users Duo.products Duo.contextual_signals
           Duo.browsing_history Duo.purchase_history Duo.popular_products
           Duo.user_factors Duo.item_factors Duo.user_index Duo.product_index
           Duo.user_profiles Duo.product_feature_vectors 2 Duo.empty_cache
           DuoRun.alice_list DuoRun.alice_cache DuoRun.alice_cache).
  - by_computation.
  - lia.
  - reflexivity.
Defined.

Lemma fused_list_distinct_and_nonempty_witness :
  NoDup (outcome_ids (Fused DuoRun.alice_list))
  /\ ((0 < 2)%nat -> returned (Fused DuoRun.alice_list) <> []).
Proof.
  apply (fused_list_distinct_and_nonempty (Duo.friday [0; 1]%nat) 1%Z
           ["Holiday"] Duo.users Duo.products Duo.contextual_signals
           Duo.browsing_history Duo.purchase_history Duo.popular_products
           Duo.user_factors Duo.item_factors Duo.user_index Duo.product_index
           Duo.user_profiles Duo.product_feature_vectors 2 Duo.empty_cache
           DuoRun.alice_list DuoRun.alice_cache).
  by_computation.
Defined.

Lemma fused_explanation_lists_contributing_signals_witness :
  String.concat ", " (explanation_template <$> [mf; cbf; popular; device_based])
  = String.concat ", "
      (explanation_template
         <$> contributing
               [(mf, [102%Z]); (cbf, [102%Z]); (popular, [102%Z]);
                (time_based, [101%Z]); (device_based, [102%Z])] 102).
Proof.
  destruct (fused_explanation_lists_contributing_signals (Duo.friday [0; 1]%nat)
              1%Z ["Holiday"] Duo.users Duo.products Duo.contextual_signals
              Duo.browsing_history Duo.purchase_history Duo.popular_products
              Duo.user_factors Duo.item_factors Duo.user_index Duo.product_index
              Duo.user_profiles Duo.product_feature_vectors 2 Duo.empty_cache
              DuoRun.alice_list DuoRun.alice_cache)
    as (l1 & l2 & Hmf & Hcbf & Hexplained).
  - by_computation.
  - injection Hmf as <-. injection Hcbf as <-.
    apply (Hexplained
             (102%Z, String.concat ", "
                       (explanation_template <$> [mf; cbf; popular; device_based]))).
    unfold DuoRun.alice_list. in_list.
Defined.


(** In that request product 30 is named by the popularity recommender
    (0.3) and product 50 by the time-based one (0.2) and, second of two, by
    the device-based one (0.1).  The exact sums are equal and product 30 is
    mentioned first, but in binary64 0.2 + 0.1 is 0.30000000000000004, and
    product 50 is returned first. *)
Lemma rounding_decides_on_the_shelf :
  let signals :=
    [(rnd64 (1 # 2), []); (rnd64 (2 # 5), []); (rnd64 (3 # 10), [30%Z]);
     (rnd64 (1 # 5), [50%Z]); (rnd64 (1 # 5), [20; 50]%Z)] in
  let exact :=
    [(1 # 2, []); (2 # 5, []); (3 # 10, [30%Z]); (1 # 5, [50%Z]);
     (1 # 5, [20; 50]%Z)]%Q in
  Shelf.alice_request [] Duo.empty_cache
  = (Ok (Fused Shelf.alice_list), Shelf.stored Shelf.alice_list)
  /\ first_occurrences [30; 50; 20; 50]%Z = [30; 50; 20]%Z
  /\ (spec_aggregate_score exact 30 == spec_aggregate_score exact 50)%Q
  /\ (computed_aggregate_score signals 30
      == 5404319552844595 # 18014398509481984)%Q
  /\ (computed_aggregate_score signals 50
      == 1351079888211149 # 4503599627370496)%Q
  /\ (computed_aggregate_score signals 30 < computed_aggregate_score signals 50)%Q.
Proof. cbv zeta. repeat split; by_computation. Qed.

Lemma recommend_products_hybrid_recomputes_unusable_witness :
  Duo.alice_request DuoRun.stale_cache
  = computed_outcome (Duo.friday [0; 1]%nat) 1 ["Holiday"] Duo.users Duo.products
      Duo.contextual_signals Duo.browsing_history Duo.purchase_history
      Duo.popular_products Duo.user_factors Duo.item_factors Duo.user_index
      Duo.product_index Duo.user_profiles Duo.product_feature_vectors 2
      DuoRun.stale_cache.
Proof.
  apply (recommend_products_hybrid_recomputes_unusable (Duo.friday [0; 1]%nat)
           1%Z ["Holiday"] Duo.users Duo.products Duo.contextual_signals
           Duo.browsing_history Duo.purchase_history Duo.popular_products
           Duo.user_factors Duo.item_factors Duo.user_index Duo.product_index
           Duo.user_profiles Duo.product_feature_vectors 2 DuoRun.stale_cache
           DuoRun.stale_cache).
  - reflexivity.
  - right. left. by_computation.
Defined.

(** ** Popularity ranking: a product outside the catalog, and the top score *)

Lemma weigh_products_missing products rating_weight frequency_weight freq acc pid :
  pid ∈ freq.*1 -> dict_get products pid = None ->
  weigh_products products rating_weight frequency_weight freq acc = Raise KeyError.
Proof.
  revert acc. induction freq as [|[p n] freq IH]; intros acc Hin Hnone.
  - by apply elem_of_nil in Hin.
  - cbn [weigh_products]. unfold dict_item.
    destruct (dict_get products p) as [q|] eqn:Hp; [|done].
    cbn [mbind result_bind]. apply IH; [|done].
    rewrite fmap_cons in Hin. apply elem_of_cons in Hin as [Hq|Hin]; [|done].
    simpl in Hq. congruence.
Qed.

(** X23.  When some purchase record names a product that the catalog
    does not hold, [compute_product_popularity] ends in [KeyError],
    whatever the weights and the other records are: no ranking is
    returned. *)
Theorem compute_product_popularity_unknown_product
    (purchase_history : dict Z (list purchase)) (products : dict Z product)
    (rating_weight frequency_weight : Q) (pid : Z) :
  pid ∈ purchased_id <$> concat (dict_values purchase_history) ->
  dict_get products pid = None ->
  compute_product_popularity purchase_history products rating_weight
    frequency_weight = Raise KeyError.
Proof.
  intros Hin Hnone. unfold compute_product_popularity.
  rewrite (weigh_products_missing _ _ _ _ _ pid); [done | | done].
  by apply purchase_frequency_elem.
Qed.

Lemma compute_product_popularity_unknown_product_witness :
  compute_product_popularity [(1%Z, [(101%Z, 1%Z, "2025-03-04 10:00:00")]);
                              (2%Z, [(999%Z, 1%Z, "2025-03-04 12:00:00")])]
    Duo.products default_rating_weight default_frequency_weight
  = Raise KeyError.
Proof.
  apply (compute_product_popularity_unknown_product _ _ _ _ 999%Z).
  - simpl. in_list.
  - reflexivity.
Defined.



(** ** Clearing a user's cache *)

Lemma pretty_N_go_lacks_colon (x : N) (s : string) :
  lacks ":" s = true -> lacks ":" (pretty_N_go x s) = true.
Proof.
  revert s. induction (N.lt_wf_0 x) as [x _ IH]; intros s Hs.
  assert (x = 0 \/ 0 < x)%N as [->|Hpos] by lia.
  - by rewrite pretty_N_go_0.
  - rewrite pretty_N_go_step by done. apply IH.
    { by apply N.div_lt. }
    unfold pretty_N_char. by repeat case_match.
Qed.

Lemma pretty_Z_lacks_colon (z : Z) : lacks ":" (pretty z) = true.
Proof.
  assert (forall p : positive, lacks ":" (pretty p) = true) as Hpos.
  { intros p. unfold pretty, pretty_positive, pretty, pretty_N.
    rewrite decide_False by done. by apply pretty_N_go_lacks_colon. }
  destruct z as [|p|p]; unfold pretty, pretty_Z; [done | apply Hpos |].
  rewrite append_cons_l, append_nil_l. simpl. apply Hpos.
Qed.

Lemma prefix_append (a b c : string) :
  String.prefix (a +:+ b) (a +:+ c) = String.prefix b c.
Proof.
  induction a as [|x a IH]; [done|].
  rewrite !append_cons_l. simpl. by destruct (ascii_dec x x).
Qed.

Lemma prefix_self_append (p s : string) : String.prefix p (p +:+ s) = true.
Proof.
  induction p as [|x p IH]; [by destruct s|].
  rewrite append_cons_l. simpl. by destruct (ascii_dec x x).
Qed.

Lemma prefix_up_to_colon (x y s : string) :
  lacks ":" x = true -> lacks ":" y = true ->
  String.prefix (x +:+ ":") (y +:+ ":" +:+ s) = true -> x = y.
Proof.
  revert y. induction x as [|a x IH]; intros [|b y] Hx Hy;
    rewrite ?append_cons_l, ?append_nil_l; cbn [String.prefix];
    cbn [lacks] in Hx, Hy.
  - done.
  - destruct (ascii_dec ":" b) as [<-|Hne]; [|done].
    by rewrite Ascii.eqb_refl in Hy.
  - destruct (ascii_dec a ":") as [->|Hne]; [|done].
    by rewrite Ascii.eqb_refl in Hx.
  - destruct (ascii_dec a b) as [<-|Hne]; [|done].
    destruct (Ascii.eqb a ":"); [done|].
    intros Hp. f_equal. by apply IH.
Qed.

Lemma redis_connect_up r : outages r = [] -> redis_connect r = (false, r).
Proof. unfold redis_connect. by intros ->. Qed.

Lemma redis_delete_spares key r k :
  k <> key -> entries (redis_delete key r).2 !! k = entries r !! k.
Proof.
  intros Hne. unfold redis_delete.
  pose proof (redis_connect_entries r) as He.
  destruct (redis_connect r) as [[] r1]; simpl in *; rewrite <- He; [done|].
  by apply lookup_delete_ne.
Qed.

Lemma delete_keys_spares keys r k :
  k ∉ keys -> entries (delete_keys keys r).2 !! k = entries r !! k.
Proof.
  revert r. induction keys as [|key keys IH]; intros r Hout; [done|].
  apply not_elem_of_cons in Hout as [Hne Hout].
  cbn [delete_keys].
  pose proof (redis_delete_spares key r k Hne) as Hkey.
  destruct (redis_delete key r) as [[[]|e] r1]; simpl in Hkey.
  - by rewrite IH.
  - done.
Qed.

Lemma delete_keys_reached keys r :
  outages r = [] ->
  exists r',
    delete_keys keys r = (Ok tt, r') /\ outages r' = []
    /\ forall k, entries r' !! k = if decide (k ∈ keys) then None else entries r !! k.
Proof.
  revert r. induction keys as [|key keys IH]; intros r Hup.
  - exists r. split; [done|]. split; [done|]. intros k.
    rewrite decide_False; [done | apply not_elem_of_nil].
  - cbn [delete_keys]. unfold redis_delete. rewrite (redis_connect_up r Hup).
    destruct (IH {| entries := delete key (entries r); outages := outages r |})
      as (r' & -> & Hup' & Hk); [done|].
    exists r'. split; [done|]. split; [done|]. intros k. rewrite Hk. simpl.
    destruct (decide (k ∈ keys)) as [Hin|Hout].
    + rewrite decide_True; [done | apply elem_of_cons; by right].
    + destruct (decide (k = key)) as [->|Hne].
      * rewrite decide_True; [apply lookup_delete_eq | apply elem_of_cons; by left].
      * rewrite decide_False; [by apply lookup_delete_ne|].
        apply not_elem_of_cons. done.
Qed.

Lemma redis_keys_state scan prefix r :
  entries (redis_keys scan prefix r).2 = entries r.
Proof.
  unfold redis_keys. pose proof (redis_connect_entries r) as He.
  by destruct (redis_connect r) as [[] r1].
Qed.

Lemma redis_keys_prefixed scan prefix r keys r1 key :
  redis_keys scan prefix r = (Ok keys, r1) -> key ∈ keys ->
  String.prefix prefix key = true.
Proof.
  unfold redis_keys. destruct (redis_connect r) as [[] r']; [done|].
  intros [= <- <-] Hin. by apply list_elem_of_filter in Hin as [Hp _].
Qed.

Lemma other_user_key_not_prefixed (user_id other : Z) (season_input : list string) :
  other <> user_id ->
  String.prefix ("recommendations:" +:+ pretty user_id +:+ ":")
    ("recommendations:" +:+ pretty other +:+ ":" +:+ String.concat "," season_input)
  = false.
Proof.
  intros Hne. rewrite prefix_append.
  destruct (String.prefix _ _) eqn:Hp; [|done].
  apply prefix_up_to_colon in Hp; [|apply pretty_Z_lacks_colon..].
  apply (inj pretty) in Hp. congruence.
Qed.

(** X25.  When the store is reachable and its listing of keys shows each
    stored key, [clear_cache_for_user] succeeds and leaves no entry under
    any key that starts with the user's prefix, so that every later read of
    that user's recommendations, for whatever season labels, is a miss;
    entries under the other keys stay as they were. *)
Theorem clear_cache_for_user_clears
    (scan : gmap string (nat * blob) -> list string) (user_id : Z) (r : redis) :
  (forall m, scan m ≡ₚ (map_to_list m).*1) ->
  outages r = [] ->
  exists r',
    clear_cache_for_user scan user_id r = (Ok tt, r')
    /\ outages r' = []
    /\ (forall key,
          entries r' !! key
          = if String.prefix ("recommendations:" +:+ pretty user_id +:+ ":") key
            then None else entries r !! key)
    /\ (forall season_input,
          get_cached_recommendations user_id season_input r' = (Ok None, r')).
Proof.
  intros Hscan Hup. unfold clear_cache_for_user, redis_keys.
  rewrite (redis_connect_up r Hup).
  set (prefix := "recommendations:" +:+ pretty user_id +:+ ":").
  set (keys := filter (fun key => String.prefix prefix key = true) (scan (entries r))).
  destruct (delete_keys_reached keys r Hup) as (r' & -> & Hup' & Hk).
  assert (forall key,
            entries r' !! key
            = if String.prefix prefix key then None else entries r !! key) as Hcleared.
  { intros key. rewrite Hk. subst keys.
    destruct (String.prefix prefix key) eqn:Hp.
    - destruct (decide _) as [Hin|Hout]; [done|].
      destruct (entries r !! key) as [v|] eqn:Hv; [|done].
      exfalso. apply Hout. apply list_elem_of_filter. split; [done|].
      rewrite Hscan. apply list_elem_of_fmap. exists (key, v).
      split; [done|]. by apply elem_of_map_to_list.
    - rewrite decide_False; [done|].
      intros Hin. apply list_elem_of_filter in Hin as [Hin _]. congruence. }
  exists r'. split; [done|]. split; [done|]. split; [done|].
  intros season_input.
  rewrite (get_cached_recommendations_found user_id season_input r' r'
             (redis_connect_up r' Hup')).
  rewrite Hcleared. subst prefix.
  replace ("recommendations:" +:+ pretty user_id +:+ ":"
             +:+ String.concat "," season_input)
    with (("recommendations:" +:+ pretty user_id +:+ ":")
            +:+ String.concat "," season_input).
  - by rewrite prefix_self_append.
  - generalize (pretty user_id). intros s.
    repeat first [rewrite append_nil_l | rewrite append_cons_l].
    do 16 f_equal. induction s as [|c s IH]; [done|].
    rewrite !append_cons_l. by rewrite IH.
Qed.

(** X26.  Clearing one user's cache never touches what is stored for
    another user: whatever the listing returns and however the call ends,
    also when the connection fails midway, the entry of any other user id
    under any season labels is the one that was there before.  The colon
    that closes the prefix keeps user 1 apart from user 11. *)
Theorem clear_cache_for_user_spares_other_users
    (scan : gmap string (nat * blob) -> list string) (user_id other : Z)
    (season_input : list string) (r : redis) :
  other <> user_id ->
  entries (clear_cache_for_user scan user_id r).2
    !! ("recommendations:" +:+ pretty other +:+ ":" +:+ String.concat "," season_input)
  = entries r
    !! ("recommendations:" +:+ pretty other +:+ ":" +:+ String.concat "," season_input).
Proof.
  intros Hne. unfold clear_cache_for_user.
  pose proof (redis_keys_state scan ("recommendations:" +:+ pretty user_id +:+ ":") r)
    as Hstate.
  pose proof (redis_keys_prefixed scan ("recommendations:" +:+ pretty user_id +:+ ":") r)
    as Hkeys.
  destruct (redis_keys _ _ _) as [[keys|e] r1]; simpl in Hstate; rewrite <- Hstate;
    [|done].
  apply delete_keys_spares. intros Hin.
  apply (Hkeys keys r1 _ eq_refl) in Hin.
  by rewrite other_user_key_not_prefixed in Hin.
Qed.

Lemma clear_cache_for_user_clears_witness :
  exists r',
    clear_cache_for_user DuoRun.listing 1 DuoRun.shared_cache = (Ok tt, r')
    /\ outages r' = []
    /\ (forall key,
          entries r' !! key
          = if String.prefix ("recommendations:" +:+ pretty 1%Z +:+ ":") key
            then None else entries DuoRun.shared_cache !! key)
    /\ (forall season_input,
          get_cached_recommendations 1 season_input r' = (Ok None, r')).
Proof.
  apply (clear_cache_for_user_clears DuoRun.listing 1%Z DuoRun.shared_cache).
  - done.
  - reflexivity.
Defined.

Lemma clear_cache_for_user_spares_other_users_witness :
  entries (clear_cache_for_user DuoRun.listing 1 DuoRun.shared_cache).2
    !! "recommendations:11:Holiday"
  = Some (default_ttl, Json [Bare 101]).
Proof.
  etransitivity;
    [exact (clear_cache_for_user_spares_other_users DuoRun.listing 1%Z 11%Z
              ["Holiday"] DuoRun.shared_cache ltac:(lia))|].
  by_computation.
Defined.

(** ** Cached user profiles *)

(** X27.  When the store holds nothing usable under the user's key,
    [get_user_profile] ends exactly as [create_user_profile] does, with a
    profile, a built-in error or [StopIteration], whether the store answers
    or fails on the read or on the write. *)
Theorem get_user_profile_survives_outages
    (iter_set : gset Z -> list Z) (user_id : Z)
    (browsing_history : dict Z (list browse))
    (purchase_history : dict Z (list purchase))
    (product_feature_vectors : dict Z (list Q)) (c : cache (list Q)) :
  vacant ("user_profile:" +:+ pretty user_id) c ->
  (get_user_profile iter_set user_id browsing_history purchase_history
     product_feature_vectors c).1
  = create_user_profile iter_set user_id browsing_history purchase_history
      product_feature_vectors.
Proof.
  unfold vacant, get_user_profile, cache_get, cache_setex. intros Hvacant.
  destruct (cache_connect c) as [down c1] eqn:Hc1.
  assert (slots c1 = slots c) as Hslots.
  { rewrite <- (cache_connect_slots c). by rewrite Hc1. }
  destruct down; simpl; [done|].
  rewrite Hslots.
  destruct (slots c !! _) as [[t [a|[|ch raw]]]|]; simpl; try done.
  all: destruct (create_user_profile _ _ _ _ _) as [[e|]|a]; simpl;
    [by destruct (decide (e = RedisError))
    | done
    | destruct (cache_connect c1) as [[] c2]; simpl; done].
Qed.

Lemma get_user_profile_survives_outages_witness :
  (get_user_profile elements 1 Duo.browsing_history Duo.purchase_history
     Duo.product_feature_vectors {| slots := ∅; faults := [false; true] |}).1
  = create_user_profile elements 1 Duo.browsing_history Duo.purchase_history
      Duo.product_feature_vectors.
Proof.
  apply get_user_profile_survives_outages. by_computation.
Defined.

(** X28.  A profile is cached under the user id alone.  On a store that
    answers, once a call has computed and stored a profile, every later
    call for that user returns the stored profile, whatever browsing
    history, purchase history and feature vectors it is given: a purchase
    made since does not show in it. *)
Theorem get_user_profile_cached_by_id
    (iter_set iter_set' : gset Z -> list Z) (user_id : Z)
    (browsing_history browsing_history' : dict Z (list browse))
    (purchase_history purchase_history' : dict Z (list purchase))
    (product_feature_vectors product_feature_vectors' : dict Z (list Q))
    (v : list Q) (c : cache (list Q)) :
  faults c = [] ->
  vacant ("user_profile:" +:+ pretty user_id) c ->
  create_user_profile iter_set user_id browsing_history purchase_history
    product_feature_vectors = inr v ->
  let first_call :=
    get_user_profile iter_set user_id browsing_history purchase_history
      product_feature_vectors c in
  first_call.1 = inr v
  /\ get_user_profile iter_set' user_id browsing_history' purchase_history'
       product_feature_vectors' first_call.2
     = (inr v, first_call.2).
Proof.
  intros Hfaults Hvacant Hcompute. cbv zeta.
  assert (get_user_profile iter_set user_id browsing_history purchase_history
            product_feature_vectors c
          = (inr v, {| slots := <["user_profile:" +:+ pretty user_id
                                  := (day_ttl, Encoded v)]> (slots c);
                       faults := [] |})) as ->.
  { unfold vacant in Hvacant.
    unfold get_user_profile, cache_get, cache_setex, cache_connect.
    rewrite Hcompute, Hfaults. simpl.
    destruct (slots c !! _) as [[t [a'|[|ch raw]]]|]; simpl; try done.
    all: rewrite Hfaults; simpl; by rewrite Hfaults. }
  split; [done|].
  unfold get_user_profile, cache_get, cache_connect. simpl.
  by rewrite lookup_insert_eq.
Qed.

Lemma get_user_profile_cached_by_id_witness :
  let first_call :=
    get_user_profile elements 1 Duo.browsing_history Duo.purchase_history
      Duo.product_feature_vectors {| slots := ∅; faults := [] |} in
  first_call.1 = inr Duo.vector_101
  /\ get_user_profile elements 1 Duo.browsing_history
       [(1%Z, [(101%Z, 1%Z, "2025-03-04 10:00:00"); (102%Z, 1%Z, "2025-03-05 10:00:00")])]
       Duo.product_feature_vectors first_call.2
     = (inr Duo.vector_101, first_call.2).
Proof.
  apply (get_user_profile_cached_by_id elements elements 1%Z
           Duo.browsing_history Duo.browsing_history Duo.purchase_history
           [(1%Z, [(101%Z, 1%Z, "2025-03-04 10:00:00");
                   (102%Z, 1%Z, "2025-03-05 10:00:00")])]
           Duo.product_feature_vectors Duo.product_feature_vectors
           Duo.vector_101 {| slots := ∅; faults := [] |}).
  - reflexivity.
  - by_computation.
  - by_computation.
Defined.

(** ** Content-based recommendations *)

Lemma cbf_collect_filter keys (purchased : gset Z) indices neighbours acc :
  Forall2 (fun i pid => keys !! i = Some pid) indices neighbours ->
  cbf_collect keys purchased indices acc
  = Ok (acc ++ filter (fun pid => pid ∉ purchased) neighbours).
Proof.
  intros H. revert acc.
  induction H as [|i pid indices neighbours Hi _ IH]; intros acc.
  - by rewrite app_nil_r.
  - cbn [cbf_collect]. unfold list_item. rewrite Hi. cbn [mbind result_bind].
    rewrite IH, filter_cons.
    destruct (decide (pid ∉ purchased)); [by rewrite <- app_assoc | done].
Qed.

(** X29.  [recommend_products_cbf] asks for [top_n] neighbours of the
    user's profile and only then drops the ones the user has purchased:
    when the search returns at most [top_n] positions, all of them
    positions of products, the result is the list of these products in
    the order of the search, without the purchased ones.  Nothing takes
    the place of a dropped neighbour, so the list is shorter than the
    search result by the number of purchased neighbours. *)
Theorem recommend_products_cbf_drops_purchased_neighbours (rt : runtime)
    (user_id : Z) (user_profiles product_feature_vectors : dict Z (list Q))
    (purchase_history : dict Z (list purchase)) (top_n : nat)
    (user_profile : list Q) (indices : list nat) (neighbours : list Z) :
  dict_get user_profiles user_id = Some user_profile ->
  kneighbors rt top_n (dict_values product_feature_vectors) user_profile
  = Ok indices ->
  (length indices <= top_n)%nat ->
  Forall2 (fun i pid => dict_keys product_feature_vectors !! i = Some pid)
    indices neighbours ->
  recommend_products_cbf rt user_id user_profiles product_feature_vectors
    purchase_history top_n
  = Ok (filter (fun pid => pid ∉ purchased_products purchase_history user_id)
          neighbours).
Proof.
  intros Hprofile Hsearch Hlen Hneighbours.
  unfold recommend_products_cbf, dict_item. rewrite Hprofile.
  cbn [mbind result_bind]. rewrite Hsearch. cbn [mbind result_bind].
  rewrite (cbf_collect_filter _ _ _ neighbours) by done.
  cbn [mbind result_bind]. rewrite app_nil_l. f_equal.
  apply take_ge. etransitivity; [apply length_filter|].
  by rewrite <- (Forall2_length _ _ _ Hneighbours).
Qed.

Lemma recommend_products_cbf_drops_purchased_neighbours_witness :
  recommend_products_cbf (Duo.friday [0; 1]%nat) 1 Duo.user_profiles
    Duo.product_feature_vectors Duo.purchase_history 1
  = Ok (filter (fun pid => pid ∉ purchased_products Duo.purchase_history 1)
          [101%Z]).
Proof.
  apply (recommend_products_cbf_drops_purchased_neighbours _ _ _ _ _ _
           Duo.vector_101 [0%nat] [101%Z]).
  - reflexivity.
  - reflexivity.
  - simpl. lia.
  - repeat constructor.
Defined.
